(** * MEME trading bot: risk governor, exit evaluator, paper engine, features

    A shallow embedding of the decision-and-risk core of the bot
    (risk-governor.ts, the strategy engine's [checkExitConditions], the paper
    trading engine and the feature aggregator) together with the properties
    its specification states about them.

    Numbers.  Every TypeScript [number] is an IEEE-754 binary64 value.  They
    are modelled by [spec_float] at precision 53 and maximal exponent 1024,
    with the correctly rounded operations of [SpecFloat]; comparisons are the
    IEEE ones (false on NaN).  Nothing is idealised: rounding, signed zeros,
    infinities and NaN behave as in the running program.

    Effects.  The modules keep process-wide mutable state and call
    [Date.now()], [Math.random()], [uuidv4()] and the persistent store.  All
    of this is threaded through one [World] value by a small state monad. *)

From Stdlib Require Import ZArith Bool List String Lia Sorted.
From Stdlib Require Import Floats.SpecFloat.
From stdpp Require Import gmap strings.
Import ListNotations.

Set Default Proof Using "Type".

(* ===================================================================== *)
(** ** Binary64 numbers *)
(* ===================================================================== *)

Module F64.

Definition num : Type := spec_float.

Definition prec : Z := 53.
Definition emax : Z := 1024.

Definition NaN : num := S754_nan.

(** An integer literal; exact for |z| <= 2^53. *)
Definition of_Z (z : Z) : num := binary_normalize prec emax z 0 false.

Definition add : num -> num -> num := SFadd prec emax.
Definition sub : num -> num -> num := SFsub prec emax.
Definition mul : num -> num -> num := SFmul prec emax.
Definition div : num -> num -> num := SFdiv prec emax.
Definition neg : num -> num := SFopp.
Definition ltb : num -> num -> bool := SFltb.
Definition leb : num -> num -> bool := SFleb.
Definition gtb (x y : num) : bool := SFltb y x.
Definition geb (x y : num) : bool := SFleb y x.

(** A decimal literal [n/d] with [n] and [d] exactly representable, such
    as 0.02 = 2/100: the literal denotes the double nearest to the
    rational, which is what the correctly rounded quotient returns. *)
Definition dec (n d : Z) : num := div (of_Z n) (of_Z d).

Definition is_nan (x : num) : bool :=
  match x with S754_nan => true | _ => false end.

(** JavaScript truthiness of a number: everything but 0, -0 and NaN. *)
Definition truthy (x : num) : bool :=
  match x with
  | S754_zero _ | S754_nan => false
  | _ => true
  end.

Definition Math_abs : num -> num := SFabs.

(** [Math.max] and [Math.min] of two arguments: NaN if either is NaN,
    and +0 is larger than -0. *)
Definition Math_max (a b : num) : num :=
  if is_nan a || is_nan b then NaN
  else if ltb a b then b
  else if ltb b a then a
  else match a with S754_zero true => b | _ => a end.

Definition Math_min (a b : num) : num :=
  if is_nan a || is_nan b then NaN
  else if ltb a b then a
  else if ltb b a then b
  else match a with S754_zero false => b | _ => a end.

(** [Math.round]: the integer nearest to [x], ties towards +infinity,
    computed exactly as floor(x + 1/2) on the integer mantissa; a zero
    result keeps the sign of [x]. *)
Definition Math_round (x : num) : num :=
  match x with
  | S754_finite s m e =>
      if (0 <=? e)%Z then x
      else
        let v := cond_Zopp s (Zpos m) in
        let n := ((2 * v + 2 ^ (- e)) / 2 ^ (- e + 1))%Z in
        binary_normalize prec emax n 0 s
  | _ => x
  end.

Declare Scope num_scope.
Delimit Scope num_scope with num.
Bind Scope num_scope with num.
Infix "+" := add : num_scope.
Infix "-" := sub : num_scope.
Infix "*" := mul : num_scope.
Infix "/" := div : num_scope.
Notation "- x" := (neg x) : num_scope.
Infix "<?" := ltb : num_scope.
Infix "<=?" := leb : num_scope.
Infix ">?" := gtb : num_scope.
Infix ">=?" := geb : num_scope.

(** The arithmetic is evaluated on closed terms only; proofs never look
    inside an operation applied to an unknown number. *)
#[global] Arguments of_Z : simpl never.
#[global] Arguments dec : simpl never.
#[global] Arguments add : simpl never.
#[global] Arguments sub : simpl never.
#[global] Arguments mul : simpl never.
#[global] Arguments div : simpl never.
#[global] Arguments neg : simpl never.
#[global] Arguments ltb : simpl never.
#[global] Arguments leb : simpl never.
#[global] Arguments gtb : simpl never.
#[global] Arguments geb : simpl never.
#[global] Arguments Math_abs : simpl never.
#[global] Arguments Math_max : simpl never.
#[global] Arguments Math_min : simpl never.
#[global] Arguments Math_round : simpl never.
#[global] Arguments truthy : simpl never.

End F64.

Import F64.

Open Scope num_scope.

(* ===================================================================== *)
(** ** Shared types (shared/types.ts) *)
(* ===================================================================== *)

(** A template literal.  Converting a number to text ([${x}] and
    [x.toFixed(d)]) is kept symbolic; the literal pieces are real strings. *)
Inductive Text : Type :=
  | TStr (s : string)
  | TNum (x : num)
  | TFixed (x : num) (digits : nat)
  | TUndefined
  | TCat (a b : Text).

Definition TOpt (o : option Text) : Text :=
  match o with Some t => t | None => TUndefined end.

Record TakeProfitLevel : Type := {
  pctGain : num;
  sellPct : num;
  triggered : bool;
}.

Record RiskLimits : Type := {
  lim_maxRiskPerTradePct : num;
  lim_maxExposurePct : num;
  lim_dailyMaxDrawdownPct : num;
  lim_maxTradesPerHour : num;
  lim_maxTradesPerDay : num;
  lim_maxConsecutiveLosses : num;
  lim_stopLossPct : num;
  lim_takeProfitLevels : list TakeProfitLevel;
  lim_trailingStopPct : num;
  lim_timeStopMinutes : num;
}.

Record RiskState : Type := {
  equitySol : num;
  startOfDayEquity : num;
  todayPnlSol : num;
  todayPnlPct : num;
  todayDrawdownPct : num;
  currentExposureSol : num;
  currentExposurePct : num;
  openPositionCount : num;
  todayTradeCount : num;
  hourTradeCount : num;
  consecutiveLosses : num;
  isHalted : bool;
  haltReason : option Text;
  haltedAt : option num;
  resumeAt : option num;
  limits : RiskLimits;
}.

Inductive Severity : Type := INFO | WARNING | CRITICAL.

Record Incident : Type := {
  inc_id : string;
  inc_timestamp : num;
  inc_severity : Severity;
  inc_category : string;
  inc_message : Text;
  inc_autoAction : option string;
  inc_resolved : bool;
}.

Inductive PositionStatus : Type := OPEN | PARTIALLY_CLOSED | CLOSED.

Inductive OrderSide : Type := BUY_SIDE | SELL_SIDE.

Inductive OrderSource : Type :=
  | ENTRY_SIGNAL | STOP_LOSS | TAKE_PROFIT | TRAILING_STOP | TIME_STOP
  | MANUAL | KILL_SWITCH.

Inductive OrderStatus : Type :=
  | PENDING | SUBMITTED | CONFIRMED | FAILED | EXPIRED | CANCELLED.

(** [`paper-buy-${mint}-${Date.now()}`] and its sell counterpart. *)
Inductive IdempotencyKey : Type :=
  | PaperBuyKey (mint : string) (at_ms : num)
  | PaperSellKey (mint : string) (at_ms : num).

Record Order : Type := {
  ord_id : string;
  ord_idempotencyKey : IdempotencyKey;
  ord_tokenMint : string;
  ord_tokenSymbol : string;
  ord_side : OrderSide;
  ord_source : OrderSource;
  ord_amountSol : num;
  ord_amountTokens : num;
  ord_estimatedPrice : num;
  ord_executedPrice : option num;
  ord_slippageBps : option num;
  ord_feeSol : option num;
  ord_status : OrderStatus;
  ord_txSignature : option string;
  ord_isPaper : bool;
  ord_decisionCardId : option string;
  ord_createdAt : num;
  ord_updatedAt : num;
  ord_retryCount : num;
  ord_errorMessage : option string;
}.

Record Position : Type := {
  pos_id : string;
  pos_tokenMint : string;
  pos_tokenSymbol : string;
  pos_status : PositionStatus;
  entryPrice : num;
  currentPrice : num;
  entryAmountSol : num;
  remainingTokens : num;
  totalTokensBought : num;
  totalTokensSold : num;
  realizedPnlSol : num;
  unrealizedPnlSol : num;
  unrealizedPnlPct : num;
  stopLossPrice : num;
  takeProfitLevels : list TakeProfitLevel;
  pos_trailingStopPct : num;
  trailingStopPrice : num;
  highWaterMark : num;
  pos_timeStopMinutes : num;
  entryTime : num;
  lastUpdateTime : num;
  pos_isPaper : bool;
  pos_decisionCardId : string;
  exitReason : option OrderSource;
}.

Record ExecutionPlan : Type := {
  outputMint : string;
  amountInSol : num;
  estimatedSlippageBps : num;
  estimatedOutputTokens : num;
  priorityFeeLamports : num;
  splitOrders : num;
}.

(** The part of [BotConfig] read by the modules below; a configured
    take-profit level carries no [triggered] flag. *)
Record BotConfig : Type := {
  riskPerTradePct : num;
  maxExposurePct : num;
  dailyMaxDrawdownPct : num;
  maxTradesPerHour : num;
  maxTradesPerDay : num;
  maxConsecutiveLosses : num;
  stopLossPct : num;
  cfg_takeProfitLevels : list (num * num);
  trailingStopPct : num;
  timeStopMinutes : num;
  paperStartingEquity : num;
  paperSlippageMultiplier : num;
  paperFailureRate : num;
  paperLatencyMs : num;
}.

(** config/defaults.ts *)
Definition DEFAULT_CONFIG : BotConfig := {|
  riskPerTradePct := dec 20 100;
  maxExposurePct := of_Z 1;
  dailyMaxDrawdownPct := of_Z 2;
  maxTradesPerHour := of_Z 3;
  maxTradesPerDay := of_Z 10;
  maxConsecutiveLosses := of_Z 3;
  stopLossPct := of_Z 25;
  cfg_takeProfitLevels := [(of_Z 50, of_Z 30); (of_Z 100, of_Z 30)];
  trailingStopPct := of_Z 15;
  timeStopMinutes := of_Z 60;
  paperStartingEquity := of_Z 10;
  paperSlippageMultiplier := dec 15 10;
  paperFailureRate := dec 5 100;
  paperLatencyMs := of_Z 500;
|}.

Inductive EventType : Type := LAUNCH | BUY | SELL | GRADUATION.

Record PumpEvent : Type := {
  ev_type : EventType;
  ev_tokenMint : string;
  ev_wallet : string;
  ev_amountSol : num;
  ev_timestamp : num;
}.

(* ===================================================================== *)
(** ** The world: module state, store, clock, randomness *)
(* ===================================================================== *)

(** The persistent store (data/database.js) is a collaborator outside the
    core.  Writes to it are recorded as the sequence of calls made, oldest
    first.  Each read query either answers or throws. *)
Inductive StoreCall : Type :=
  | SaveIncident (i : Incident)
  | SaveOrder (o : Order)
  | SavePosition (p : Position).

Record Database : Type := {
  getOpenPositions : option (list Position);
  getTodayTradeCount : option num;
  getHourTradeCount : option num;
  getConsecutiveLosses : option num;
}.

Record World : Type := {
  riskState : RiskState;                         (* risk-governor.ts *)
  eventBuffer : list PumpEvent;                  (* features/engine.ts *)
  tokenEvents : gmap string (list PumpEvent);
  rpcLatencyHistory : list num;
  recentFailures : num;
  recentAttempts : num;
  database : Database;
  storeCalls : list StoreCall;
  clock : nat -> num;                            (* successive Date.now() *)
  clockReads : nat;
  rng : nat -> num;                              (* successive Math.random() *)
  rngDraws : nat;
  uuids : nat -> string;                         (* successive uuidv4() *)
  uuidCount : nat;
}.

Definition M (A : Type) : Type := World -> A * World.

Definition ret {A} (a : A) : M A := fun w => (a, w).
Definition bind {A B} (m : M A) (k : A -> M B) : M B :=
  fun w => let (a, w') := m w in k a w'.

Notation "'let*' x ':=' m 'in' k" := (bind m (fun x => k))
  (at level 10, x pattern, m at level 100, k at level 200).
Notation "m ';;' k" := (bind m (fun _ => k))
  (at level 100, k at level 200, right associativity).

Definition get_risk : M RiskState := fun w => (riskState w, w).

Definition set_world_risk (r : RiskState) (w : World) : World :=
  {| riskState := r; eventBuffer := eventBuffer w; tokenEvents := tokenEvents w;
     rpcLatencyHistory := rpcLatencyHistory w; recentFailures := recentFailures w;
     recentAttempts := recentAttempts w; database := database w;
     storeCalls := storeCalls w;
     clock := clock w; clockReads := clockReads w; rng := rng w;
     rngDraws := rngDraws w; uuids := uuids w; uuidCount := uuidCount w |}.

Definition modify_risk (f : RiskState -> RiskState) : M unit :=
  fun w => (tt, set_world_risk (f (riskState w)) w).

Definition Date_now : M num := fun w =>
  (clock w (clockReads w),
   {| riskState := riskState w; eventBuffer := eventBuffer w; tokenEvents := tokenEvents w;
      rpcLatencyHistory := rpcLatencyHistory w; recentFailures := recentFailures w;
      recentAttempts := recentAttempts w; database := database w;
      storeCalls := storeCalls w;
      clock := clock w; clockReads := S (clockReads w); rng := rng w;
      rngDraws := rngDraws w; uuids := uuids w; uuidCount := uuidCount w |}).

Definition Math_random : M num := fun w =>
  (rng w (rngDraws w),
   {| riskState := riskState w; eventBuffer := eventBuffer w; tokenEvents := tokenEvents w;
      rpcLatencyHistory := rpcLatencyHistory w; recentFailures := recentFailures w;
      recentAttempts := recentAttempts w; database := database w;
      storeCalls := storeCalls w;
      clock := clock w; clockReads := clockReads w; rng := rng w;
      rngDraws := S (rngDraws w); uuids := uuids w; uuidCount := uuidCount w |}).

Definition uuidv4 : M string := fun w =>
  (uuids w (uuidCount w),
   {| riskState := riskState w; eventBuffer := eventBuffer w; tokenEvents := tokenEvents w;
      rpcLatencyHistory := rpcLatencyHistory w; recentFailures := recentFailures w;
      recentAttempts := recentAttempts w; database := database w;
      storeCalls := storeCalls w;
      clock := clock w; clockReads := clockReads w; rng := rng w;
      rngDraws := rngDraws w; uuids := uuids w; uuidCount := S (uuidCount w) |}).

Definition store_call (c : StoreCall) : M unit := fun w =>
  (tt,
   {| riskState := riskState w; eventBuffer := eventBuffer w; tokenEvents := tokenEvents w;
      rpcLatencyHistory := rpcLatencyHistory w; recentFailures := recentFailures w;
      recentAttempts := recentAttempts w; database := database w;
      storeCalls := storeCalls w ++ [c];
      clock := clock w; clockReads := clockReads w; rng := rng w;
      rngDraws := rngDraws w; uuids := uuids w; uuidCount := uuidCount w |}).

Definition saveIncident (i : Incident) : M unit := store_call (SaveIncident i).
Definition saveOrder (o : Order) : M unit := store_call (SaveOrder o).
Definition savePosition (p : Position) : M unit := store_call (SavePosition p).

Definition set_events (buf : list PumpEvent) (tok : gmap string (list PumpEvent)) : M unit :=
  fun w =>
  (tt,
   {| riskState := riskState w; eventBuffer := buf; tokenEvents := tok;
      rpcLatencyHistory := rpcLatencyHistory w; recentFailures := recentFailures w;
      recentAttempts := recentAttempts w; database := database w;
      storeCalls := storeCalls w;
      clock := clock w; clockReads := clockReads w; rng := rng w;
      rngDraws := rngDraws w; uuids := uuids w; uuidCount := uuidCount w |}).

(** Runs the monad's primitives on a world and reads fields back; the
    arithmetic on numbers is left alone. *)
Ltac wsimpl :=
  cbn [bind ret get_risk set_world_risk modify_risk Date_now Math_random
       uuidv4 store_call saveIncident saveOrder savePosition set_events
       fst snd
       riskState eventBuffer tokenEvents rpcLatencyHistory recentFailures
       recentAttempts database storeCalls clock clockReads rng rngDraws
       uuids uuidCount].

(* ===================================================================== *)
(** ** Risk governor (strategy/risk-governor.ts) *)
(* ===================================================================== *)

Module RiskGovernor.

Definition initialRiskState : RiskState := {|
  equitySol := of_Z 10; startOfDayEquity := of_Z 10;
  todayPnlSol := of_Z 0; todayPnlPct := of_Z 0;
  todayDrawdownPct := of_Z 0; currentExposureSol := of_Z 0;
  currentExposurePct := of_Z 0;
  openPositionCount := of_Z 0; todayTradeCount := of_Z 0;
  hourTradeCount := of_Z 0;
  consecutiveLosses := of_Z 0; isHalted := false;
  haltReason := None; haltedAt := None; resumeAt := None;
  limits := {|
    lim_maxRiskPerTradePct := dec 2 10; lim_maxExposurePct := of_Z 1;
    lim_dailyMaxDrawdownPct := of_Z 2;
    lim_maxTradesPerHour := of_Z 3; lim_maxTradesPerDay := of_Z 10;
    lim_maxConsecutiveLosses := of_Z 3;
    lim_stopLossPct := of_Z 25;
    lim_takeProfitLevels :=
      [ {| pctGain := of_Z 50; sellPct := of_Z 30; triggered := false |};
        {| pctGain := of_Z 100; sellPct := of_Z 30; triggered := false |} ];
    lim_trailingStopPct := of_Z 15; lim_timeStopMinutes := of_Z 60 |} |}.

(** [getRiskState] hands out a shallow copy; values are immutable here. *)
Definition getRiskState : M RiskState := get_risk.

(** Field updates of the singleton, one per group of assignments. *)
Definition with_equity (sol pnlSol pnlPct dd : num) (r : RiskState) : RiskState :=
  {| equitySol := sol; startOfDayEquity := startOfDayEquity r;
     todayPnlSol := pnlSol; todayPnlPct := pnlPct; todayDrawdownPct := dd;
     currentExposureSol := currentExposureSol r;
     currentExposurePct := currentExposurePct r;
     openPositionCount := openPositionCount r;
     todayTradeCount := todayTradeCount r; hourTradeCount := hourTradeCount r;
     consecutiveLosses := consecutiveLosses r; isHalted := isHalted r;
     haltReason := haltReason r; haltedAt := haltedAt r; resumeAt := resumeAt r;
     limits := limits r |}.

Definition with_exposure (count sol pct : num) (r : RiskState) : RiskState :=
  {| equitySol := equitySol r; startOfDayEquity := startOfDayEquity r;
     todayPnlSol := todayPnlSol r; todayPnlPct := todayPnlPct r;
     todayDrawdownPct := todayDrawdownPct r;
     currentExposureSol := sol; currentExposurePct := pct;
     openPositionCount := count;
     todayTradeCount := todayTradeCount r; hourTradeCount := hourTradeCount r;
     consecutiveLosses := consecutiveLosses r; isHalted := isHalted r;
     haltReason := haltReason r; haltedAt := haltedAt r; resumeAt := resumeAt r;
     limits := limits r |}.

Definition with_counts (today hour losses : num) (r : RiskState) : RiskState :=
  {| equitySol := equitySol r; startOfDayEquity := startOfDayEquity r;
     todayPnlSol := todayPnlSol r; todayPnlPct := todayPnlPct r;
     todayDrawdownPct := todayDrawdownPct r;
     currentExposureSol := currentExposureSol r;
     currentExposurePct := currentExposurePct r;
     openPositionCount := openPositionCount r;
     todayTradeCount := today; hourTradeCount := hour;
     consecutiveLosses := losses; isHalted := isHalted r;
     haltReason := haltReason r; haltedAt := haltedAt r; resumeAt := resumeAt r;
     limits := limits r |}.

Definition with_halt (h : bool) (reason : option Text) (at_ms : option num)
    (r : RiskState) : RiskState :=
  {| equitySol := equitySol r; startOfDayEquity := startOfDayEquity r;
     todayPnlSol := todayPnlSol r; todayPnlPct := todayPnlPct r;
     todayDrawdownPct := todayDrawdownPct r;
     currentExposureSol := currentExposureSol r;
     currentExposurePct := currentExposurePct r;
     openPositionCount := openPositionCount r;
     todayTradeCount := todayTradeCount r; hourTradeCount := hourTradeCount r;
     consecutiveLosses := consecutiveLosses r; isHalted := h;
     haltReason := reason; haltedAt := at_ms; resumeAt := resumeAt r;
     limits := limits r |}.

Definition with_resumeAt (t : option num) (r : RiskState) : RiskState :=
  {| equitySol := equitySol r; startOfDayEquity := startOfDayEquity r;
     todayPnlSol := todayPnlSol r; todayPnlPct := todayPnlPct r;
     todayDrawdownPct := todayDrawdownPct r;
     currentExposureSol := currentExposureSol r;
     currentExposurePct := currentExposurePct r;
     openPositionCount := openPositionCount r;
     todayTradeCount := todayTradeCount r; hourTradeCount := hourTradeCount r;
     consecutiveLosses := consecutiveLosses r; isHalted := isHalted r;
     haltReason := haltReason r; haltedAt := haltedAt r; resumeAt := t;
     limits := limits r |}.

Definition with_day_reset (r : RiskState) : RiskState :=
  {| equitySol := equitySol r; startOfDayEquity := equitySol r;
     todayPnlSol := of_Z 0; todayPnlPct := of_Z 0;
     todayDrawdownPct := of_Z 0;
     currentExposureSol := currentExposureSol r;
     currentExposurePct := currentExposurePct r;
     openPositionCount := openPositionCount r;
     todayTradeCount := of_Z 0; hourTradeCount := hourTradeCount r;
     consecutiveLosses := consecutiveLosses r; isHalted := isHalted r;
     haltReason := haltReason r; haltedAt := haltedAt r; resumeAt := resumeAt r;
     limits := limits r |}.

Definition updateEquity (sol : num) : M unit :=
  modify_risk (fun r =>
    let pnlSol := sol - startOfDayEquity r in
    let pnlPct := (pnlSol / startOfDayEquity r) * of_Z 100 in
    with_equity sol pnlSol pnlPct
      (if pnlPct <? todayDrawdownPct r then pnlPct else todayDrawdownPct r) r).

(** The body runs inside [try { ... } catch { }]: the first store query
    that throws abandons the remaining assignments and keeps the earlier
    ones. *)
Definition refreshRiskCounters : M unit := fun w =>
  let db := database w in
  let r := riskState w in
  match getOpenPositions db with
  | None => (tt, w)
  | Some positions =>
      let exposure := fold_left (fun s p => s + entryAmountSol p) positions (of_Z 0) in
      let r1 :=
        with_exposure (of_Z (Z.of_nat (length positions))) exposure
          (if equitySol r >? of_Z 0
           then (exposure / equitySol r) * of_Z 100 else of_Z 0) r in
      match getTodayTradeCount db with
      | None => (tt, set_world_risk r1 w)
      | Some today =>
          let r2 := with_counts today (hourTradeCount r1) (consecutiveLosses r1) r1 in
          match getHourTradeCount db with
          | None => (tt, set_world_risk r2 w)
          | Some hour =>
              let r3 := with_counts today hour (consecutiveLosses r2) r2 in
              match getConsecutiveLosses db with
              | None => (tt, set_world_risk r3 w)
              | Some losses =>
                  (tt, set_world_risk (with_counts today hour losses r3) w)
              end
          end
      end
  end.

Record RiskCheck : Type := {
  check : string;
  passed : bool;
  value : Text;
  limit : Text;
}.

Record RiskCheckResult : Type := {
  allowed : bool;
  reason : string;
  details : list RiskCheck;
}.

(** [xs.join(sep)] on strings. *)
Fixpoint join (sep : string) (xs : list string) : string :=
  match xs with
  | [] => EmptyString
  | [x] => x
  | x :: rest => String.append x (String.append sep (join sep rest))
  end.

Definition pct_text (x : num) : Text := TCat (TNum x) (TStr "%").

Definition checkPreTradeRisk (tradeSizeSol : num) (config : BotConfig)
    : M RiskCheckResult :=
  refreshRiskCounters ;;
  let* rs := get_risk in
  let checks : list RiskCheck :=
    [ {| check := "Not halted"; passed := negb (isHalted rs);
         value := if isHalted rs
                  then TCat (TStr "Halted: ") (TOpt (haltReason rs))
                  else TStr "Active";
         limit := TStr "Active" |};
      {| check := "Daily drawdown";
         passed := Math_abs (todayDrawdownPct rs) <? dailyMaxDrawdownPct config;
         value := TCat (TFixed (todayDrawdownPct rs) 2) (TStr "%");
         limit := pct_text (dailyMaxDrawdownPct config) |};
      {| check := "Exposure limit";
         passed := ((currentExposureSol rs + tradeSizeSol) / equitySol rs) * of_Z 100
                   <=? maxExposurePct config;
         value := TCat (TFixed (((currentExposureSol rs + tradeSizeSol) / equitySol rs)
                                * of_Z 100) 2) (TStr "%");
         limit := pct_text (maxExposurePct config) |};
      {| check := "Trade size";
         passed := (tradeSizeSol / equitySol rs) * of_Z 100 <=? riskPerTradePct config;
         value := TCat (TFixed ((tradeSizeSol / equitySol rs) * of_Z 100) 3) (TStr "%");
         limit := pct_text (riskPerTradePct config) |};
      {| check := "Hourly trades";
         passed := hourTradeCount rs <? maxTradesPerHour config;
         value := TNum (hourTradeCount rs);
         limit := TNum (maxTradesPerHour config) |};
      {| check := "Daily trades";
         passed := todayTradeCount rs <? maxTradesPerDay config;
         value := TNum (todayTradeCount rs);
         limit := TNum (maxTradesPerDay config) |};
      {| check := "Consec. losses";
         passed := consecutiveLosses rs <? maxConsecutiveLosses config;
         value := TNum (consecutiveLosses rs);
         limit := TNum (maxConsecutiveLosses config) |} ] in
  let details := checks in
  let allPassed := forallb passed details in
  let failed := List.filter (fun d => negb (passed d)) details in
  ret {| allowed := allPassed;
         reason := if allPassed then "All risk checks passed"
                   else String.append "Blocked: " (join ", " (map check failed));
         details := details |}.

Definition activateKillSwitch (reason : Text) : M unit :=
  let* now := Date_now in
  modify_risk (with_halt true (Some reason) (Some now)) ;;
  let* id := uuidv4 in
  let* ts := Date_now in
  saveIncident {| inc_id := id; inc_timestamp := ts; inc_severity := CRITICAL;
                  inc_category := "KILL_SWITCH";
                  inc_message := TCat (TStr "Kill switch: ") reason;
                  inc_autoAction := Some "All new orders blocked"%string;
                  inc_resolved := false |}.

Definition deactivateKillSwitch : M unit :=
  modify_risk (with_halt false None None).

(** The first [if] of [runAutoHaltChecks]: the daily drawdown rule. *)
Definition haltOnDrawdown (config : BotConfig) : M (list Incident) :=
  let* rs := get_risk in
  if (Math_abs (todayDrawdownPct rs) >=? dailyMaxDrawdownPct config)
     && negb (isHalted rs)
  then
    let msg :=
      TCat (TStr "Daily drawdown: ")
        (TCat (TFixed (todayDrawdownPct rs) 2)
           (TCat (TStr "% (limit: ")
              (TCat (TNum (dailyMaxDrawdownPct config)) (TStr "%)")))) in
    activateKillSwitch msg ;;
    let* now := Date_now in
    modify_risk (with_resumeAt (Some (now + of_Z 24 * of_Z 3600000))) ;;
    let* id := uuidv4 in
    let* ts := Date_now in
    ret [ {| inc_id := id; inc_timestamp := ts; inc_severity := CRITICAL;
             inc_category := "DAILY_DRAWDOWN"; inc_message := msg;
             inc_autoAction := Some "Trading halted for 24h"%string;
             inc_resolved := false |} ]
  else ret [].

(** The second [if] of [runAutoHaltChecks]: the consecutive-loss rule. *)
Definition haltOnLosses (config : BotConfig) : M (list Incident) :=
  let* rs := get_risk in
  if (consecutiveLosses rs >=? maxConsecutiveLosses config)
     && negb (isHalted rs)
  then
    let msg := TCat (TNum (consecutiveLosses rs)) (TStr " consecutive losses") in
    activateKillSwitch msg ;;
    let* id := uuidv4 in
    let* ts := Date_now in
    ret [ {| inc_id := id; inc_timestamp := ts; inc_severity := WARNING;
             inc_category := "CONSECUTIVE_LOSSES"; inc_message := msg;
             inc_autoAction := Some "Trading paused"%string;
             inc_resolved := false |} ]
  else ret [].

(** [incidents] starts empty and each rule that fires pushes one entry. *)
Definition runAutoHaltChecks (config : BotConfig) : M (list Incident) :=
  refreshRiskCounters ;;
  let* incidents1 := haltOnDrawdown config in
  let* incidents2 := haltOnLosses config in
  ret (incidents1 ++ incidents2).

Definition resetDailyCounters : M unit :=
  modify_risk with_day_reset ;;
  let* rs := get_risk in
  match resumeAt rs with
  | Some t =>
      if truthy t
      then
        let* now := Date_now in
        if now >=? t then deactivateKillSwitch else ret tt
      else ret tt
  | None => ret tt
  end.

End RiskGovernor.

(* ===================================================================== *)
(** ** Exit evaluator (strategy/engine.ts, [checkExitConditions]) *)
(* ===================================================================== *)

Module StrategyEngine.

Record ExitSignal : Type := {
  sig_type : OrderSource;   (* STOP_LOSS, TAKE_PROFIT, TRAILING_STOP or TIME_STOP *)
  sig_sellPct : num;
  sig_reason : Text;
  sig_price : num;
}.

Definition pnlPctOf (position : Position) (currentPrice : num) : num :=
  ((currentPrice - entryPrice position) / entryPrice position) * of_Z 100.

(** The [for (const level of position.takeProfitLevels)] loop: the first
    level that is not yet triggered and whose gain is reached. *)
Fixpoint firstTakeProfit (pnlPct : num) (levels : list TakeProfitLevel)
    : option TakeProfitLevel :=
  match levels with
  | [] => None
  | level :: rest =>
      if negb (triggered level) && (pnlPct >=? pctGain level)
      then Some level
      else firstTakeProfit pnlPct rest
  end.

(** The body of [checkExitConditions] once [now] has been read. *)
Definition checkExitConditionsAt (now : num) (position : Position)
    (currentPrice : num) (config : BotConfig) : option ExitSignal :=
  let pnlPct := pnlPctOf position currentPrice in
  (* 1. Hard stop-loss *)
  if pnlPct <=? - stopLossPct config then
    Some {| sig_type := STOP_LOSS; sig_sellPct := of_Z 100;
            sig_reason :=
              TCat (TStr "Stop-loss triggered at ")
                (TCat (TFixed pnlPct 1)
                   (TCat (TStr "% (limit: -")
                      (TCat (TNum (stopLossPct config)) (TStr "%)"))));
            sig_price := currentPrice |}
  else
  (* 2. Take-profit levels *)
  match firstTakeProfit pnlPct (takeProfitLevels position) with
  | Some level =>
    Some {| sig_type := TAKE_PROFIT; sig_sellPct := sellPct level;
            sig_reason :=
              TCat (TStr "Take profit at +")
                (TCat (TNum (pctGain level))
                   (TCat (TStr "% (selling ")
                      (TCat (TNum (sellPct level)) (TStr "%)"))));
            sig_price := currentPrice |}
  | None =>
  (* 3. Trailing stop *)
  let trailingStopPrice :=
    highWaterMark position * (of_Z 1 - trailingStopPct config / of_Z 100) in
  if (currentPrice <=? trailingStopPrice) && (pnlPct >? of_Z 0) then
    Some {| sig_type := TRAILING_STOP; sig_sellPct := of_Z 100;
            sig_reason :=
              TCat (TStr "Trailing stop: price ")
                (TCat (TFixed currentPrice 8)
                   (TCat (TStr " fell below ")
                      (TCat (TFixed trailingStopPrice 8)
                         (TCat (TStr " (")
                            (TCat (TNum (trailingStopPct config))
                               (TStr "% from high)"))))));
            sig_price := currentPrice |}
  else
  (* 4. Time stop *)
  let minutesHeld := (now - entryTime position) / of_Z 60000 in
  if (minutesHeld >=? timeStopMinutes config) && (pnlPct <? of_Z 10) then
    Some {| sig_type := TIME_STOP; sig_sellPct := of_Z 100;
            sig_reason :=
              TCat (TStr "Time stop: held ")
                (TCat (TFixed minutesHeld 0)
                   (TCat (TStr " min with only ")
                      (TCat (TFixed pnlPct 1) (TStr "% gain"))));
            sig_price := currentPrice |}
  else None
  end.

(** The function reads the clock and returns a signal; it assigns to
    nothing, neither in the position nor in the module state. *)
Definition checkExitConditions (position : Position) (currentPrice : num)
    (config : BotConfig) : M (option ExitSignal) :=
  let* now := Date_now in
  ret (checkExitConditionsAt now position currentPrice config).

End StrategyEngine.

(* ===================================================================== *)
(** ** Paper trading engine (paper/engine.ts) *)
(* ===================================================================== *)

Module PaperTradingEngine.

Import RiskGovernor.

(** [await new Promise(r => setTimeout(r, jitter))]: one random draw; the
    wait itself changes nothing in the world. *)
Definition simulateLatency (config : BotConfig) : M num :=
  let* r := Math_random in
  ret (paperLatencyMs config * (dec 5 10 + r)).

Definition orderStatus_eqb (a b : OrderStatus) : bool :=
  match a, b with
  | PENDING, PENDING | SUBMITTED, SUBMITTED | CONFIRMED, CONFIRMED
  | FAILED, FAILED | EXPIRED, EXPIRED | CANCELLED, CANCELLED => true
  | _, _ => false
  end.

(** The failure branch of [executeBuy]: a FAILED order is saved and
    returned. *)
Definition failedBuy (plan : ExecutionPlan) (decisionCardId orderId : string)
    (idempotencyKey : IdempotencyKey) : M Order :=
  let* createdAt := Date_now in
  let* updatedAt := Date_now in
  let order :=
    {| ord_id := orderId; ord_idempotencyKey := idempotencyKey;
       ord_tokenMint := outputMint plan;
       ord_tokenSymbol := substring 0 6 (outputMint plan);
       ord_side := BUY_SIDE; ord_source := ENTRY_SIGNAL;
       ord_amountSol := amountInSol plan; ord_amountTokens := of_Z 0;
       ord_estimatedPrice := of_Z 0;
       ord_executedPrice := None; ord_slippageBps := None; ord_feeSol := None;
       ord_status := FAILED; ord_txSignature := None; ord_isPaper := true;
       ord_decisionCardId := Some decisionCardId;
       ord_createdAt := createdAt; ord_updatedAt := updatedAt;
       ord_retryCount := of_Z 0;
       ord_errorMessage := Some "Simulated transaction failure"%string |} in
  saveOrder order ;;
  ret order.

(** The rest of [executeBuy] once the failure draw has passed. *)
Definition filledBuy (config : BotConfig) (plan : ExecutionPlan)
    (decisionCardId orderId : string) (idempotencyKey : IdempotencyKey)
    : M Order :=
  (* Simulate slippage (worse than real by multiplier) *)
  let baseSlippageBps := estimatedSlippageBps plan in
  let* slipDraw := Math_random in
  let actualSlippageBps :=
    Math_round (baseSlippageBps * paperSlippageMultiplier config
                * (dec 8 10 + slipDraw * dec 4 10)) in
  (* Simulate partial fill (90% chance of full fill) *)
  let* fillDraw := Math_random in
  let* fillRatio :=
    if fillDraw <? dec 9 10 then ret (of_Z 1)
    else (let* partDraw := Math_random in ret (dec 5 10 + partDraw * dec 5 10)) in
  let actualAmountSol := amountInSol plan * fillRatio in
  let slippageFactor := of_Z 1 + actualSlippageBps / of_Z 10000 in
  let simulatedPrice := dec 1 1000000 * slippageFactor in
  let tokensReceived := actualAmountSol / simulatedPrice in
  let feeSol := actualAmountSol * dec 3 1000 in
  let* createdAt := Date_now in
  let* updatedAt := Date_now in
  let order :=
    {| ord_id := orderId; ord_idempotencyKey := idempotencyKey;
       ord_tokenMint := outputMint plan;
       ord_tokenSymbol := substring 0 6 (outputMint plan);
       ord_side := BUY_SIDE; ord_source := ENTRY_SIGNAL;
       ord_amountSol := actualAmountSol; ord_amountTokens := tokensReceived;
       ord_estimatedPrice := simulatedPrice;
       ord_executedPrice := Some simulatedPrice;
       ord_slippageBps := Some actualSlippageBps; ord_feeSol := Some feeSol;
       ord_status := if fillRatio >=? of_Z 1 then CONFIRMED else CONFIRMED;
       ord_txSignature := Some (String.append "paper_" (substring 0 16 orderId));
       ord_isPaper := true; ord_decisionCardId := Some decisionCardId;
       ord_createdAt := createdAt; ord_updatedAt := updatedAt;
       ord_retryCount := of_Z 0; ord_errorMessage := None |} in
  saveOrder order ;;
  (* Create position *)
  (if orderStatus_eqb (ord_status order) CONFIRMED then
     let stopLossPrice :=
       simulatedPrice * (of_Z 1 - stopLossPct config / of_Z 100) in
     let* positionId := uuidv4 in
     let* entryAt := Date_now in
     let* updateAt := Date_now in
     let position :=
       {| pos_id := positionId; pos_tokenMint := outputMint plan;
          pos_tokenSymbol := ord_tokenSymbol order; pos_status := OPEN;
          entryPrice := simulatedPrice; currentPrice := simulatedPrice;
          entryAmountSol := actualAmountSol; remainingTokens := tokensReceived;
          totalTokensBought := tokensReceived; totalTokensSold := of_Z 0;
          realizedPnlSol := of_Z 0; unrealizedPnlSol := of_Z 0;
          unrealizedPnlPct := of_Z 0;
          stopLossPrice := stopLossPrice;
          takeProfitLevels :=
            map (fun l => {| pctGain := fst l; sellPct := snd l; triggered := false |})
                (cfg_takeProfitLevels config);
          pos_trailingStopPct := trailingStopPct config;
          trailingStopPrice := stopLossPrice;
          highWaterMark := simulatedPrice;
          pos_timeStopMinutes := timeStopMinutes config;
          entryTime := entryAt; lastUpdateTime := updateAt;
          pos_isPaper := true; pos_decisionCardId := decisionCardId;
          exitReason := None |} in
     savePosition position ;;
     (* Update equity *)
     let* risk := getRiskState in
     updateEquity (equitySol risk - actualAmountSol - feeSol)
   else ret tt) ;;
  ret order.

(** Simulate a buy order with realistic conditions. *)
Definition executeBuy (config : BotConfig) (plan : ExecutionPlan)
    (decisionCardId : string) : M Order :=
  let* orderId := uuidv4 in
  let* keyTime := Date_now in
  let idempotencyKey := PaperBuyKey (outputMint plan) keyTime in
  (* Simulate latency *)
  simulateLatency config ;;
  (* Simulate failure *)
  let* failureDraw := Math_random in
  if failureDraw <? paperFailureRate config
  then failedBuy plan decisionCardId orderId idempotencyKey
  else filledBuy config plan decisionCardId orderId idempotencyKey.

(** The assignments [executeSell] makes to the position it was handed. *)
Definition soldPosition (position : Position) (tokensToSell netSol now : num)
    (source : OrderSource) : Position :=
  let remaining := remainingTokens position - tokensToSell in
  let closes := remaining <=? dec 1 100 in
  {| pos_id := pos_id position; pos_tokenMint := pos_tokenMint position;
     pos_tokenSymbol := pos_tokenSymbol position;
     pos_status := if closes then CLOSED else PARTIALLY_CLOSED;
     entryPrice := entryPrice position; currentPrice := currentPrice position;
     entryAmountSol := entryAmountSol position;
     remainingTokens := if closes then of_Z 0 else remaining;
     totalTokensBought := totalTokensBought position;
     totalTokensSold := totalTokensSold position + tokensToSell;
     realizedPnlSol :=
       realizedPnlSol position + (netSol - tokensToSell * entryPrice position);
     unrealizedPnlSol := unrealizedPnlSol position;
     unrealizedPnlPct := unrealizedPnlPct position;
     stopLossPrice := stopLossPrice position;
     takeProfitLevels := takeProfitLevels position;
     pos_trailingStopPct := pos_trailingStopPct position;
     trailingStopPrice := trailingStopPrice position;
     highWaterMark := highWaterMark position;
     pos_timeStopMinutes := pos_timeStopMinutes position;
     entryTime := entryTime position; lastUpdateTime := now;
     pos_isPaper := pos_isPaper position;
     pos_decisionCardId := pos_decisionCardId position;
     exitReason := if closes then Some source else exitReason position |}.

(** The failure branch of [executeSell]; the position is not touched. *)
Definition failedSell (position : Position) (source : OrderSource)
    (currentPrice : num) (orderId : string) (idempotencyKey : IdempotencyKey)
    : M (Order * Position) :=
  let* createdAt := Date_now in
  let* updatedAt := Date_now in
  let order :=
    {| ord_id := orderId; ord_idempotencyKey := idempotencyKey;
       ord_tokenMint := pos_tokenMint position;
       ord_tokenSymbol := pos_tokenSymbol position;
       ord_side := SELL_SIDE; ord_source := source;
       ord_amountSol := of_Z 0; ord_amountTokens := of_Z 0;
       ord_estimatedPrice := currentPrice;
       ord_executedPrice := None; ord_slippageBps := None; ord_feeSol := None;
       ord_status := FAILED; ord_txSignature := None; ord_isPaper := true;
       ord_decisionCardId := Some (pos_decisionCardId position);
       ord_createdAt := createdAt; ord_updatedAt := updatedAt;
       ord_retryCount := of_Z 0;
       ord_errorMessage := Some "Simulated sell failure"%string |} in
  saveOrder order ;;
  ret (order, position).

(** The rest of [executeSell] once the failure draw has passed. *)
Definition filledSell (config : BotConfig) (position : Position)
    (sellPct : num) (source : OrderSource) (currentPrice : num)
    (orderId : string) (idempotencyKey : IdempotencyKey)
    : M (Order * Position) :=
  let tokensToSell := remainingTokens position * (sellPct / of_Z 100) in
  let* slipDraw := Math_random in
  let slippageBps :=
    Math_round (of_Z 50 * paperSlippageMultiplier config
                * (dec 8 10 + slipDraw * dec 4 10)) in
  let executedPrice := currentPrice * (of_Z 1 - slippageBps / of_Z 10000) in
  let solReceived := tokensToSell * executedPrice in
  let feeSol := solReceived * dec 3 1000 in
  let netSol := solReceived - feeSol in
  let* createdAt := Date_now in
  let* updatedAt := Date_now in
  let order :=
    {| ord_id := orderId; ord_idempotencyKey := idempotencyKey;
       ord_tokenMint := pos_tokenMint position;
       ord_tokenSymbol := pos_tokenSymbol position;
       ord_side := SELL_SIDE; ord_source := source;
       ord_amountSol := netSol; ord_amountTokens := tokensToSell;
       ord_estimatedPrice := currentPrice;
       ord_executedPrice := Some executedPrice;
       ord_slippageBps := Some slippageBps; ord_feeSol := Some feeSol;
       ord_status := CONFIRMED;
       ord_txSignature := Some (String.append "paper_" (substring 0 16 orderId));
       ord_isPaper := true;
       ord_decisionCardId := Some (pos_decisionCardId position);
       ord_createdAt := createdAt; ord_updatedAt := updatedAt;
       ord_retryCount := of_Z 0; ord_errorMessage := None |} in
  saveOrder order ;;
  (* Update position *)
  let* now := Date_now in
  let position' := soldPosition position tokensToSell netSol now source in
  savePosition position' ;;
  (* Update equity *)
  let* risk := getRiskState in
  updateEquity (equitySol risk + netSol) ;;
  ret (order, position').

(** Simulate a sell order.  Returns the order together with the position
    as the caller sees it afterwards (the object is mutated in place). *)
Definition executeSell (config : BotConfig) (position : Position)
    (sellPct : num) (source : OrderSource) (currentPrice : num)
    : M (Order * Position) :=
  let* orderId := uuidv4 in
  let* keyTime := Date_now in
  let idempotencyKey := PaperSellKey (pos_tokenMint position) keyTime in
  simulateLatency config ;;
  let* failureDraw := Math_random in
  if failureDraw <? paperFailureRate config * dec 5 10   (* Less failure on sells *)
  then failedSell position source currentPrice orderId idempotencyKey
  else filledSell config position sellPct source currentPrice orderId idempotencyKey.

End PaperTradingEngine.

(* ===================================================================== *)
(** ** Feature aggregator (features/engine.ts) *)
(* ===================================================================== *)

Module FeatureEngine.

(** [5 * 60 * 1000], five minutes in milliseconds. *)
Definition EVENT_WINDOW_MS : num := of_Z 5 * of_Z 60 * of_Z 1000.

(** [while (buf.length > 0 && buf[0].timestamp < cutoff) buf.shift()] *)
Fixpoint pruneFront (cutoff : num) (buf : list PumpEvent) : list PumpEvent :=
  match buf with
  | [] => []
  | e :: rest =>
      if ev_timestamp e <? cutoff then pruneFront cutoff rest else buf
  end.

Definition recordEvent (event : PumpEvent) : M unit :=
  fun w =>
    let buf := eventBuffer w ++ [event] in
    (* Per-token tracking *)
    let tok :=
      match tokenEvents w !! ev_tokenMint event with
      | Some _ => tokenEvents w
      | None => <[ev_tokenMint event := []]> (tokenEvents w)
      end in
    let tok :=
      match tok !! ev_tokenMint event with
      | Some evs => <[ev_tokenMint event := evs ++ [event]]> tok
      | None => tok        (* unreachable: the key was just ensured *)
      end in
    (* Prune old events periodically *)
    (let* now := Date_now in
     let cutoff := now - EVENT_WINDOW_MS * of_Z 2 in
     set_events (pruneFront cutoff buf) tok) w.

Inductive ExecutionRisk : Type := RISK_LOW | RISK_MEDIUM | RISK_HIGH.

Record ExecutionRiskFeatures : Type := {
  liquidityDepthSol : num;
  spreadBps : num;
  feat_estimatedSlippageBps : num;
  rpcLatencyMs : num;
  recentFailureRate : num;
  executionRisk : ExecutionRisk;
  feat_reason : Text;
}.

(** [xs.filter(f)] for a callback that reads the clock. *)
Fixpoint filterM {A} (f : A -> M bool) (xs : list A) : M (list A) :=
  match xs with
  | [] => ret []
  | x :: rest =>
      let* keep := f x in
      let* rest' := filterM f rest in
      ret (if keep then x :: rest' else rest')
  end.

Definition is_BUY (t : EventType) : bool :=
  match t with BUY => true | _ => false end.

Definition sum (xs : list num) : num :=
  fold_left (fun s x => s + x) xs (of_Z 0).

(** The slippage estimate for an order of [orderSizeSol] against a pool
    of depth [liquidityDepthSol]: the two lines
    [sizeRatio = orderSizeSol / liquidityDepthSol] and
    [Math.round(sizeRatio * 1000)]. *)
Definition estimateSlippageBps (orderSizeSol liquidityDepthSol : num) : num :=
  let sizeRatio := orderSizeSol / liquidityDepthSol in
  Math_round (sizeRatio * of_Z 1000).

Definition computeExecutionRiskFeatures (tokenMint : string) (orderSizeSol : num)
    : M ExecutionRiskFeatures :=
  fun w =>
  (* Liquidity depth estimation from event data *)
  let events := default [] (tokenEvents w !! tokenMint) in
  (let* recent :=
     filterM (fun e =>
                if is_BUY (ev_type e)
                then (let* now := Date_now in
                      ret (ev_timestamp e >? now - of_Z 60000))
                else ret false) events in
   let recentBuys := sum (map ev_amountSol recent) in
   (* Estimate liquidity as recent volume * multiplier *)
   let liquidityDepthSol := Math_max (recentBuys * of_Z 5) (of_Z 1) in
   (* Spread proxy (wider spread when low liquidity) *)
   let spreadBps :=
     Math_max (of_Z 50) (Math_min (of_Z 1000) (of_Z 5000 / liquidityDepthSol)) in
   (* Slippage estimate based on order size vs liquidity *)
   let estimatedSlippageBps := estimateSlippageBps orderSizeSol liquidityDepthSol in
   (* RPC health *)
   let history := rpcLatencyHistory w in
   let avgLatency :=
     if (0 <? length history)%nat
     then sum history / of_Z (Z.of_nat (length history))
     else of_Z 200 in
   let failureRate :=
     if recentAttempts w >? of_Z 0
     then recentFailures w / recentAttempts w
     else of_Z 0 in
   let slipLat :=
     TCat (TNum estimatedSlippageBps)
       (TCat (TStr "bps slippage, ") (TCat (TFixed avgLatency 0) (TStr "ms latency"))) in
   let verdict : ExecutionRisk * Text :=
     if (estimatedSlippageBps >? of_Z 500) || (avgLatency >? of_Z 2000)
        || (failureRate >? dec 2 10)
     then (RISK_HIGH,
           TCat (TStr "High execution risk: ")
             (TCat slipLat
                (TCat (TStr ", ")
                   (TCat (TFixed (failureRate * of_Z 100) 0) (TStr "% failure rate")))))
     else if (estimatedSlippageBps >? of_Z 200) || (avgLatency >? of_Z 1000)
             || (failureRate >? dec 1 10)
     then (RISK_MEDIUM, TCat (TStr "Moderate execution risk: ") slipLat)
     else (RISK_LOW, TCat (TStr "Good execution conditions: ") slipLat) in
   ret {| liquidityDepthSol := liquidityDepthSol;
          spreadBps := spreadBps;
          feat_estimatedSlippageBps := estimatedSlippageBps;
          rpcLatencyMs := avgLatency;
          recentFailureRate := failureRate;
          executionRisk := fst verdict;
          feat_reason := snd verdict |}) w.

End FeatureEngine.


(* ===================================================================== *)
(** ** More of the numbers *)
(* ===================================================================== *)

(** [Math.floor]: the largest integer not above [x], computed exactly on
    the integer mantissa; zeros, infinities and NaN are returned as they
    are. *)
Definition Math_floor (x : num) : num :=
  match x with
  | S754_finite s m e =>
      if (0 <=? e)%Z then x
      else binary_normalize prec emax (cond_Zopp s (Zpos m) / 2 ^ (- e))%Z 0 s
  | _ => x
  end.

#[global] Arguments Math_floor : simpl never.

(** [xs.length] as a number. *)
Definition count {A : Type} (xs : list A) : num := of_Z (Z.of_nat (length xs)).

(** Structural equality of numbers (not the IEEE comparison: NaN equals
    NaN and the two zeros differ). *)
Definition num_eqb (x y : num) : bool :=
  match x, y with
  | S754_zero s, S754_zero s' => Bool.eqb s s'
  | S754_infinity s, S754_infinity s' => Bool.eqb s s'
  | S754_nan, S754_nan => true
  | S754_finite s m e, S754_finite s' m' e' =>
      Bool.eqb s s' && Pos.eqb m m' && Z.eqb e e'
  | _, _ => false
  end.

(* ===================================================================== *)
(** ** The rest of the configuration (shared/types.ts, config/defaults.ts) *)
(* ===================================================================== *)

Inductive TradingMode : Type := PAPER | LIVE.

(** The fields of [BotConfig] that [BotConfig] above leaves out: they are
    read by the feature engine, the entry filters and the configuration
    check.  One TypeScript object is the pair of the two records. *)
Record EntryConfig : Type := {
  mode : TradingMode;
  rpcEndpoint : string;
  rpcWsEndpoint : string;
  walletPath : option string;
  regimeScoreThreshold : num;
  minLiquidityDepthSol : num;
  maxTop10HolderPct : num;
  minUniqueBuyersPerMin : num;
  minBreadthScore : num;
  maxSpreadBps : num;
  maxEstimatedSlippageBps : num;
  minSecondsAfterGraduation : num;
  maxSecondsAfterGraduation : num;
  maxSlippageBps : num;
  cfg_priorityFeeLamports : num;
  maxRetries : num;
  computeBudget : num;
  tradePreGraduation : bool;
  tradePostGraduation : bool;
}.

(** The defaults with no environment variable set. *)
Definition DEFAULT_ENTRY_CONFIG : EntryConfig := {|
  mode := PAPER;
  rpcEndpoint := "https://api.mainnet-beta.solana.com";
  rpcWsEndpoint := "wss://api.mainnet-beta.solana.com";
  walletPath := None;
  regimeScoreThreshold := of_Z 40;
  minLiquidityDepthSol := of_Z 5;
  maxTop10HolderPct := of_Z 70;
  minUniqueBuyersPerMin := of_Z 3;
  minBreadthScore := dec 3 10;
  maxSpreadBps := of_Z 500;
  maxEstimatedSlippageBps := of_Z 300;
  minSecondsAfterGraduation := of_Z 30;
  maxSecondsAfterGraduation := of_Z 600;
  maxSlippageBps := of_Z 300;
  cfg_priorityFeeLamports := of_Z 10000;
  maxRetries := of_Z 2;
  computeBudget := of_Z 200000;
  tradePreGraduation := false;
  tradePostGraduation := true;
|}.

Inductive TokenPhase : Type := BONDING_CURVE | GRADUATED | RAYDIUM_POOL | DEAD.

(** [TokenInfo] without its free-form [metadata]. *)
Record TokenInfo : Type := {
  tok_mint : string;
  tok_name : string;
  tok_symbol : string;
  tok_creator : string;
  tok_createdAt : num;
  tok_phase : TokenPhase;
  tok_bondingCurveAddress : option string;
  tok_raydiumPoolAddress : option string;
  tok_graduatedAt : option num;
}.

(* ===================================================================== *)
(** ** Risk governor: start-up (strategy/risk-governor.ts) *)
(* ===================================================================== *)

Module RiskGovernorInit.

Definition configuredLimits (config : BotConfig) : RiskLimits := {|
  lim_maxRiskPerTradePct := riskPerTradePct config;
  lim_maxExposurePct := maxExposurePct config;
  lim_dailyMaxDrawdownPct := dailyMaxDrawdownPct config;
  lim_maxTradesPerHour := maxTradesPerHour config;
  lim_maxTradesPerDay := maxTradesPerDay config;
  lim_maxConsecutiveLosses := maxConsecutiveLosses config;
  lim_stopLossPct := stopLossPct config;
  lim_takeProfitLevels :=
    map (fun l => {| pctGain := fst l; sellPct := snd l; triggered := false |})
        (cfg_takeProfitLevels config);
  lim_trailingStopPct := trailingStopPct config;
  lim_timeStopMinutes := timeStopMinutes config;
|}.

(** Three assignments to the singleton: both equity figures and the
    limits; every other field keeps its value. *)
Definition initRiskState (config : BotConfig) : M unit :=
  modify_risk (fun r =>
    {| equitySol := paperStartingEquity config;
       startOfDayEquity := paperStartingEquity config;
       todayPnlSol := todayPnlSol r; todayPnlPct := todayPnlPct r;
       todayDrawdownPct := todayDrawdownPct r;
       currentExposureSol := currentExposureSol r;
       currentExposurePct := currentExposurePct r;
       openPositionCount := openPositionCount r;
       todayTradeCount := todayTradeCount r; hourTradeCount := hourTradeCount r;
       consecutiveLosses := consecutiveLosses r; isHalted := isHalted r;
       haltReason := haltReason r; haltedAt := haltedAt r; resumeAt := resumeAt r;
       limits := configuredLimits config |}).

End RiskGovernorInit.

(* ===================================================================== *)
(** ** Feature aggregator: RPC health and reset (features/engine.ts) *)
(* ===================================================================== *)

Module RpcHealth.

Definition set_rpc (history : list num) (failures attempts : num) : M unit :=
  fun w =>
  (tt,
   {| riskState := riskState w; eventBuffer := eventBuffer w;
      tokenEvents := tokenEvents w;
      rpcLatencyHistory := history; recentFailures := failures;
      recentAttempts := attempts; database := database w;
      storeCalls := storeCalls w;
      clock := clock w; clockReads := clockReads w; rng := rng w;
      rngDraws := rngDraws w; uuids := uuids w; uuidCount := uuidCount w |}).

(** [push], then one [shift] if more than 100 samples are held. *)
Definition recordRpcLatency (ms : num) : M unit :=
  fun w =>
  let pushed := rpcLatencyHistory w ++ [ms] in
  set_rpc (if (100 <? length pushed)%nat then tl pushed else pushed)
          (recentFailures w) (recentAttempts w) w.

(** The two counters after one attempt: both are incremented as needed
    and, once the attempts exceed 200, both are halved and floored. *)
Definition attemptCounters (success : bool) (failures attempts : num)
    : num * num :=
  let attempts := attempts + of_Z 1 in
  let failures := if negb success then failures + of_Z 1 else failures in
  (* Reset counters periodically *)
  if attempts >? of_Z 200
  then (Math_floor (failures / of_Z 2), Math_floor (attempts / of_Z 2))
  else (failures, attempts).

Definition recordTxAttempt (success : bool) : M unit :=
  fun w =>
  let c := attemptCounters success (recentFailures w) (recentAttempts w) in
  set_rpc (rpcLatencyHistory w) (fst c) (snd c) w.

(** Clear buffers (for testing). *)
Definition clearBuffers : M unit :=
  fun w =>
  (tt,
   {| riskState := riskState w; eventBuffer := []; tokenEvents := ∅;
      rpcLatencyHistory := []; recentFailures := of_Z 0;
      recentAttempts := of_Z 0; database := database w;
      storeCalls := storeCalls w;
      clock := clock w; clockReads := clockReads w; rng := rng w;
      rngDraws := rngDraws w; uuids := uuids w; uuidCount := uuidCount w |}).

End RpcHealth.

(* ===================================================================== *)
(** ** Feature aggregator: regime and traction (features/engine.ts) *)
(* ===================================================================== *)

Module RegimeEngine.

Import FeatureEngine.

Inductive Regime : Type := MANIA | NORMAL | COLD.

Record RegimeFeatures : Type := {
  pumpfunLaunchRate : num;
  pumpfunVolumeProxy : num;
  solVolatility : num;
  marketRiskOn : bool;
  regimeScore : num;
  regime : Regime;
  regime_reason : Text;
}.

Definition is_LAUNCH (t : EventType) : bool :=
  match t with LAUNCH => true | _ => false end.

Definition is_GRADUATION (t : EventType) : bool :=
  match t with GRADUATION => true | _ => false end.

Definition is_SELL (t : EventType) : bool :=
  match t with SELL => true | _ => false end.

(** The features of the events of the global buffer newer than
    [windowStart]. *)
Definition regimeOf (config : EntryConfig) (windowStart : num)
    (buffer : list PumpEvent) : RegimeFeatures :=
  let recentEvents := List.filter (fun e => ev_timestamp e >? windowStart) buffer in
  (* Launch rate: new tokens per 5min window *)
  let launches := count (List.filter (fun e => is_LAUNCH (ev_type e)) recentEvents) in
  let launchRate := launches in
  (* Volume proxy: total SOL volume in buys *)
  let buyVolume :=
    fold_left (fun sum e => sum + ev_amountSol e)
      (List.filter (fun e => is_BUY (ev_type e)) recentEvents) (of_Z 0) in
  (* Graduation rate *)
  let graduations :=
    count (List.filter (fun e => is_GRADUATION (ev_type e)) recentEvents) in
  let solVolatility := Math_min (buyVolume / of_Z 100) (of_Z 1) in
  (* Composite regime score *)
  let launchScore := Math_min (launchRate / of_Z 20) (of_Z 1) * of_Z 30 in
  let volumeScore := Math_min (buyVolume / of_Z 500) (of_Z 1) * of_Z 40 in
  let gradScore := Math_min (graduations / of_Z 5) (of_Z 1) * of_Z 30 in
  let regimeScore := Math_round (launchScore + volumeScore + gradScore) in
  let activity :=
    TCat (TNum launches)
      (TCat (TStr " launches, ")
         (TCat (TFixed buyVolume 1) (TStr " SOL volume"))) in
  let verdict : Regime * Text :=
    if regimeScore >=? of_Z 70
    then (MANIA,
          TCat (TStr "High activity: ")
            (TCat activity
               (TCat (TStr ", ")
                  (TCat (TNum graduations) (TStr " graduations in 5min")))))
    else if regimeScore >=? regimeScoreThreshold config
    then (NORMAL, TCat (TStr "Moderate activity: ") (TCat activity (TStr " in 5min")))
    else (COLD,
          TCat (TStr "Low activity: ")
            (TCat activity
               (TCat (TStr " in 5min. Below threshold ")
                  (TCat (TNum (regimeScoreThreshold config)) (TStr "."))))) in
  {| pumpfunLaunchRate := launchRate;
     pumpfunVolumeProxy := buyVolume;
     solVolatility := solVolatility;
     marketRiskOn := regimeScore >=? regimeScoreThreshold config;
     regimeScore := regimeScore;
     regime := fst verdict;
     regime_reason := snd verdict |}.

Definition computeRegimeFeatures (config : EntryConfig) : M RegimeFeatures :=
  let* now := Date_now in
  let windowStart := now - EVENT_WINDOW_MS in
  fun w => (regimeOf config windowStart (eventBuffer w), w).

End RegimeEngine.

Module TractionEngine.

Import FeatureEngine RegimeEngine.

Record TokenTractionFeatures : Type := {
  uniqueBuyersPerMin : num;
  netBuyPressure : num;
  buyCountSmall : num;
  buyCountMedium : num;
  buyCountLarge : num;
  breadthScore : num;
  priceVelocity : num;
  volumeAcceleration : num;
  drawdownFromHigh : num;
  timeSinceLaunchSec : num;
  timeSinceGraduationSec : option num;
}.

(** [new Set(wallets).size] *)
Definition uniqueCount (wallets : list string) : nat :=
  size (list_to_set wallets : gset string).

Definition volumeOf (events : list PumpEvent) : num :=
  fold_left (fun s b => s + ev_amountSol b) events (of_Z 0).

(** The features of one token's events at time [now]. *)
Definition tractionOf (now : num) (tokenInfo : TokenInfo)
    (tokenEvents : list PumpEvent) : TokenTractionFeatures :=
  let events :=
    List.filter (fun e => ev_timestamp e >? now - EVENT_WINDOW_MS) tokenEvents in
  let buys := List.filter (fun e => is_BUY (ev_type e)) events in
  let sells := List.filter (fun e => is_SELL (ev_type e)) events in
  (* Unique buyers per minute *)
  let uniqueBuyers := of_Z (Z.of_nat (uniqueCount (map ev_wallet buys))) in
  let windowMinutes := EVENT_WINDOW_MS / of_Z 60000 in
  let uniqueBuyersPerMin := uniqueBuyers / windowMinutes in
  (* Net buy pressure *)
  let totalTrades := count buys + count sells in
  let netBuyPressure :=
    if totalTrades >? of_Z 0 then (count buys - count sells) / totalTrades
    else of_Z 0 in
  (* Buy size distribution *)
  let buyCountSmall :=
    count (List.filter (fun b => ev_amountSol b <? dec 1 10) buys) in
  let buyCountMedium :=
    count (List.filter (fun b => (ev_amountSol b >=? dec 1 10)
                                 && (ev_amountSol b <? of_Z 1)) buys) in
  let buyCountLarge :=
    count (List.filter (fun b => ev_amountSol b >=? of_Z 1) buys) in
  (* Breadth score: prefer many small/medium vs few large *)
  let totalBuys := if truthy (count buys) then count buys else of_Z 1 in
  let breadthScore := (buyCountSmall + buyCountMedium) / totalBuys in
  (* Price velocity (simplified: SOL volume trend as proxy) *)
  let halfWindow := now - EVENT_WINDOW_MS / of_Z 2 in
  let firstHalfVolume :=
    volumeOf (List.filter (fun b => ev_timestamp b <? halfWindow) buys) in
  let secondHalfVolume :=
    volumeOf (List.filter (fun b => ev_timestamp b >=? halfWindow) buys) in
  let priceVelocity :=
    if firstHalfVolume >? of_Z 0
    then (secondHalfVolume - firstHalfVolume) / firstHalfVolume
    else of_Z 0 in
  (* Volume acceleration *)
  let volumeAcceleration :=
    if secondHalfVolume >? firstHalfVolume then of_Z 1 else of_Z (-1) in
  (* Drawdown from high (simplified) *)
  let drawdownFromHigh := of_Z 0 in
  {| uniqueBuyersPerMin := uniqueBuyersPerMin;
     netBuyPressure := netBuyPressure;
     buyCountSmall := buyCountSmall;
     buyCountMedium := buyCountMedium;
     buyCountLarge := buyCountLarge;
     breadthScore := breadthScore;
     priceVelocity := priceVelocity;
     volumeAcceleration := volumeAcceleration;
     drawdownFromHigh := drawdownFromHigh;
     timeSinceLaunchSec := (now - tok_createdAt tokenInfo) / of_Z 1000;
     timeSinceGraduationSec :=
       match tok_graduatedAt tokenInfo with
       | Some g => if truthy g then Some ((now - g) / of_Z 1000) else None
       | None => None
       end |}.

Definition computeTractionFeatures (tokenMint : string) (tokenInfo : TokenInfo)
    : M TokenTractionFeatures :=
  let* now := Date_now in
  fun w => (tractionOf now tokenInfo (default [] (tokenEvents w !! tokenMint)), w).

End TractionEngine.

(* ===================================================================== *)
(** ** Paper trading statistics (paper/engine.ts) *)
(* ===================================================================== *)

Module PaperStatistics.

Record PaperStats : Type := {
  totalTrades : num;
  winningTrades : num;
  losingTrades : num;
  winRate : num;
  totalPnlSol : num;
  avgPnlPerTrade : num;
  maxDrawdownPct : num;
  avgSlippageBps : num;
  avgHoldTimeMinutes : num;
  expectancy : num;
  sharpeProxy : num;
  filterHitRates : gmap string num;
  regimeOnTimePct : num;
}.

Definition is_CLOSED (p : Position) : bool :=
  match pos_status p with CLOSED => true | _ => false end.

Definition is_win (p : Position) : bool := realizedPnlSol p >? of_Z 0.
Definition is_loss (p : Position) : bool := realizedPnlSol p <=? of_Z 0.

Definition pnlOf (ps : list Position) : num :=
  fold_left (fun s p => s + realizedPnlSol p) ps (of_Z 0).

Definition total (xs : list num) : num :=
  fold_left (fun s v => s + v) xs (of_Z 0).

(** [orders.filter(o => o.slippageBps != null).map(o => o.slippageBps!)] *)
Definition slippagesOf (orders : list Order) : list num :=
  omap ord_slippageBps orders.

Definition computePaperStats (positions : list Position) (orders : list Order)
    : PaperStats :=
  let closedPositions := List.filter is_CLOSED positions in
  let wins := List.filter is_win closedPositions in
  let losses := List.filter is_loss closedPositions in
  let totalPnl := pnlOf closedPositions in
  let avgPnl :=
    if (0 <? length closedPositions)%nat
    then totalPnl / count closedPositions else of_Z 0 in
  let holdTimes :=
    map (fun p => (lastUpdateTime p - entryTime p) / of_Z 60000) closedPositions in
  let avgHoldTime :=
    if (0 <? length holdTimes)%nat
    then total holdTimes / count holdTimes else of_Z 0 in
  let slippages := slippagesOf orders in
  let avgSlippage :=
    if (0 <? length slippages)%nat
    then total slippages / count slippages else of_Z 0 in
  let winRate :=
    if (0 <? length closedPositions)%nat
    then count wins / count closedPositions else of_Z 0 in
  let avgWin :=
    if (0 <? length wins)%nat then pnlOf wins / count wins else of_Z 0 in
  let avgLoss :=
    if (0 <? length losses)%nat
    then Math_abs (pnlOf losses / count losses) else of_Z 0 in
  let expectancy := winRate * avgWin - (of_Z 1 - winRate) * avgLoss in
  {| totalTrades := count closedPositions;
     winningTrades := count wins;
     losingTrades := count losses;
     winRate := winRate;
     totalPnlSol := totalPnl;
     avgPnlPerTrade := avgPnl;
     maxDrawdownPct := of_Z 0;      (* Would compute from equity history *)
     avgSlippageBps := avgSlippage;
     avgHoldTimeMinutes := avgHoldTime;
     expectancy := expectancy;
     sharpeProxy := of_Z 0;
     filterHitRates := ∅;
     regimeOnTimePct := of_Z 0 |}.

End PaperStatistics.

(* ===================================================================== *)
(** ** Configuration check (config/defaults.ts) *)
(* ===================================================================== *)

Module ConfigCheck.

(** [!config.walletPath]: undefined or the empty string. *)
Definition no_wallet (path : option string) : bool :=
  match path with
  | Some EmptyString | None => true
  | Some _ => false
  end.

Definition is_LIVE (m : TradingMode) : bool :=
  match m with LIVE => true | PAPER => false end.

(** [if (cond) issues.push(msg)] *)
Definition issue (cond : bool) (msg : string) : list string :=
  if cond then [msg] else [].

(** Validate config for safety.  Returns list of issues. *)
Definition validateConfig (config : BotConfig) (entry : EntryConfig) : list string :=
  issue (riskPerTradePct config >? of_Z 1) "Risk per trade > 1% is extremely aggressive"
  ++ issue (maxExposurePct config >? of_Z 5) "Max exposure > 5% is extremely aggressive"
  ++ issue (dailyMaxDrawdownPct config >? of_Z 5) "Daily drawdown limit > 5% is very high"
  ++ issue (stopLossPct config >? of_Z 50) "Stop loss > 50% is very wide"
  ++ issue (maxTradesPerDay config >? of_Z 50) "More than 50 trades/day is excessive"
  ++ issue (paperFailureRate config >? dec 5 10) "Paper failure rate > 50% is unrealistic"
  ++ issue (maxSlippageBps entry >? of_Z 1000) "Max slippage > 10% is dangerous"
  ++ issue (is_LIVE (mode entry) && no_wallet (walletPath entry))
       "LIVE mode requires a wallet path".

End ConfigCheck.

(* ===================================================================== *)
(** ** Strategy engine: entry filters and decision (strategy/engine.ts) *)
(* ===================================================================== *)

Module DecisionEngine.

Import FeatureEngine RegimeEngine TractionEngine.

Inductive ConcentrationRisk : Type :=
  | CONC_LOW | CONC_MEDIUM | CONC_HIGH | CONC_EXTREME.

Record ConcentrationFeatures : Type := {
  top10HolderPct : num;
  top20HolderPct : num;
  creatorHoldingPct : num;
  creatorSoldPct : num;
  suspiciousCreator : bool;
  mintAuthorityRevoked : bool;
  freezeAuthorityRevoked : bool;
  concentrationRisk : ConcentrationRisk;
  conc_reason : Text;
}.

Record AllFeatures : Type := {
  feat_regime : RegimeFeatures;
  feat_traction : TokenTractionFeatures;
  feat_concentration : ConcentrationFeatures;
  feat_execution : ExecutionRiskFeatures;
  computedAt : num;
}.

Inductive FilterResult : Type := PASS | FAIL.

(** [number | string | boolean] *)
Inductive FilterValue : Type :=
  | VNum (x : num)
  | VBool (b : bool)
  | VText (t : Text).

Record FilterCheck : Type := {
  flt_name : string;
  flt_result : FilterResult;
  flt_value : FilterValue;
  flt_threshold : FilterValue;
  flt_reason : Text;
}.

Definition verdictOf (ok : bool) : FilterResult := if ok then PASS else FAIL.

(** [`${b}`] for a boolean. *)
Definition TBool (b : bool) : Text := TStr (if b then "true" else "false").

(** [(x * 100).toFixed(0)] followed by a percent sign and more text. *)
Definition TPercent0 (x : num) (rest : string) : Text :=
  TCat (TFixed (x * of_Z 100) 0) (TStr rest).

Definition FilterFn : Type :=
  AllFeatures -> BotConfig -> EntryConfig -> TokenInfo -> RiskState -> FilterCheck.

(** 1. Regime gate *)
Definition regimeGate : FilterFn := fun f _ c _ _ =>
  let score := regimeScore (feat_regime f) in
  let ok := score >=? regimeScoreThreshold c in
  {| flt_name := "Regime Gate";
     flt_result := verdictOf ok;
     flt_value := VNum score;
     flt_threshold := VNum (regimeScoreThreshold c);
     flt_reason :=
       if ok
       then TCat (TStr "Market is active (score ") (TCat (TNum score) (TStr ")"))
       else TCat (TStr "Market too quiet (score ")
              (TCat (TNum score)
                 (TCat (TStr ", need ")
                    (TCat (TNum (regimeScoreThreshold c)) (TStr ")")))) |}.

(** 2. Liquidity minimum *)
Definition minimumLiquidity : FilterFn := fun f _ c _ _ =>
  let depth := liquidityDepthSol (feat_execution f) in
  let ok := depth >=? minLiquidityDepthSol c in
  {| flt_name := "Minimum Liquidity";
     flt_result := verdictOf ok;
     flt_value := VNum depth;
     flt_threshold := VNum (minLiquidityDepthSol c);
     flt_reason :=
       if ok
       then TCat (TStr "Liquidity OK (") (TCat (TFixed depth 1) (TStr " SOL)"))
       else TCat (TStr "Too illiquid (")
              (TCat (TFixed depth 1)
                 (TCat (TStr " SOL, need ")
                    (TCat (TNum (minLiquidityDepthSol c)) (TStr ")")))) |}.

(** 3. Concentration check *)
Definition holderConcentration : FilterFn := fun f _ c _ _ =>
  let top := top10HolderPct (feat_concentration f) in
  let ok := top <=? maxTop10HolderPct c in
  {| flt_name := "Holder Concentration";
     flt_result := verdictOf ok;
     flt_value := VNum top;
     flt_threshold := VNum (maxTop10HolderPct c);
     flt_reason :=
       if ok
       then TCat (TStr "Holder distribution OK (top 10: ")
              (TCat (TFixed top 0) (TStr "%)"))
       else TCat (TStr "Too concentrated (top 10: ")
              (TCat (TFixed top 0)
                 (TCat (TStr "%, max ")
                    (TCat (TNum (maxTop10HolderPct c)) (TStr "%)")))) |}.

(** 4. Creator behavior *)
Definition creatorBehavior : FilterFn := fun f _ _ _ _ =>
  let suspicious := suspiciousCreator (feat_concentration f) in
  {| flt_name := "Creator Behavior";
     flt_result := verdictOf (negb suspicious);
     flt_value := VBool suspicious;
     flt_threshold := VBool false;
     flt_reason :=
       if negb suspicious
       then TStr "Creator behavior normal"
       else TCat (TStr "Suspicious creator: sold ")
              (TCat (TFixed (creatorSoldPct (feat_concentration f)) 0)
                 (TStr "% already")) |}.

(** 5. Token permissions *)
Definition tokenPermissions : FilterFn := fun f _ _ _ _ =>
  let mintRevoked := mintAuthorityRevoked (feat_concentration f) in
  let freezeRevoked := freezeAuthorityRevoked (feat_concentration f) in
  {| flt_name := "Token Permissions";
     flt_result := verdictOf (mintRevoked && freezeRevoked);
     flt_value :=
       VText (TCat (TStr "mint:")
                (TCat (TBool mintRevoked)
                   (TCat (TStr ", freeze:") (TBool freezeRevoked))));
     flt_threshold := VText (TStr "both revoked");
     flt_reason :=
       if mintRevoked && freezeRevoked
       then TStr "Token permissions safe (mint/freeze revoked)"
       else TStr "DANGER: Token has active mint or freeze authority" |}.

(** 6. Buyer breadth *)
Definition buyerBreadth : FilterFn := fun f _ c _ _ =>
  let buyers := uniqueBuyersPerMin (feat_traction f) in
  let ok := buyers >=? minUniqueBuyersPerMin c in
  {| flt_name := "Buyer Breadth";
     flt_result := verdictOf ok;
     flt_value := VNum buyers;
     flt_threshold := VNum (minUniqueBuyersPerMin c);
     flt_reason :=
       if ok
       then TCat (TStr "Good buyer breadth (") (TCat (TFixed buyers 1) (TStr "/min)"))
       else TCat (TStr "Not enough buyers (")
              (TCat (TFixed buyers 1)
                 (TCat (TStr "/min, need ")
                    (TCat (TNum (minUniqueBuyersPerMin c)) (TStr ")")))) |}.

(** 7. Breadth score (many small vs few large) *)
Definition buyDistribution : FilterFn := fun f _ c _ _ =>
  let breadth := breadthScore (feat_traction f) in
  let ok := breadth >=? minBreadthScore c in
  {| flt_name := "Buy Distribution";
     flt_result := verdictOf ok;
     flt_value := VNum breadth;
     flt_threshold := VNum (minBreadthScore c);
     flt_reason :=
       if ok
       then TCat (TStr "Healthy buy distribution (score ")
              (TCat (TFixed breadth 2) (TStr ")"))
       else TCat (TStr "Dominated by large buyers (score ")
              (TCat (TFixed breadth 2)
                 (TCat (TStr ", need ")
                    (TCat (TNum (minBreadthScore c)) (TStr ")")))) |}.

(** 8. Execution risk *)
Definition executionRiskFilter : FilterFn := fun f _ c _ _ =>
  let slip := feat_estimatedSlippageBps (feat_execution f) in
  let ok := slip <=? maxEstimatedSlippageBps c in
  {| flt_name := "Execution Risk";
     flt_result := verdictOf ok;
     flt_value := VNum slip;
     flt_threshold := VNum (maxEstimatedSlippageBps c);
     flt_reason :=
       if ok
       then TCat (TStr "Slippage OK (") (TCat (TNum slip) (TStr "bps)"))
       else TCat (TStr "Too much slippage (")
              (TCat (TNum slip)
                 (TCat (TStr "bps, max ")
                    (TCat (TNum (maxEstimatedSlippageBps c)) (TStr "bps)")))) |}.

(** 9. Spread check *)
Definition spreadFilter : FilterFn := fun f _ c _ _ =>
  let spread := spreadBps (feat_execution f) in
  let ok := spread <=? maxSpreadBps c in
  {| flt_name := "Spread";
     flt_result := verdictOf ok;
     flt_value := VNum spread;
     flt_threshold := VNum (maxSpreadBps c);
     flt_reason :=
       if ok
       then TCat (TStr "Spread OK (") (TCat (TNum spread) (TStr "bps)"))
       else TCat (TStr "Spread too wide (")
              (TCat (TNum spread)
                 (TCat (TStr "bps, max ")
                    (TCat (TNum (maxSpreadBps c)) (TStr "bps)")))) |}.

(** [!token.graduatedAt]: undefined, 0 or NaN. *)
Definition not_graduated (token : TokenInfo) : bool :=
  match tok_graduatedAt token with
  | Some g => negb (truthy g)
  | None => true
  end.

(** [x || 0] for [number | null]. *)
Definition or_zero (x : option num) : num :=
  match x with
  | Some v => if truthy v then v else of_Z 0
  | None => of_Z 0
  end.

(** 10. Graduation timing (post-graduation tokens only) *)
Definition graduationTiming : FilterFn := fun f _ c token _ =>
  if not_graduated token then
    {| flt_name := "Graduation Timing";
       flt_result := verdictOf (tradePreGraduation c);
       flt_value := VText (TStr "not graduated");
       flt_threshold := VText (TStr "graduated");
       flt_reason :=
         if tradePreGraduation c
         then TStr "Pre-graduation trading enabled"
         else TStr "Token not yet graduated" |}
  else
    let secSinceGrad := or_zero (timeSinceGraduationSec (feat_traction f)) in
    let inWindow :=
      (secSinceGrad >=? minSecondsAfterGraduation c)
      && (secSinceGrad <=? maxSecondsAfterGraduation c) in
    {| flt_name := "Graduation Timing";
       flt_result := verdictOf inWindow;
       flt_value := VNum secSinceGrad;
       flt_threshold :=
         VText (TCat (TNum (minSecondsAfterGraduation c))
                  (TCat (TStr "-")
                     (TCat (TNum (maxSecondsAfterGraduation c)) (TStr "s"))));
       flt_reason :=
         if inWindow
         then TCat (TStr "Good timing (")
                (TCat (TFixed secSinceGrad 0) (TStr "s post-graduation)"))
         else if secSinceGrad <? minSecondsAfterGraduation c
         then TCat (TStr "Too early (")
                (TCat (TFixed secSinceGrad 0)
                   (TCat (TStr "s, wait ")
                      (TCat (TNum (minSecondsAfterGraduation c)) (TStr "s)"))))
         else TCat (TStr "Too late (")
                (TCat (TFixed secSinceGrad 0)
                   (TCat (TStr "s, max ")
                      (TCat (TNum (maxSecondsAfterGraduation c)) (TStr "s)")))) |}.

(** 11. Net buy pressure *)
Definition buyPressure : FilterFn := fun f _ _ _ _ =>
  let pressure := netBuyPressure (feat_traction f) in
  let ok := pressure >? of_Z 0 in
  {| flt_name := "Buy Pressure";
     flt_result := verdictOf ok;
     flt_value := VNum pressure;
     flt_threshold := VNum (of_Z 0);
     flt_reason :=
       if ok
       then TCat (TStr "Net buying (") (TPercent0 pressure "% bias)")
       else TCat (TStr "Net selling or no pressure (") (TPercent0 pressure "% bias)") |}.

(** The [reason] of the risk-limits filter: the first limit that is hit,
    in the order of the [else if] chain. *)
Definition riskLimitsReason (c : BotConfig) (risk : RiskState) : Text :=
  if isHalted risk
  then TCat (TStr "Trading halted: ") (TOpt (haltReason risk))
  else if currentExposurePct risk >=? maxExposurePct c
  then TCat (TStr "Max exposure reached (")
         (TCat (TFixed (currentExposurePct risk) 2) (TStr "%)"))
  else if todayTradeCount risk >=? maxTradesPerDay c
  then TCat (TStr "Daily trade limit reached (")
         (TCat (TNum (todayTradeCount risk)) (TStr ")"))
  else if hourTradeCount risk >=? maxTradesPerHour c
  then TCat (TStr "Hourly trade limit reached (")
         (TCat (TNum (hourTradeCount risk)) (TStr ")"))
  else if consecutiveLosses risk >=? maxConsecutiveLosses c
  then TCat (TNum (consecutiveLosses risk)) (TStr " consecutive losses")
  else if Math_abs (todayDrawdownPct risk) >=? dailyMaxDrawdownPct c
  then TCat (TStr "Daily drawdown limit hit (")
         (TCat (TFixed (todayDrawdownPct risk) 2) (TStr "%)"))
  else TStr "All risk limits OK".

(** 12. Risk limits *)
Definition riskLimits : FilterFn := fun _ c _ _ risk =>
  let withinLimits :=
    negb (isHalted risk)
    && (currentExposurePct risk <? maxExposurePct c)
    && (todayTradeCount risk <? maxTradesPerDay c)
    && (hourTradeCount risk <? maxTradesPerHour c)
    && (consecutiveLosses risk <? maxConsecutiveLosses c)
    && (Math_abs (todayDrawdownPct risk) <? dailyMaxDrawdownPct c) in
  let reason := riskLimitsReason c risk in
  {| flt_name := "Risk Limits";
     flt_result := verdictOf withinLimits;
     flt_value := VText reason;
     flt_threshold := VText (TStr "all limits OK");
     flt_reason := reason |}.

(** 13. RPC health *)
Definition rpcHealth : FilterFn := fun f _ _ _ _ =>
  let latency := rpcLatencyMs (feat_execution f) in
  let failures := recentFailureRate (feat_execution f) in
  let ok := (latency <? of_Z 2000) && (failures <? dec 2 10) in
  {| flt_name := "RPC Health";
     flt_result := verdictOf ok;
     flt_value :=
       VText (TCat (TFixed latency 0)
                (TCat (TStr "ms, ") (TPercent0 failures "% failures")));
     flt_threshold := VText (TStr "<2000ms, <20% failures");
     flt_reason :=
       if ok
       then TStr "RPC connection healthy"
       else TCat (TStr "RPC degraded: ")
              (TCat (TFixed latency 0)
                 (TCat (TStr "ms latency, ") (TPercent0 failures "% failures"))) |}.

Definition FILTERS : list FilterFn :=
  [ regimeGate; minimumLiquidity; holderConcentration; creatorBehavior;
    tokenPermissions; buyerBreadth; buyDistribution; executionRiskFilter;
    spreadFilter; graduationTiming; buyPressure; riskLimits; rpcHealth ].

Inductive Verdict : Type := TRADE | SKIP.

Definition is_PASS (r : FilterResult) : bool :=
  match r with PASS => true | FAIL => false end.

Definition is_FAIL (r : FilterResult) : bool :=
  match r with FAIL => true | PASS => false end.

(** [regime.toLowerCase()] *)
Definition regimeLower (r : Regime) : string :=
  match r with MANIA => "mania" | NORMAL => "normal" | COLD => "cold" end.

(** Generate plain-language summary (3 bullets). *)
Definition generateSummary (verdict : Verdict) (filters : list FilterCheck)
    (features : AllFeatures) (token : TokenInfo) : list Text :=
  match verdict with
  | SKIP =>
      let failedFilters := List.filter (fun f => is_FAIL (flt_result f)) filters in
      let topReasons := map flt_reason (firstn 3 failedFilters) in
      let topReasons :=
        match topReasons with
        | [] => [TStr "No specific reason found"]
        | _ => topReasons
        end in
      firstn 3
        (TCat (TStr "SKIPPING ")
           (TCat (TStr (tok_symbol token))
              (TCat (TStr ": ")
                 (TCat (TNum (count failedFilters)) (TStr " filter(s) failed"))))
         :: topReasons)
  | TRADE =>
      [ TCat (TStr "TRADING ")
          (TCat (TStr (tok_symbol token))
             (TCat (TStr ": all ")
                (TCat (TNum (count filters)) (TStr " filters passed"))));
        TCat (TStr "Market is ")
          (TCat (TStr (regimeLower (regime (feat_regime features))))
             (TCat (TStr " with ")
                (TCat (TFixed (uniqueBuyersPerMin (feat_traction features)) 1)
                   (TStr " buyers/min"))));
        TCat (TStr "Execution looks clean: ")
          (TCat (TNum (feat_estimatedSlippageBps (feat_execution features)))
             (TCat (TStr "bps slippage, ")
                (TCat (TFixed (liquidityDepthSol (feat_execution features)) 1)
                   (TStr " SOL depth")))) ]
  end.

Inductive Route : Type := JUPITER | RAYDIUM_DIRECT | PUMP_BONDING_CURVE.

(** [ExecutionPlan] in full: the two fields the paper engine does not
    read, and the rest. *)
Record PlannedOrder : Type := {
  route : Route;
  inputMint : string;
  plan : ExecutionPlan;
}.

Record RiskImpact : Type := {
  riskPct : num;
  maxLossSol : num;
  newExposurePct : num;
  withinLimits : bool;
  limitDetails : Text;
}.

Record DecisionCard : Type := {
  card_id : string;
  card_tokenMint : string;
  card_tokenSymbol : string;
  card_timestamp : num;
  card_verdict : Verdict;
  summaryBullets : list Text;
  card_filters : list FilterCheck;
  card_features : AllFeatures;
  executionPlan : option PlannedOrder;
  riskImpact : option RiskImpact;
}.

(** A string used as a condition: the empty string is falsy. *)
Definition has_text (s : option string) : bool :=
  match s with
  | Some EmptyString | None => false
  | Some _ => true
  end.

(** [openPositions.some(p => p.tokenMint === token.mint)] *)
Definition holds (openPositions : list Position) (token : TokenInfo) : bool :=
  existsb (fun p => String.eqb (pos_tokenMint p) (tok_mint token)) openPositions.

Definition duplicateCheck : FilterCheck :=
  {| flt_name := "No Duplicate Position";
     flt_result := FAIL;
     flt_value := VBool true;
     flt_threshold := VBool false;
     flt_reason := TStr "Already have an open position in this token" |}.

Section Collaborators.

(** The feature computation ([computeAllFeatures], of which the holder
    concentration part sorts with a numeric comparator) and the write
    of the card to the store are collaborators of the decision. *)
Variable computeAllFeatures :
  string -> TokenInfo -> BotConfig -> EntryConfig -> num -> M AllFeatures.
Variable saveDecision : DecisionCard -> M unit.

Definition evaluateToken (token : TokenInfo) (config : BotConfig)
    (entry : EntryConfig) (riskState : RiskState)
    (openPositions : list Position) : M DecisionCard :=
  (* Calculate order size for feature computation *)
  let orderSizeSol := (riskPerTradePct config / of_Z 100) * equitySol riskState in
  (* Compute all features *)
  let* features :=
    computeAllFeatures (tok_mint token) token config entry orderSizeSol in
  (* Run all filters *)
  let filterResults :=
    map (fun fn => fn features config entry token riskState) FILTERS in
  (* Check if already in position for this token *)
  let alreadyInPosition := holds openPositions token in
  let filterResults :=
    if alreadyInPosition then filterResults ++ [duplicateCheck]
    else filterResults in
  (* Verdict: ALL filters must pass *)
  let allPassed := forallb (fun f => is_PASS (flt_result f)) filterResults in
  let verdict := if allPassed then TRADE else SKIP in
  (* Generate plain-language summary (3 bullets) *)
  let summaryBullets := generateSummary verdict filterResults features token in
  (* Build execution plan if trading *)
  let maxLoss := orderSizeSol * (stopLossPct config / of_Z 100) in
  let executionPlan :=
    match verdict with
    | TRADE =>
        Some {| route := if has_text (tok_raydiumPoolAddress token)
                         then JUPITER else PUMP_BONDING_CURVE;
                inputMint := "So11111111111111111111111111111111111111112";
                plan :=
                  {| outputMint := tok_mint token;
                     amountInSol := orderSizeSol;
                     estimatedSlippageBps :=
                       feat_estimatedSlippageBps (feat_execution features);
                     estimatedOutputTokens := of_Z 0;
                     priorityFeeLamports := cfg_priorityFeeLamports entry;
                     splitOrders :=
                       if orderSizeSol >? of_Z 1 then of_Z 2 else of_Z 1 |} |}
    | SKIP => None
    end in
  let riskImpact :=
    match verdict with
    | TRADE =>
        Some {| riskPct := riskPerTradePct config;
                maxLossSol := maxLoss;
                newExposurePct :=
                  currentExposurePct riskState
                  + (orderSizeSol / equitySol riskState) * of_Z 100;
                withinLimits := true;
                limitDetails :=
                  TCat (TStr "Risk: ")
                    (TCat (TNum (riskPerTradePct config))
                       (TCat (TStr "% equity (")
                          (TCat (TFixed orderSizeSol 4)
                             (TCat (TStr " SOL). Max loss if stop triggers: ")
                                (TCat (TFixed maxLoss 4) (TStr " SOL")))))) |}
    | SKIP => None
    end in
  let* id := uuidv4 in
  let* timestamp := Date_now in
  let card :=
    {| card_id := id;
       card_tokenMint := tok_mint token;
       card_tokenSymbol := tok_symbol token;
       card_timestamp := timestamp;
       card_verdict := verdict;
       summaryBullets := summaryBullets;
       card_filters := filterResults;
       card_features := features;
       executionPlan := executionPlan;
       riskImpact := riskImpact |} in
  (* Persist *)
  saveDecision card ;;
  ret card.

End Collaborators.

End DecisionEngine.

(* ===================================================================== *)
(** ** API server: configuration as shown to the cockpit (api/server.ts) *)
(* ===================================================================== *)

Module ApiServer.

(** [const { walletPath, ...safe } = config;
     return { ...safe, walletPath: walletPath ? '***configured***' : undefined }] *)
Definition sanitizeConfig (config : BotConfig) (entry : EntryConfig)
    : BotConfig * EntryConfig :=
  (config,
   {| mode := mode entry;
      rpcEndpoint := rpcEndpoint entry;
      rpcWsEndpoint := rpcWsEndpoint entry;
      walletPath :=
        if ConfigCheck.no_wallet (walletPath entry) then None
        else Some "***configured***"%string;
      regimeScoreThreshold := regimeScoreThreshold entry;
      minLiquidityDepthSol := minLiquidityDepthSol entry;
      maxTop10HolderPct := maxTop10HolderPct entry;
      minUniqueBuyersPerMin := minUniqueBuyersPerMin entry;
      minBreadthScore := minBreadthScore entry;
      maxSpreadBps := maxSpreadBps entry;
      maxEstimatedSlippageBps := maxEstimatedSlippageBps entry;
      minSecondsAfterGraduation := minSecondsAfterGraduation entry;
      maxSecondsAfterGraduation := maxSecondsAfterGraduation entry;
      maxSlippageBps := maxSlippageBps entry;
      cfg_priorityFeeLamports := cfg_priorityFeeLamports entry;
      maxRetries := maxRetries entry;
      computeBudget := computeBudget entry;
      tradePreGraduation := tradePreGraduation entry;
      tradePostGraduation := tradePostGraduation entry |}).

End ApiServer.

(* ===================================================================== *)
(** ** Specification vocabulary and sample inputs *)
(* ===================================================================== *)

(** [s] occurs in [t] ([t.includes(s)]). *)
Definition Substring (s t : string) : Prop :=
  exists pre post, t = String.append pre (String.append s post).

(** A store that answers every query, with nothing stored. *)
Definition emptyDatabase : Database := {|
  getOpenPositions := Some [];
  getTodayTradeCount := Some (of_Z 0);
  getHourTradeCount := Some (of_Z 0);
  getConsecutiveLosses := Some (of_Z 0);
|}.


(** A world with the given risk state and store, empty feature buffers, a
    clock that starts at [t0] ms and advances one millisecond per reading,
    and a random source that always draws [draw]. *)
Definition sampleWorld (rs : RiskState) (db : Database) (t0 : Z) (draw : num)
    : World := {|
  riskState := rs;
  eventBuffer := [];
  tokenEvents := ∅;
  rpcLatencyHistory := [];
  recentFailures := of_Z 0;
  recentAttempts := of_Z 0;
  database := db;
  storeCalls := [];
  clock := fun k => of_Z (t0 + Z.of_nat k);
  clockReads := 0;
  rng := fun _ => draw;
  rngDraws := 0;
  uuids := fun _ => "3f2b8c1e-0000-4000-8000-000000000000"%string;
  uuidCount := 0;
|}.

(** The same world with the wall clock moved to [t0] ms. *)
Definition atTime (t0 : Z) (w : World) : World := {|
  riskState := riskState w; eventBuffer := eventBuffer w;
  tokenEvents := tokenEvents w; rpcLatencyHistory := rpcLatencyHistory w;
  recentFailures := recentFailures w; recentAttempts := recentAttempts w;
  database := database w; storeCalls := storeCalls w;
  clock := fun k => of_Z (t0 + Z.of_nat k); clockReads := 0;
  rng := rng w; rngDraws := rngDraws w;
  uuids := uuids w; uuidCount := uuidCount w |}.

Module PreTradeSpec.


End PreTradeSpec.

Module AutoHaltSpec.

Import RiskGovernor.

(** The consecutive-loss rule read on its own, as the specification words
    it: whenever the state is not halted and the consecutive losses have
    reached the limit, the call halts, reports a WARNING incident and
    leaves the state without an auto-resume timestamp. *)
Definition losses_rule_as_stated (config : BotConfig) (w : World) : Prop :=
  let rs := riskState (snd (refreshRiskCounters w)) in
  let out := runAutoHaltChecks config w in
  isHalted rs = false ->
  (consecutiveLosses rs >=? maxConsecutiveLosses config) = true ->
  isHalted (riskState (snd out)) = true /\
  (exists i, In i (fst out) /\ inc_severity i = WARNING) /\
  resumeAt (riskState (snd out)) = None.

(** A running (not halted) state that is 2.5 % down on the day. *)
Definition drawnDownState : RiskState :=
  with_equity (dec 975 100) (dec (-25) 100) (dec (-25) 10) (dec (-25) 10)
    initialRiskState.

(** A store reporting three losing trades in a row. *)
Definition threeLossesDatabase : Database := {|
  getOpenPositions := Some [];
  getTodayTradeCount := Some (of_Z 3);
  getHourTradeCount := Some (of_Z 1);
  getConsecutiveLosses := Some (of_Z 3);
|}.

Definition bothLimitsWorld : World :=
  sampleWorld drawnDownState threeLossesDatabase 1762000000000 (dec 5 10).

End AutoHaltSpec.

Module ExitSpec.

Import StrategyEngine.

Section Rules.
Variables (now : num) (position : Position) (currentPrice : num)
          (config : BotConfig).

Let pnlPct := pnlPctOf position currentPrice.







End Rules.

Definition outcome (s : option ExitSignal) : option (OrderSource * num) :=
  option_map (fun x => (sig_type x, sig_sellPct x)) s.


(** A paper position entered at [entry] with the given high-water mark,
    ladder and entry time; 20000 tokens bought for 0.02 SOL. *)
Definition samplePosition (entry hwm : num) (levels : list TakeProfitLevel)
    (enteredAt : num) : Position := {|
  pos_id := "7c9e6679-7425-40de-944b-e07fc1f90ae7";
  pos_tokenMint := "So1anaMemeMint1111111111111111111111111111";
  pos_tokenSymbol := "So1ana";
  pos_status := OPEN;
  entryPrice := entry; currentPrice := entry;
  entryAmountSol := dec 2 100;
  remainingTokens := of_Z 20000;
  totalTokensBought := of_Z 20000; totalTokensSold := of_Z 0;
  realizedPnlSol := of_Z 0; unrealizedPnlSol := of_Z 0; unrealizedPnlPct := of_Z 0;
  stopLossPrice := entry * (of_Z 1 - of_Z 25 / of_Z 100);
  takeProfitLevels := levels;
  pos_trailingStopPct := of_Z 15;
  trailingStopPrice := entry * (of_Z 1 - of_Z 25 / of_Z 100);
  highWaterMark := hwm;
  pos_timeStopMinutes := of_Z 60;
  entryTime := enteredAt; lastUpdateTime := enteredAt;
  pos_isPaper := true;
  pos_decisionCardId := "0b0f1c2d-1111-4222-8333-444455556666";
  exitReason := None;
|}.

Definition freshLadder : list TakeProfitLevel :=
  [ {| pctGain := of_Z 50; sellPct := of_Z 30; triggered := false |};
    {| pctGain := of_Z 100; sellPct := of_Z 30; triggered := false |} ].

Definition spentLadder : list TakeProfitLevel :=
  [ {| pctGain := of_Z 50; sellPct := of_Z 30; triggered := true |};
    {| pctGain := of_Z 100; sellPct := of_Z 30; triggered := true |} ].

End ExitSpec.

Module PaperSpec.

Definition samplePlan : ExecutionPlan := {|
  outputMint := "So1anaMemeMint1111111111111111111111111111";
  amountInSol := dec 2 100;
  estimatedSlippageBps := of_Z 20;
  estimatedOutputTokens := of_Z 0;
  priorityFeeLamports := of_Z 10000;
  splitOrders := of_Z 1;
|}.

Definition sampleDecisionId : string := "0b0f1c2d-1111-4222-8333-444455556666".

End PaperSpec.

Module ResumeSpec.

Import RiskGovernor AutoHaltSpec.

Definition t_start : Z := 1762000000000.
Definition hours (h : Z) : Z := h * 3600000.

(** A drawdown halt at [t_start], lifted by the operator one hour later;
    the operator halts by hand at +25 h. *)
Definition afterDrawdownHalt : World :=
  snd (runAutoHaltChecks DEFAULT_CONFIG
         (sampleWorld drawnDownState emptyDatabase t_start (dec 5 10))).

Definition afterOperatorResume : World :=
  snd (deactivateKillSwitch (atTime (t_start + hours 1) afterDrawdownHalt)).

Definition afterManualHalt : World :=
  snd (activateKillSwitch (TStr "Manual kill switch activated by operator")
         (atTime (t_start + hours 25) afterOperatorResume)).

(** The daily reset runs at the next midnight, after the old resume
    timestamp ([t_start] + 24 h) has passed. *)
Definition afterMidnightReset : World :=
  snd (resetDailyCounters (atTime (t_start + hours 26) afterManualHalt)).

End ResumeSpec.

Module DrawdownSpec.

Import RiskGovernor.

(** The worlds reached by a sequence of [updateEquity] calls, and the
    [todayPnlPct] seen after each. *)
Fixpoint runUpdates (sols : list num) (w : World) : World :=
  match sols with
  | [] => w
  | sol :: rest => runUpdates rest (snd (updateEquity sol w))
  end.

Fixpoint observedPnlPct (sols : list num) (w : World) : list num :=
  match sols with
  | [] => []
  | sol :: rest =>
      let w' := snd (updateEquity sol w) in
      todayPnlPct (riskState w') :: observedPnlPct rest w'
  end.

(** [d] is the most negative value of [observed] below [d0], or [d0]
    itself when nothing below [d0] was observed. *)
Definition lowest_since (d0 : num) (observed : list num) (d : num) : Prop :=
  (d = d0 /\ forall p, In p observed -> (p <? d0) = false) \/
  (In d observed /\ (d <? d0) = true /\
   forall p, In p observed -> (p <? d) = false).

End DrawdownSpec.

Module SellSpec.

Import PaperTradingEngine ExitSpec.

(** The accounting invariant of a position, read literally. *)
Definition accounting (p : Position) : Prop :=
  remainingTokens p = totalTokensBought p - totalTokensSold p /\
  (of_Z 0 <=? remainingTokens p) = true.

(** The sell draw did not fail: the second random draw of the call is
    not below half the configured failure rate. *)
Definition sellSucceeds (config : BotConfig) (w : World) : Prop :=
  (rng w (S (rngDraws w)) <? paperFailureRate config * dec 5 10) = false.

(** The claim as the specification words it: a successful sell of
    0..100 % keeps [accounting] and closes the position exactly when the
    tokens left fall below the tolerance. *)
Definition sell_claim_as_stated (config : BotConfig) (position : Position)
    (pct : num) (source : OrderSource) (price : num) (w : World) : Prop :=
  accounting position ->
  (of_Z 0 <=? pct) = true -> (pct <=? of_Z 100) = true ->
  sellSucceeds config w ->
  let position' := snd (fst (executeSell config position pct source price w)) in
  let left := remainingTokens position - remainingTokens position * (pct / of_Z 100) in
  accounting position' /\
  (pos_status position' = CLOSED <-> (left <? dec 1 100) = true) /\
  (pos_status position' <> CLOSED -> pos_status position' = PARTIALLY_CLOSED).

(** [p] holding [remaining] of [bought] tokens, [sold] of them sold. *)
Definition withTokens (remaining bought sold : num) (p : Position) : Position :=
  {| pos_id := pos_id p; pos_tokenMint := pos_tokenMint p;
     pos_tokenSymbol := pos_tokenSymbol p; pos_status := pos_status p;
     entryPrice := entryPrice p; currentPrice := currentPrice p;
     entryAmountSol := entryAmountSol p;
     remainingTokens := remaining; totalTokensBought := bought;
     totalTokensSold := sold;
     realizedPnlSol := realizedPnlSol p; unrealizedPnlSol := unrealizedPnlSol p;
     unrealizedPnlPct := unrealizedPnlPct p; stopLossPrice := stopLossPrice p;
     takeProfitLevels := takeProfitLevels p;
     pos_trailingStopPct := pos_trailingStopPct p;
     trailingStopPrice := trailingStopPrice p; highWaterMark := highWaterMark p;
     pos_timeStopMinutes := pos_timeStopMinutes p;
     entryTime := entryTime p; lastUpdateTime := lastUpdateTime p;
     pos_isPaper := pos_isPaper p; pos_decisionCardId := pos_decisionCardId p;
     exitReason := exitReason p |}.

Definition basePosition : Position :=
  samplePosition (dec 1 1000000) (dec 1 1000000) spentLadder (of_Z 1762000000000).

(** One token held, nothing sold yet. *)
Definition oneTokenPosition : Position :=
  withTokens (of_Z 1) (of_Z 1) (of_Z 0) basePosition.

(** Exactly 0.01 tokens held. *)
Definition toleranceTokenPosition : Position :=
  withTokens (dec 1 100) (dec 1 100) (of_Z 0) basePosition.

(** A world whose random draws (0.5) never trigger a failure. *)
Definition calmWorld : World :=
  sampleWorld RiskGovernor.initialRiskState emptyDatabase 1762000000000 (dec 5 10).

End SellSpec.

Module EventSpec.

Import FeatureEngine.

(** An event is stale when its timestamp is older than the cutoff. *)
Definition fresh (cutoff : num) (e : PumpEvent) : Prop :=
  (ev_timestamp e <? cutoff) = false.

(** The cutoff of a [recordEvent] call made in world [w]: the clock
    reading minus twice the five-minute window. *)
Definition cutoffAt (w : World) : num :=
  clock w (clockReads w) - EVENT_WINDOW_MS * of_Z 2.

(** The claim as the specification words it: after the insert no buffer,
    global or per asset, holds a stale event. *)
Definition buffers_bounded_as_stated (event : PumpEvent) (w : World) : Prop :=
  let w' := snd (recordEvent event w) in
  Forall (fresh (cutoffAt w)) (eventBuffer w') /\
  forall mint evs, tokenEvents w' !! mint = Some evs ->
                   Forall (fresh (cutoffAt w)) evs.

(** Events arrive in non-decreasing timestamp order. *)
Definition chronological (buf : list PumpEvent) : Prop :=
  StronglySorted (fun a b => (ev_timestamp a <=? ev_timestamp b) = true) buf.

Definition buyAt (mint : string) (t : Z) : PumpEvent := {|
  ev_type := BUY; ev_tokenMint := mint;
  ev_wallet := "9xQeWvG816bUx9EPjHmaT23yvVM2ZWbrrpZb9PusVFin";
  ev_amountSol := dec 5 10; ev_timestamp := of_Z t |}.

Definition t0 : Z := 1762000000000.
Definition minutes (m : Z) : Z := m * 60000.

(** A buy of asset A is recorded at [t0]; eleven minutes later a buy of
    asset B arrives. *)
Definition eventA : PumpEvent := buyAt "AssetA" t0.
Definition eventB : PumpEvent := buyAt "AssetB" (t0 + minutes 11).

Definition worldAfterA : World :=
  snd (recordEvent eventA
         (sampleWorld RiskGovernor.initialRiskState emptyDatabase t0 (dec 5 10))).

Definition worldElevenMinutesLater : World :=
  atTime (t0 + minutes 11) worldAfterA.

End EventSpec.

Module LadderSpec.

Import StrategyEngine PaperTradingEngine ExitSpec SellSpec.

(** A position entered at 100 that trades at 150 (+50 %), ladder fresh. *)
Definition risenPosition : Position :=
  samplePosition (of_Z 100) (of_Z 150) freshLadder (of_Z 1762000000000).

(** One pass of the position monitor over [position] at [price]: evaluate
    the exit conditions and, on a signal, execute the sell (index.ts). *)
Definition monitorTick (config : BotConfig) (position : Position) (price : num)
    : M (option ExitSignal * Position) :=
  let* exitSignal := checkExitConditions position price config in
  match exitSignal with
  | Some s =>
      let* sold := executeSell config position (sig_sellPct s) (sig_type s) price in
      ret (exitSignal, snd sold)
  | None => ret (exitSignal, position)
  end.

End LadderSpec.

Module SlippageSpec.

Import FeatureEngine.

(** The claim as the specification words it: for a fixed liquidity the
    estimate is strictly increasing in the order size. *)
Definition strictly_increasing_as_stated (liquidity : num) : Prop :=
  forall size1 size2,
    (size1 <? size2) = true ->
    (estimateSlippageBps size1 liquidity <? estimateSlippageBps size2 liquidity) = true.

(** A number as the running program can hold it: a zero, an infinity, NaN
    or a finite binary64 value in canonical form. *)
Definition is_double (x : num) : Prop := valid_binary prec emax x = true.

(** A finite, strictly positive number. *)
Definition positive_finite (x : num) : Prop :=
  match x with S754_finite false _ _ => True | _ => False end.

End SlippageSpec.

(* ===================================================================== *)
(** ** Correct rounding, in integers *)
(* ===================================================================== *)

(** The vocabulary in which the rounding performed by [SFdiv], [SFmul] and
    [binary_normalize] is described: the rational [N/D * 2^ex] is cut to
    53 bits, rounded to nearest-even and packed into a double. *)
Module Rounding.

Local Open Scope Z_scope.

(** Where the rational [N/D] sits between [N/D] rounded down and the next
    integer. *)
Definition locate (N D : Z) : location :=
  if N mod D =? 0 then loc_Exact
  else loc_Inexact (Z.compare (2 * (N mod D)) D).

Definition located (N D : Z) : shr_record :=
  shr_record_of_loc (N / D) (locate N D).

Definition fexp64 (e : Z) : Z := fexp prec emax e.

(** The number of low bits dropped when [mx * 2^ex] is brought to its
    binary64 exponent. *)
Definition shiftOf (mx ex : Z) : Z := fexp64 (Zdigits2 mx + ex) - ex.

(** The result for mantissa [m] (after rounding) at exponent [e]: a carry
    into bit 53 moves to the next exponent, an exponent above 971
    overflows. *)
Definition finish (m e : Z) : num :=
  match m with
  | Z0 => S754_zero false
  | Zpos p =>
      if m <? 2 ^ 53
      then (if e <=? 971 then S754_finite false p e else S754_infinity false)
      else (if e + 1 <=? 971
            then S754_finite false 4503599627370496 (e + 1)
            else S754_infinity false)
  | Zneg _ => S754_nan
  end.

Definition rounded (N D ex : Z) : num :=
  let n := shiftOf (N / D) ex in
  finish (round_nearest_even (N / (D * 2 ^ n)) (locate N (D * 2 ^ n))) (ex + n).

Definition loc_rank (l : location) : Z :=
  match l with
  | loc_Exact => 0
  | loc_Inexact Lt => 1
  | loc_Inexact Eq => 2
  | loc_Inexact Gt => 3
  end.

(** The mantissa and exponent after a possible carry. *)
Definition carried (m e : Z) : Z * Z :=
  if m <? 2 ^ 53 then (m, e) else (2 ^ 52, e + 1).

(** [2^e], scaled so that every exponent in play is non-negative. *)
Definition pw (e : Z) : Z := 2 ^ (e + 5000).

(** [N/D * 2^ex <= N'/D' * 2^ex'] *)
Definition vle (N D ex N' D' ex' : Z) : Prop :=
  N * D' * pw ex <= N' * D * pw ex'.

(** A positive mantissa and its exponent in canonical binary64 form. *)
Definition canon (m e : Z) : Prop :=
  0 < m < 2 ^ 53 /\ -1074 <= e <= 971 /\ (-1074 < e -> 2 ^ 52 <= m).

(** The numbers that are not negative and not NaN. *)
Definition nonneg_double (x : num) : Prop :=
  match x with
  | S754_zero _ => True
  | S754_infinity s => s = false
  | S754_finite s m e => s = false /\ canon (Zpos m) e
  | S754_nan => False
  end.

Definition lexle (m e m' e' : Z) : Prop := e < e' \/ (e = e' /\ m <= m').

(** Division of [m * 2^e] by the positive double [p2 * 2^e2]: the exponent
    [SFdiv] chooses for the quotient, and the numerator and denominator of
    the integer division it performs. *)
Definition divE (p2 : positive) (e2 : Z) (m e : Z) : Z :=
  Z.min (fexp64 (Zdigits2 m + e - (Zdigits2 (Zpos p2) + e2))) (e - e2).
Definition divN (p2 : positive) (e2 : Z) (m e : Z) : Z :=
  m * 2 ^ (e - e2 - divE p2 e2 m e).
Definition divD (p2 : positive) (m e : Z) : Z := Zpos p2.

Definition divBy (p2 : positive) (e2 : Z) (x : num) : num :=
  div x (S754_finite false p2 e2).

(** Multiplication of [m * 2^e] by the positive double [pc * 2^ec]. *)
Definition mulN (pc : positive) (m e : Z) : Z := m * Zpos pc.
Definition mulD (m e : Z) : Z := 1.
Definition mulE (ec : Z) (m e : Z) : Z := e + ec.

Definition mulBy (pc : positive) (ec : Z) (x : num) : num :=
  mul x (S754_finite false pc ec).

(** The mantissa and exponent [binary_normalize] aligns a non-negative
    integer to before rounding it. *)
Definition alignN (n : Z) : Z :=
  if Zdigits2 n <? 53 then n * 2 ^ (53 - Zdigits2 n) else n.
Definition alignE (n : Z) : Z :=
  if n =? 0 then -1074 else if Zdigits2 n <? 53 then Zdigits2 n - 53 else 0.

(** floor(m * 2^e + 1/2) for a negative exponent [e]. *)
Definition roundInt (m e : Z) : Z := (2 * m + 2 ^ (- e)) / 2 ^ (- e + 1).

Definition roundN (m e : Z) : Z := if 0 <=? e then m else alignN (roundInt m e).
Definition roundD (m e : Z) : Z := 1.
Definition roundE (m e : Z) : Z := if 0 <=? e then e else alignE (roundInt m e).

End Rounding.

(** The vocabulary for sums and integers: the exact sum of two doubles as an
    integer at the smaller exponent, and the alignment [binary_normalize]
    applies before it rounds. *)
Module Summation.

Import Rounding.
Local Open Scope Z_scope.

(** The mantissa [binary_normalize] hands to the rounding for
    [n * 2^e]: shifted left when fewer than 53 bits are in use. *)
Definition alignedN (n e : Z) : Z :=
  let e' := fexp64 (Zdigits2 n + e) in
  if e' <? e then n * 2 ^ (e - e') else n.

(** The exponent that goes with [alignedN]. *)
Definition alignedE (n e : Z) : Z :=
  let e' := fexp64 (Zdigits2 n + e) in
  if e' <? e then e' else e.

(** [m1 * 2^e1 + m2 * 2^e2] as an integer at the smaller exponent. *)
Definition sumM (m1 e1 m2 e2 : Z) : Z :=
  m1 * 2 ^ (e1 - Z.min e1 e2) + m2 * 2 ^ (e2 - Z.min e1 e2).

(** Addition of [m * 2^e] to the positive double [p2 * 2^e2]. *)
Definition addN (p2 : positive) (e2 m e : Z) : Z :=
  alignedN (sumM m e (Zpos p2) e2) (Z.min e e2).
Definition addD (m e : Z) : Z := 1.
Definition addE (p2 : positive) (e2 m e : Z) : Z :=
  alignedE (sumM m e (Zpos p2) e2) (Z.min e e2).

End Summation.

(* ===================================================================== *)
(** ** Vocabulary of the further properties *)
(* ===================================================================== *)

Module RpcHealthSpec.

Import RpcHealth.

(** The attempt counter after one more attempt, as an integer. *)
Definition nextAttempts (a : Z) : Z := if (a <? 200)%Z then (a + 1)%Z else 100%Z.

(** The failure counter after one more attempt, as an integer. *)
Definition nextFailures (success : bool) (a f : Z) : Z :=
  let f1 := if success then f else (f + 1)%Z in
  if (a <? 200)%Z then f1 else (f1 / 2)%Z.

(** The integers 0, 1, ..., n. *)
Definition upto (n : nat) : list Z := map Z.of_nat (seq 0 (S n)).

(** Adding one to a counter of at most 200 is exact, and the result
    exceeds 200 only from 200. *)
Definition increments_ok : bool :=
  forallb (fun a =>
             num_eqb (of_Z a + of_Z 1) (of_Z (a + 1))
             && Bool.eqb (of_Z a + of_Z 1 >? of_Z 200) (negb (a <? 200)%Z))
          (upto 200).

(** Halving and flooring a counter of at most 201 is exact. *)
Definition halves_ok : bool :=
  forallb (fun n => num_eqb (Math_floor (of_Z n / of_Z 2)) (of_Z (n / 2)))
          (upto 201).

Definition busyWorld : World :=
  snd (set_rpc [] (of_Z 7) (of_Z 200)
         (sampleWorld RiskGovernor.initialRiskState emptyDatabase 0 (of_Z 0))).

(** A run of transaction attempts, recorded one after the other. *)
Fixpoint recordAttempts (outcomes : list bool) : M unit :=
  match outcomes with
  | [] => ret tt
  | success :: rest => recordTxAttempt success ;; recordAttempts rest
  end.

End RpcHealthSpec.

Module FeatureSpec.

Import FeatureEngine RegimeEngine.

(** An event the regime features do not look at: a SELL, or an event at
    or before the start of the window. *)
Definition ignorable (windowStart : num) (e : PumpEvent) : Prop :=
  is_SELL (ev_type e) = true \/ (ev_timestamp e >? windowStart) = false.

(** The three buy-size classes of the traction features. *)
Definition small (b : PumpEvent) : bool := ev_amountSol b <? dec 1 10.
Definition medium (b : PumpEvent) : bool :=
  (ev_amountSol b >=? dec 1 10) && (ev_amountSol b <? of_Z 1).
Definition large (b : PumpEvent) : bool := ev_amountSol b >=? of_Z 1.

(** An amount a trade can have: a double that is not negative (and so
    not NaN). *)
Definition plausible_amount (e : PumpEvent) : Prop :=
  SlippageSpec.is_double (ev_amountSol e) /\ (of_Z 0 <=? ev_amountSol e) = true.

(** Two launches, a buy and a sell within the window. *)
Definition livelyMarket : World :=
  snd (set_events
         [ {| ev_type := LAUNCH; ev_tokenMint := "AssetA"; ev_wallet := "creator1";
              ev_amountSol := of_Z 0; ev_timestamp := of_Z EventSpec.t0 |};
           EventSpec.eventA;
           {| ev_type := SELL; ev_tokenMint := "AssetA"; ev_wallet := "seller1";
              ev_amountSol := of_Z (-3); ev_timestamp := of_Z EventSpec.t0 |};
           {| ev_type := LAUNCH; ev_tokenMint := "AssetB"; ev_wallet := "creator2";
              ev_amountSol := of_Z 0; ev_timestamp := of_Z EventSpec.t0 |} ]
         {[ "AssetA"%string := [EventSpec.eventA; EventSpec.buyAt "AssetA" EventSpec.t0] ]}
         (sampleWorld RiskGovernor.initialRiskState emptyDatabase EventSpec.t0 (of_Z 0))).

End FeatureSpec.

Module StatsSpec.

Import PaperTradingEngine.

(** One token bought and sold again in full, for 2 SOL. *)
Definition closedTrade : Position :=
  soldPosition SellSpec.oneTokenPosition (of_Z 1) (of_Z 2) (of_Z 1762000060000) MANUAL.

End StatsSpec.

Module DecisionSpec.

Import RiskGovernor DecisionEngine.

(** None of the five figures the risk-limits filter compares, nor the
    limit it is compared with, is NaN. *)
Definition comparable_limits (c : BotConfig) (risk : RiskState) : Prop :=
  is_nan (currentExposurePct risk) = false /\ is_nan (maxExposurePct c) = false /\
  is_nan (todayTradeCount risk) = false /\ is_nan (maxTradesPerDay c) = false /\
  is_nan (hourTradeCount risk) = false /\ is_nan (maxTradesPerHour c) = false /\
  is_nan (consecutiveLosses risk) = false /\ is_nan (maxConsecutiveLosses c) = false /\
  is_nan (Math_abs (todayDrawdownPct risk)) = false /\
  is_nan (dailyMaxDrawdownPct c) = false.

(** The initial risk state with an exposure percentage of NaN. *)
Definition undefinedExposure : RiskState :=
  with_exposure (of_Z 0) (of_Z 0) NaN initialRiskState.

(** The default configuration with a per-trade risk of NaN. *)
Definition undefinedRiskPerTrade : BotConfig := {|
  riskPerTradePct := NaN;
  maxExposurePct := maxExposurePct DEFAULT_CONFIG;
  dailyMaxDrawdownPct := dailyMaxDrawdownPct DEFAULT_CONFIG;
  maxTradesPerHour := maxTradesPerHour DEFAULT_CONFIG;
  maxTradesPerDay := maxTradesPerDay DEFAULT_CONFIG;
  maxConsecutiveLosses := maxConsecutiveLosses DEFAULT_CONFIG;
  stopLossPct := stopLossPct DEFAULT_CONFIG;
  cfg_takeProfitLevels := cfg_takeProfitLevels DEFAULT_CONFIG;
  trailingStopPct := trailingStopPct DEFAULT_CONFIG;
  timeStopMinutes := timeStopMinutes DEFAULT_CONFIG;
  paperStartingEquity := paperStartingEquity DEFAULT_CONFIG;
  paperSlippageMultiplier := paperSlippageMultiplier DEFAULT_CONFIG;
  paperFailureRate := paperFailureRate DEFAULT_CONFIG;
  paperLatencyMs := paperLatencyMs DEFAULT_CONFIG;
|}.

(** Every setting [validateConfig] looks at, other than the per-trade
    risk, is within its bound, and LIVE mode has a wallet. *)
Definition other_settings_accepted (config : BotConfig) (entry : EntryConfig)
    : Prop :=
  (maxExposurePct config >? of_Z 5) = false /\
  (dailyMaxDrawdownPct config >? of_Z 5) = false /\
  (stopLossPct config >? of_Z 50) = false /\
  (maxTradesPerDay config >? of_Z 50) = false /\
  (paperFailureRate config >? dec 5 10) = false /\
  (maxSlippageBps entry >? of_Z 1000) = false /\
  ConfigCheck.is_LIVE (mode entry) && ConfigCheck.no_wallet (walletPath entry)
  = false.

(** The reasons a SKIP summary draws from: those of the failed filters,
    or the stock sentence when none failed. *)
Definition skipReasons (filters : list FilterCheck) : list Text :=
  match map flt_reason (List.filter (fun f => is_FAIL (flt_result f)) filters) with
  | [] => [TStr "No specific reason found"]
  | reasons => reasons
  end.

Definition sampleToken : TokenInfo :=
  {| tok_mint := "dogexmint"; tok_name := "DOGEX"; tok_symbol := "DOGEX";
     tok_creator := "creator1"; tok_createdAt := of_Z 1762000000000;
     tok_phase := GRADUATED; tok_bondingCurveAddress := None;
     tok_raydiumPoolAddress := Some "pool1"%string;
     tok_graduatedAt := Some (of_Z 1762000060000) |}.

End DecisionSpec.
(* ===================================================================== *)
(** * Properties *)
(* ===================================================================== *)

(** ** Order facts of binary64 comparison *)

Module F64Facts.

Ltac cmp_cases :=
  repeat match goal with
  | H : context [Pos.compare_cont Eq ?a ?b] |- _ =>
      change (Pos.compare_cont Eq a b) with (Pos.compare a b) in H
  | |- context [Pos.compare_cont Eq ?a ?b] =>
      change (Pos.compare_cont Eq a b) with (Pos.compare a b)
  end;
  repeat match goal with
  | H : context [Z.compare ?a ?b] |- _ => destruct (Z.compare_spec a b); simpl in H
  | |- context [Z.compare ?a ?b] => destruct (Z.compare_spec a b); simpl
  | H : context [Pos.compare ?a ?b] |- _ => destruct (Pos.compare_spec a b); simpl in H
  | |- context [Pos.compare ?a ?b] => destruct (Pos.compare_spec a b); simpl
  end;
  try discriminate; try reflexivity; try lia.

Ltac by_cases x := destruct x as [[]|[]| |[] ? ?].

Lemma ltb_trans (x y z : num) :
  (x <? y) = true -> (y <? z) = true -> (x <? z) = true.
Proof.
  unfold ltb, SFltb. by_cases x; by_cases y; by_cases z; simpl;
    intros H1 H2; try discriminate; try reflexivity; cmp_cases.
Qed.

Lemma leb_ltb_trans (x y z : num) :
  (x <=? y) = true -> (y <? z) = true -> (x <? z) = true.
Proof.
  unfold ltb, leb, SFltb, SFleb. by_cases x; by_cases y; by_cases z; simpl;
    intros H1 H2; try discriminate; try reflexivity; cmp_cases.
Qed.

Lemma ltb_leb_trans (x y z : num) :
  (x <? y) = true -> (y <=? z) = true -> (x <? z) = true.
Proof.
  unfold ltb, leb, SFltb, SFleb. by_cases x; by_cases y; by_cases z; simpl;
    intros H1 H2; try discriminate; try reflexivity; cmp_cases.
Qed.

Lemma ltb_leb (x y : num) : (x <? y) = true -> (x <=? y) = true.
Proof.
  unfold ltb, leb, SFltb, SFleb. destruct (SFcompare x y) as [[]|]; auto.
Qed.

Lemma ltb_irrefl (x : num) : (x <? x) = false.
Proof.
  unfold ltb, SFltb. by_cases x; simpl; try reflexivity; cmp_cases.
Qed.

Lemma ltb_asym (x y : num) : (x <? y) = true -> (y <? x) = false.
Proof.
  intros H. destruct (y <? x) eqn:E; [|reflexivity].
  rewrite <- (ltb_irrefl x). symmetry. exact (ltb_trans _ _ _ H E).
Qed.

(** Two numbers that are not NaN are comparable. *)
Lemma leb_total (x y : num) :
  is_nan x = false -> is_nan y = false -> (x <? y) = false -> (y <=? x) = true.
Proof.
  unfold ltb, leb, SFltb, SFleb. by_cases x; by_cases y; simpl;
    intros H1 H2 H3; try discriminate; try reflexivity; cmp_cases.
Qed.

Lemma ltb_not_nan (x y : num) :
  (x <? y) = true -> is_nan x = false /\ is_nan y = false.
Proof. unfold ltb, SFltb. destruct x, y; simpl; intros; try discriminate; auto. Qed.

Lemma leb_not_nan (x y : num) :
  (x <=? y) = true -> is_nan x = false /\ is_nan y = false.
Proof. unfold leb, SFleb. destruct x, y; simpl; intros; try discriminate; auto. Qed.

End F64Facts.

(* ===================================================================== *)
(** ** Correct rounding is monotone *)
(* ===================================================================== *)

(** [binary_round_aux] applied to a located quotient is [rounded]; [rounded]
    is monotone in the rational it rounds; division by a positive double,
    multiplication by a normal double and [Math_round] are instances. *)
Module RoundingFacts.

Import Rounding.
Local Open Scope Z_scope.
Local Unset Default Proof Using.

(** ** Digits *)

Lemma Zdigits2_log2 (p : positive) :
  Zdigits2 (Zpos p) = Z.succ (Z.log2 (Zpos p)).
Proof.
  assert (H : forall q, Zpos (digits2_pos q) = Zpos (Pos.size q)).
  { induction q as [q IH|q IH|]; cbn; try reflexivity;
      rewrite !Pos2Z.inj_succ, IH; reflexivity. }
  destruct p as [p|p|]; cbn; try reflexivity;
    rewrite Pos2Z.inj_succ, H; reflexivity.
Qed.

Lemma Zdigits2_bounds (m : Z) :
  0 < m -> 2 ^ (Zdigits2 m - 1) <= m < 2 ^ Zdigits2 m.
Proof.
  intros Hm. destruct m as [|p|p]; try lia.
  rewrite Zdigits2_log2.
  replace (Z.succ (Z.log2 (Z.pos p)) - 1) with (Z.log2 (Z.pos p)) by lia.
  apply Z.log2_spec. lia.
Qed.

Lemma Zdigits2_nonneg (m : Z) : 0 <= Zdigits2 m.
Proof. destruct m; cbn; lia. Qed.

Lemma Zdigits2_pos (m : Z) : 0 < m -> 0 < Zdigits2 m.
Proof.
  intros Hm. destruct m as [|p|p]; try lia. cbn. lia.
Qed.

Lemma Zdigits2_unique (m k : Z) :
  2 ^ (k - 1) <= m < 2 ^ k -> 0 < k -> Zdigits2 m = k.
Proof.
  intros H Hk. assert (Hm : 0 < m).
  { assert (0 < 2 ^ (k - 1)) by (apply Z.pow_pos_nonneg; lia). lia. }
  destruct m as [|p|p]; try lia.
  rewrite Zdigits2_log2.
  rewrite (Z.log2_unique (Z.pos p) (k - 1)); try lia.
  replace (Z.succ (k - 1)) with k by lia. lia.
Qed.

Lemma Zdigits2_le (m k : Z) : 0 <= k -> 0 < m < 2 ^ k -> Zdigits2 m <= k.
Proof.
  intros Hk [Hm Hlt]. pose proof (Zdigits2_bounds m Hm) as [Hlo _].
  destruct (Z_le_gt_dec (Zdigits2 m) k) as [|Hgt]; [assumption|].
  assert (2 ^ k <= 2 ^ (Zdigits2 m - 1)) by (apply Z.pow_le_mono_r; lia). lia.
Qed.

Lemma Zdigits2_ge (m k : Z) : 2 ^ (k - 1) <= m -> 0 < k -> k <= Zdigits2 m.
Proof.
  intros Hlo Hk.
  assert (Hm : 0 < m).
  { assert (0 < 2 ^ (k - 1)) by (apply Z.pow_pos_nonneg; lia). lia. }
  pose proof (Zdigits2_bounds m Hm) as [_ Hhi].
  pose proof (Zdigits2_pos m Hm).
  destruct (Z_le_gt_dec k (Zdigits2 m)) as [|Hgt]; [assumption|].
  assert (2 ^ Zdigits2 m <= 2 ^ (k - 1)) by (apply Z.pow_le_mono_r; lia). lia.
Qed.

(** ** Locations *)

Lemma locate_cases (N D : Z) :
  0 < D ->
  (N mod D = 0 /\ locate N D = loc_Exact) \/
  (0 < N mod D /\ 2 * (N mod D) < D /\ locate N D = loc_Inexact Lt) \/
  (2 * (N mod D) = D /\ locate N D = loc_Inexact Eq) \/
  (D < 2 * (N mod D) /\ locate N D = loc_Inexact Gt).
Proof.
  intros HD. pose proof (Z.mod_pos_bound N D HD) as Hk. unfold locate.
  destruct (Z.eqb_spec (N mod D) 0) as [E|E]; [left; auto|].
  destruct (Z.compare_spec (2 * (N mod D)) D); [right; right; left | right; left | right; right; right];
    repeat split; auto; lia.
Qed.

Lemma shr_1_located (N D : Z) :
  0 <= N -> 0 < D -> shr_1 (located N D) = located N (2 * D).
Proof.
  intros HN HD. unfold located.
  assert (Hq : N / (2 * D) = N / D / 2) by (rewrite Z.mul_comm, Z.div_div; lia).
  assert (Hk : N mod (2 * D) = N mod D + D * ((N / D) mod 2))
    by (rewrite Z.mul_comm; apply Z.rem_mul_r; lia).
  assert (Hq0 : 0 <= N / D) by (apply Z.div_pos; lia).
  pose proof (Z.mod_pos_bound N D HD) as HkD.
  assert (Hpar : N / D = 2 * (N / D / 2) + (N / D) mod 2) by (apply Z.div_mod; lia).
  pose proof (Z.mod_pos_bound (N / D) 2 ltac:(lia)) as Hb.
  rewrite Hq.
  assert (Hloc2 : locate N (2 * D) =
            if (N / D) mod 2 =? 0
            then (if N mod D =? 0 then loc_Exact else loc_Inexact Lt)
            else (if N mod D =? 0 then loc_Inexact Eq else loc_Inexact Gt)).
  { unfold locate. rewrite Hk.
    destruct (Z.eqb_spec ((N / D) mod 2) 0) as [E|E].
    - rewrite E, Z.mul_0_r, Z.add_0_r.
      destruct (Z.eqb_spec (N mod D) 0); [reflexivity|].
      f_equal. apply Z.compare_lt_iff. lia.
    - assert (E1 : (N / D) mod 2 = 1) by lia. rewrite E1, Z.mul_1_r.
      destruct (Z.eqb_spec (N mod D + D) 0); [lia|].
      destruct (Z.eqb_spec (N mod D) 0) as [E0|E0].
      + f_equal. apply Z.compare_eq_iff. lia.
      + f_equal. apply Z.compare_gt_iff. lia. }
  rewrite Hloc2.
  destruct (N / D) as [|q|q] eqn:EQ; [| |lia].
  - cbn. destruct (locate_cases N D HD) as [[H0 ->]|[[H0 [_ ->]]|[[H0 ->]|[H0 ->]]]];
      destruct (Z.eqb_spec (N mod D) 0); try lia; reflexivity.
  - destruct q as [q|q|].
    + assert (E1 : Z.pos q~1 / 2 = Z.pos q) by lia.
      assert (E2 : Z.pos q~1 mod 2 = 1) by lia. rewrite E1, E2.
      cbn. destruct (locate_cases N D HD) as [[H0 ->]|[[H0 [_ ->]]|[[H0 ->]|[H0 ->]]]];
      destruct (Z.eqb_spec (N mod D) 0); try lia; reflexivity.
    + assert (E1 : Z.pos q~0 / 2 = Z.pos q) by lia.
      assert (E2 : Z.pos q~0 mod 2 = 0) by lia. rewrite E1, E2.
      cbn. destruct (locate_cases N D HD) as [[H0 ->]|[[H0 [_ ->]]|[[H0 ->]|[H0 ->]]]];
      destruct (Z.eqb_spec (N mod D) 0); try lia; reflexivity.
    + cbn. destruct (locate_cases N D HD) as [[H0 ->]|[[H0 [_ ->]]|[[H0 ->]|[H0 ->]]]];
      destruct (Z.eqb_spec (N mod D) 0); try lia; reflexivity.
Qed.

Lemma pow2_xO (p : positive) : 2 ^ Zpos p~0 = 2 ^ Zpos p * 2 ^ Zpos p.
Proof. rewrite <- Z.pow_add_r by lia. f_equal. lia. Qed.

Lemma pow2_xI (p : positive) : 2 ^ Zpos p~1 = 2 * (2 ^ Zpos p * 2 ^ Zpos p).
Proof.
  rewrite <- Z.pow_add_r by lia. rewrite <- Z.pow_succ_r by lia. f_equal. lia.
Qed.

Lemma iter_shr_1_located (p : positive) (N D : Z) :
  0 <= N -> 0 < D ->
  SpecFloat.iter_pos shr_1 p (located N D) = located N (D * 2 ^ Zpos p).
Proof.
  intros HN. revert D. induction p as [p IH|p IH|]; intros D HD; cbn [SpecFloat.iter_pos].
  - assert (0 < 2 ^ Zpos p) by (apply Z.pow_pos_nonneg; lia).
    rewrite shr_1_located, IH, IH by nia.
    f_equal. rewrite pow2_xI. ring.
  - assert (0 < 2 ^ Zpos p) by (apply Z.pow_pos_nonneg; lia).
    rewrite IH, IH by nia.
    f_equal. rewrite pow2_xO. ring.
  - rewrite shr_1_located by assumption. f_equal. rewrite Z.pow_1_r. ring.
Qed.

(** ** What [binary_round_aux] computes *)

Lemma fexp64_eq (e : Z) : fexp64 e = Z.max (e - 53) (-1074).
Proof. reflexivity. Qed.

Lemma shr_m_located (N D : Z) : shr_m (located N D) = N / D.
Proof. unfold located. destruct (locate N D) as [|[]]; reflexivity. Qed.

Lemma loc_of_located (N D : Z) : loc_of_shr_record (located N D) = locate N D.
Proof. unfold located. destruct (locate N D) as [|[]]; reflexivity. Qed.

Lemma rne_bounds (m : Z) (l : location) :
  m <= round_nearest_even m l <= m + 1.
Proof.
  unfold round_nearest_even. destruct l as [|[]]; try lia.
  destruct (Z.even m); lia.
Qed.

Lemma div_pow2_div (N D n : Z) :
  0 < D -> 0 <= n -> N / (D * 2 ^ n) = N / D / 2 ^ n.
Proof.
  intros HD Hn.
  assert (0 < 2 ^ n) by (apply Z.pow_pos_nonneg; lia).
  rewrite Z.div_div; lia.
Qed.

Section RoundAux.
Variables (N D ex : Z).
Hypothesis HN : 0 <= N.
Hypothesis HD : 0 < D.

Let mx := N / D.
Let n := shiftOf mx ex.
Hypothesis Hn : 0 <= n.

Let e1 := ex + n.
Let m1 := N / (D * 2 ^ n).
Let l1 := locate N (D * 2 ^ n).

Lemma mx_nonneg : 0 <= mx.
Proof. apply Z.div_pos; lia. Qed.

Lemma e1_eq : e1 = fexp64 (Zdigits2 mx + ex).
Proof. unfold e1, n, shiftOf. lia. Qed.

Lemma e1_min : -1074 <= e1.
Proof. rewrite e1_eq, fexp64_eq. lia. Qed.

Lemma m1_eq : m1 = mx / 2 ^ n.
Proof. apply div_pow2_div; assumption. Qed.

Lemma m1_bounds : 0 <= m1 < 2 ^ 53.
Proof.
  rewrite m1_eq. pose proof mx_nonneg as Hmx.
  assert (Hp : 0 < 2 ^ n) by (apply Z.pow_pos_nonneg; lia).
  split; [apply Z.div_pos; lia|].
  apply Z.div_lt_upper_bound; [lia|].
  destruct (Z.eq_dec mx 0) as [E|E]; [rewrite E; lia|].
  pose proof (Zdigits2_bounds mx ltac:(lia)) as [_ Hhi].
  pose proof (Zdigits2_pos mx ltac:(lia)) as Hd.
  assert (Hsh : Zdigits2 mx - 53 <= n).
  { unfold n, shiftOf. rewrite fexp64_eq. lia. }
  rewrite Z.mul_comm, <- Z.pow_add_r by lia.
  eapply Z.lt_le_trans; [exact Hhi|].
  apply Z.pow_le_mono_r; lia.
Qed.

(** Above the smallest exponent the kept mantissa has all 53 bits. *)
Lemma m1_normal : -1074 < e1 -> 2 ^ 52 <= m1.
Proof.
  intros He. rewrite m1_eq.
  assert (En : n = Zdigits2 mx - 53).
  { revert He. unfold e1, n, shiftOf. rewrite fexp64_eq. lia. }
  assert (Hmx : 0 < mx).
  { pose proof mx_nonneg. destruct (Z.eq_dec mx 0) as [E|E]; [|lia].
    exfalso. revert He. unfold e1, n, shiftOf. rewrite E. cbn [Zdigits2].
    rewrite fexp64_eq. revert Hn. unfold n, shiftOf. rewrite E. cbn [Zdigits2].
    rewrite fexp64_eq. lia. }
  pose proof (Zdigits2_bounds mx Hmx) as [Hlo _].
  assert (Hp : 0 < 2 ^ n) by (apply Z.pow_pos_nonneg; lia).
  apply Z.div_le_lower_bound; [lia|].
  rewrite Z.mul_comm, <- Z.pow_add_r by lia.
  replace (52 + n) with (Zdigits2 mx - 1) by lia. exact Hlo.
Qed.

Lemma first_shift :
  shr_fexp prec emax mx ex (locate N D) = (located N (D * 2 ^ n), e1).
Proof.
  unfold shr_fexp. fold (fexp64 (Zdigits2 mx + ex)). fold (shiftOf mx ex). fold n.
  change (shr_record_of_loc mx (locate N D)) with (located N D).
  unfold shr, e1. destruct n as [|p|p] eqn:E; [| |lia].
  - rewrite Z.pow_0_r, Z.mul_1_r, Z.add_0_r. reflexivity.
  - rewrite iter_shr_1_located by assumption. reflexivity.
Qed.

Lemma second_shift (m2 : Z) :
  0 <= m2 <= 2 ^ 53 ->
  (let '(mrs, e) := shr_fexp prec emax m2 e1 loc_Exact in
   match shr_m mrs with
   | Z0 => S754_zero false
   | Zpos m => if e <=? emax - prec then S754_finite false m e
               else S754_infinity false
   | Zneg _ => S754_nan
   end) = finish m2 e1.
Proof.
  intros Hm2. pose proof e1_min as He.
  unfold shr_fexp. fold (fexp64 (Zdigits2 m2 + e1)).
  destruct (Z.eq_dec m2 (2 ^ 53)) as [E|E].
  - rewrite E. cbn [Zdigits2 digits2_pos Z.pow Z.pow_pos Pos.iter Z.mul Pos.mul Pos.succ].
    change (Zdigits2 (2 ^ 53)) with 54. rewrite fexp64_eq.
    replace (Z.max (54 + e1 - 53) (-1074) - e1) with 1 by lia.
    cbn. reflexivity.
  - destruct m2 as [|p|p]; [| |lia].
    + cbn [Zdigits2]. rewrite fexp64_eq. unfold shr.
      destruct (Z.max (0 + e1 - 53) (-1074) - e1) eqn:E'; try lia; reflexivity.
    + assert (Hd : Zdigits2 (Z.pos p) <= 53) by (apply Zdigits2_le; lia).
      rewrite fexp64_eq. unfold shr.
      destruct (Z.max (Zdigits2 (Z.pos p) + e1 - 53) (-1074) - e1) eqn:E'; try lia.
      * cbn [shr_record_of_loc shr_m finish].
        destruct (Z.ltb_spec (Z.pos p) (2 ^ 53)); [reflexivity | lia].
      * cbn [shr_record_of_loc shr_m finish].
        destruct (Z.ltb_spec (Z.pos p) (2 ^ 53)); [reflexivity | lia].
Qed.

(** [binary_round_aux] on the located quotient [N/D] at exponent [ex]. *)
Lemma round_aux_char :
  binary_round_aux prec emax false mx ex (locate N D)
  = finish (round_nearest_even m1 l1) e1.
Proof.
  unfold binary_round_aux. rewrite first_shift.
  rewrite shr_m_located, loc_of_located. fold m1 l1.
  apply second_shift.
  pose proof m1_bounds. pose proof (rne_bounds m1 l1). lia.
Qed.
End RoundAux.

Lemma round_aux_rounded (N D ex : Z) :
  0 <= N -> 0 < D -> 0 <= shiftOf (N / D) ex ->
  binary_round_aux prec emax false (N / D) ex (locate N D) = rounded N D ex.
Proof. intros. apply round_aux_char; assumption. Qed.

(** ** Order of the results *)

Lemma rne_mono_loc (m : Z) (l l' : location) :
  loc_rank l <= loc_rank l' -> round_nearest_even m l <= round_nearest_even m l'.
Proof.
  unfold round_nearest_even.
  destruct l as [|[]], l' as [|[]]; cbn; destruct (Z.even m); lia.
Qed.

(** Rounding down and locating are monotone in the rational. *)
Lemma trunc_mono (A B A' B' : Z) :
  0 <= A -> 0 < B -> 0 <= A' -> 0 < B' -> A * B' <= A' * B ->
  A / B <= A' / B' /\
  (A / B = A' / B' -> loc_rank (locate A B) <= loc_rank (locate A' B')).
Proof.
  intros HA HB HA' HB' Hle.
  pose proof (Z.div_mod A B ltac:(lia)) as EA.
  pose proof (Z.div_mod A' B' ltac:(lia)) as EA'.
  pose proof (Z.mod_pos_bound A B HB) as HkA.
  pose proof (Z.mod_pos_bound A' B' HB') as HkA'.
  assert (Hq : A / B <= A' / B').
  { apply Z.div_le_lower_bound; [lia|].
    assert (A / B * B <= A) by lia.
    assert (B' * (A / B) * B <= A' * B) by nia.
    nia. }
  split; [exact Hq|]. intros Eq.
  assert (Hf : (A mod B) * B' <= (A' mod B') * B) by nia.
  destruct (locate_cases A B HB) as [[H0 ->]|[[H0 [H1 ->]]|[[H0 ->]|[H0 ->]]]];
    destruct (locate_cases A' B' HB') as [[H0' ->]|[[H0' [H1' ->]]|[[H0' ->]|[H0' ->]]]];
    cbn; try lia; exfalso; nia.
Qed.

Lemma SFleb_finite (p p' : positive) (e e' : Z) :
  e < e' \/ (e = e' /\ (p <= p')%positive) ->
  SFleb (S754_finite false p e) (S754_finite false p' e') = true.
Proof.
  unfold SFleb, SFcompare. intros [H | [-> H]].
  - rewrite (proj2 (Z.compare_lt_iff e e') H). reflexivity.
  - rewrite Z.compare_refl.
    change (Pos.compare_cont Eq p p') with (Pos.compare p p').
    destruct (Pos.compare_spec p p'); try reflexivity; lia.
Qed.

Lemma finish_carried (m e : Z) :
  0 < m ->
  finish m e =
  (if snd (carried m e) <=? 971
   then S754_finite false (Z.to_pos (fst (carried m e))) (snd (carried m e))
   else S754_infinity false).
Proof.
  intros Hm. unfold finish, carried. destruct m as [|p|p]; try lia.
  destruct (Z.pos p <? 2 ^ 53); reflexivity.
Qed.

Lemma finish_le (m e m' e' : Z) :
  0 <= m <= 2 ^ 53 -> 0 <= m' <= 2 ^ 53 ->
  -1074 <= e ->
  (-1074 < e' -> 2 ^ 52 <= m') ->
  e < e' \/ (e = e' /\ m <= m') ->
  SFleb (finish m e) (finish m' e') = true.
Proof.
  intros Hm Hm' He Hnorm Hlex.
  destruct (Z.eq_dec m 0) as [E|E].
  { subst m. cbn [finish]. unfold finish.
    destruct m' as [|p|p]; [reflexivity | | lia].
    destruct (Z.pos p <? 2 ^ 53), (e' <=? 971), (e' + 1 <=? 971); reflexivity. }
  assert (Hm'pos : 0 < m').
  { destruct (Z.eq_dec m' 0) as [E'|E']; [|lia]. exfalso.
    destruct (Z_le_gt_dec e' (-1074)); [lia|].
    specialize (Hnorm ltac:(lia)). lia. }
  rewrite !finish_carried by lia.
  assert (Hc : snd (carried m e) < snd (carried m' e') \/
               (snd (carried m e) = snd (carried m' e') /\
                fst (carried m e) <= fst (carried m' e'))).
  { unfold carried.
    destruct (Z.ltb_spec m (2 ^ 53)), (Z.ltb_spec m' (2 ^ 53)); cbn [fst snd];
      lia. }
  assert (Hp : 0 < fst (carried m e) /\ 0 < fst (carried m' e')).
  { unfold carried. destruct (m <? 2 ^ 53), (m' <? 2 ^ 53); cbn [fst]; lia. }
  destruct (Z.leb_spec (snd (carried m e)) 971), (Z.leb_spec (snd (carried m' e')) 971).
  - apply SFleb_finite. destruct Hc as [Hc | [Hc1 Hc2]]; [left; exact Hc|].
    right. split; [exact Hc1|].
    change (Z.pos (Z.to_pos (fst (carried m e))) <= Z.pos (Z.to_pos (fst (carried m' e')))).
    rewrite !Z2Pos.id by lia. lia.
  - reflexivity.
  - lia.
  - reflexivity.
Qed.

(** ** Rounding is monotone *)

Lemma pw_pos (e : Z) : -5000 <= e -> 0 < pw e.
Proof. intros. apply Z.pow_pos_nonneg; lia. Qed.

Lemma pw_shift (e n : Z) : -5000 <= e -> 0 <= n -> 2 ^ n * pw e = pw (e + n).
Proof.
  intros. unfold pw. rewrite <- Z.pow_add_r by lia. f_equal. lia.
Qed.

Lemma pw_lt_inv (a b : Z) : -5000 <= a -> -5000 <= b -> pw a < pw b -> a < b.
Proof.
  unfold pw. intros Ha Hb H. apply Z.pow_lt_mono_r_iff in H; lia.
Qed.

Section Monotone.
Variables (N D ex N' D' ex' : Z).
Hypothesis HN : 0 <= N.
Hypothesis HD : 0 < D.
Hypothesis HN' : 0 <= N'.
Hypothesis HD' : 0 < D'.
Hypothesis Hex : -5000 <= ex.
Hypothesis Hex' : -5000 <= ex'.
Hypothesis Hn : 0 <= shiftOf (N / D) ex.
Hypothesis Hn' : 0 <= shiftOf (N' / D') ex'.
Hypothesis Hle : vle N D ex N' D' ex'.

Let n := shiftOf (N / D) ex.
Let n' := shiftOf (N' / D') ex'.

(** The value is at least [2^(digits + ex - 1)] ... *)
Lemma value_lower :
  0 < N / D -> 2 ^ (Zdigits2 (N / D) - 1) * D <= N.
Proof.
  intros Hq. pose proof (Zdigits2_bounds _ Hq) as [Hlo _].
  pose proof (Z.mul_div_le N D HD). nia.
Qed.

(** ... and below [2^(digits + ex)]. *)
Lemma value_upper : N' < 2 ^ Zdigits2 (N' / D') * D'.
Proof.
  pose proof (Z.div_mod N' D' ltac:(lia)) as E.
  pose proof (Z.mod_pos_bound N' D' HD') as Hk.
  assert (Hq : 0 <= N' / D') by (apply Z.div_pos; lia).
  destruct (Z.eq_dec (N' / D') 0) as [E0|E0].
  - rewrite E0 in *. cbn [Zdigits2]. rewrite Z.pow_0_r. lia.
  - pose proof (Zdigits2_bounds (N' / D') ltac:(lia)) as [_ Hhi]. nia.
Qed.

Lemma zero_quotient_exponent : N / D = 0 -> ex + n = -1074.
Proof.
  intros E. unfold n in *. revert Hn. unfold shiftOf. rewrite E.
  cbn [Zdigits2]. rewrite !fexp64_eq. lia.
Qed.

Lemma exponent_mono : ex + n <= ex' + n'.
Proof.
  assert (He1 : ex + n = fexp64 (Zdigits2 (N / D) + ex)) by (unfold n, shiftOf; lia).
  assert (He1' : ex' + n' = fexp64 (Zdigits2 (N' / D') + ex')) by (unfold n', shiftOf; lia).
  assert (Hq : 0 <= N / D) by (apply Z.div_pos; lia).
  destruct (Z.eq_dec (N / D) 0) as [E0|E0].
  { rewrite (zero_quotient_exponent E0). rewrite He1', fexp64_eq. lia. }
  assert (Hlow := value_lower ltac:(lia)).
  pose proof value_upper as Hup.
  pose proof (Zdigits2_pos (N / D) ltac:(lia)) as Hd.
  assert (Hd' : 0 <= Zdigits2 (N' / D')).
  { destruct (N' / D'); cbn; lia. }
  pose proof (pw_pos ex Hex) as Hp. pose proof (pw_pos ex' Hex') as Hp'.
  (* 2^(d-1) D D' pw ex <= N D' pw ex <= N' D pw ex' < 2^d' D' D pw ex' *)
  assert (H1 : 2 ^ (Zdigits2 (N / D) - 1) * D * D' * pw ex <= N * D' * pw ex).
  { apply Z.mul_le_mono_nonneg_r; [lia|]. apply Z.mul_le_mono_nonneg_r; lia. }
  assert (H2 : N' * D * pw ex' < 2 ^ Zdigits2 (N' / D') * D' * D * pw ex').
  { apply Z.mul_lt_mono_pos_r; [lia|]. apply Z.mul_lt_mono_pos_r; lia. }
  assert (H3 : 2 ^ (Zdigits2 (N / D) - 1) * pw ex * (D * D')
               < 2 ^ Zdigits2 (N' / D') * pw ex' * (D * D')).
  { unfold vle in Hle. nia. }
  apply Z.mul_lt_mono_pos_r in H3; [|nia].
  rewrite !pw_shift in H3 by lia.
  apply pw_lt_inv in H3; try lia.
  rewrite He1, He1', !fexp64_eq. lia.
Qed.

Lemma kept_mono :
  ex + n = ex' + n' ->
  N / (D * 2 ^ n) <= N' / (D' * 2 ^ n') /\
  (N / (D * 2 ^ n) = N' / (D' * 2 ^ n') ->
   loc_rank (locate N (D * 2 ^ n)) <= loc_rank (locate N' (D' * 2 ^ n'))).
Proof.
  intros He.
  assert (Hx : 0 < 2 ^ n) by (apply Z.pow_pos_nonneg; [lia | exact Hn]).
  assert (Hx' : 0 < 2 ^ n') by (apply Z.pow_pos_nonneg; [lia | exact Hn']).
  apply trunc_mono; try nia.
  pose proof (pw_shift ex n Hex Hn) as E.
  pose proof (pw_shift ex' n' Hex' Hn') as E'.
  rewrite He in E.
  assert (HP : 0 < pw (ex' + n')) by (apply pw_pos; unfold n' in *; lia).
  apply Z.mul_le_mono_pos_r with (p := pw (ex' + n')); [exact HP|].
  rewrite <- E at 1. rewrite <- E'.
  unfold vle in Hle.
  replace (N * (D' * 2 ^ n') * (2 ^ n * pw ex))
    with (N * D' * pw ex * (2 ^ n * 2 ^ n')) by ring.
  replace (N' * (D * 2 ^ n) * (2 ^ n' * pw ex'))
    with (N' * D * pw ex' * (2 ^ n * 2 ^ n')) by ring.
  apply Z.mul_le_mono_nonneg_r; [nia | exact Hle].
Qed.

Theorem rounded_mono : SFleb (rounded N D ex) (rounded N' D' ex') = true.
Proof.
  unfold rounded. fold n n'.
  pose proof (m1_bounds N D ex HN HD Hn) as Hm. fold n in Hm.
  pose proof (m1_bounds N' D' ex' HN' HD' Hn') as Hm'. fold n' in Hm'.
  pose proof (rne_bounds (N / (D * 2 ^ n)) (locate N (D * 2 ^ n))) as Hr.
  pose proof (rne_bounds (N' / (D' * 2 ^ n')) (locate N' (D' * 2 ^ n'))) as Hr'.
  apply finish_le; try lia.
  - pose proof (e1_min N D ex). fold n in H. lia.
  - intros Hnorm. pose proof (m1_normal N' D' ex' HN' HD' Hn') as H.
    fold n' in H. specialize (H Hnorm). lia.
  - pose proof exponent_mono as He.
    destruct (Z.eq_dec (ex + n) (ex' + n')) as [E|E]; [right | left; lia].
    split; [exact E|].
    destruct (kept_mono E) as [Hk Hl].
    destruct (Z.eq_dec (N / (D * 2 ^ n)) (N' / (D' * 2 ^ n'))) as [Em|Em].
    + rewrite <- Em. apply rne_mono_loc. apply Hl, Em.
    + lia.
Qed.
End Monotone.

(** ** Canonical doubles *)

Lemma valid_canon (s : bool) (m : positive) (e : Z) :
  valid_binary prec emax (S754_finite s m e) = true -> canon (Zpos m) e.
Proof.
  cbn [valid_binary]. unfold bounded, canonical_mantissa.
  intros H. apply andb_true_iff in H as [H1 H2].
  apply Z.eqb_eq in H1. apply Z.leb_le in H2.
  change (Z.pos (digits2_pos m)) with (Zdigits2 (Zpos m)) in H1.
  change (fexp prec emax) with fexp64 in H1. rewrite fexp64_eq in H1.
  change (emax - prec) with 971 in H2.
  pose proof (Zdigits2_bounds (Zpos m) ltac:(lia)) as [Hlo Hhi].
  assert (Hd : Zdigits2 (Zpos m) <= 53) by lia.
  unfold canon. split; [|split].
  - split; [lia|].
    apply Z.lt_le_trans with (1 := Hhi). apply Z.pow_le_mono_r; lia.
  - lia.
  - intros He. assert (Zdigits2 (Zpos m) = 53) as E by lia.
    rewrite E in Hlo. exact Hlo.
Qed.

Lemma canon_shift (m e : Z) : canon m e -> shiftOf m e = 0.
Proof.
  intros [Hm [He Hnorm]]. unfold shiftOf. rewrite fexp64_eq.
  pose proof (Zdigits2_pos m ltac:(lia)) as Hd.
  assert (Hd53 : Zdigits2 m <= 53) by (apply Zdigits2_le; lia).
  destruct (Z.eq_dec e (-1074)) as [->|Hne]; [lia|].
  assert (Zdigits2 m = 53).
  { apply Z.le_antisymm; [exact Hd53|]. apply Zdigits2_ge; [|lia].
    apply Hnorm. lia. }
  lia.
Qed.

Lemma locate_one (m : Z) : locate m 1 = loc_Exact.
Proof. unfold locate. rewrite Z.mod_1_r. reflexivity. Qed.

(** Rounding a canonical double returns it. *)
Lemma rounded_canon (p : positive) (e : Z) :
  canon (Zpos p) e -> rounded (Zpos p) 1 e = S754_finite false p e.
Proof.
  intros Hc. unfold rounded. rewrite Z.div_1_r, (canon_shift _ _ Hc).
  rewrite Z.pow_0_r, Z.mul_1_r, Z.div_1_r, locate_one, Z.add_0_r.
  cbn [round_nearest_even]. destruct Hc as [Hm [He _]].
  unfold finish.
  destruct (Z.ltb_spec (Zpos p) (2 ^ 53)); [|lia].
  destruct (Z.leb_spec e 971); [reflexivity|lia].
Qed.

Lemma finish_nonneg (m e : Z) :
  0 <= m <= 2 ^ 53 -> -1074 <= e -> (-1074 < e -> 2 ^ 52 <= m) ->
  nonneg_double (finish m e).
Proof.
  intros Hm He Hnorm. unfold finish. destruct m as [|p|p]; [exact I| |lia].
  destruct (Z.ltb_spec (Zpos p) (2 ^ 53)).
  - destruct (Z.leb_spec e 971); [|reflexivity].
    split; [reflexivity|]. unfold canon. split; [lia | split; [lia | exact Hnorm]].
  - destruct (Z.leb_spec (e + 1) 971); [|reflexivity].
    split; [reflexivity|]. unfold canon.
    change (Z.pos 4503599627370496) with (2 ^ 52).
    split; [lia | split; [lia | intros _; lia]].
Qed.

Lemma rounded_nonneg (N D ex : Z) :
  0 <= N -> 0 < D -> 0 <= shiftOf (N / D) ex -> nonneg_double (rounded N D ex).
Proof.
  intros HN HD Hn. unfold rounded.
  pose proof (m1_bounds N D ex HN HD Hn) as Hm.
  pose proof (rne_bounds (N / (D * 2 ^ shiftOf (N / D) ex))
                (locate N (D * 2 ^ shiftOf (N / D) ex))) as Hr.
  apply finish_nonneg.
  - lia.
  - apply e1_min; assumption.
  - intros Hnorm. pose proof (m1_normal N D ex HN HD Hn Hnorm). lia.
Qed.

Lemma SFleb_lex (p p' : positive) (e e' : Z) :
  SFleb (S754_finite false p e) (S754_finite false p' e') = true ->
  lexle (Zpos p) e (Zpos p') e'.
Proof.
  unfold SFleb, SFcompare, lexle.
  destruct (Z.compare_spec e e') as [->|H|H]; intros Hle.
  - right. split; [reflexivity|].
    change (Pos.compare_cont Eq p p') with (Pos.compare p p') in Hle.
    destruct (Pos.compare_spec p p'); try discriminate Hle; lia.
  - left. exact H.
  - discriminate Hle.
Qed.

(** The order of canonical doubles is the order of their values. *)
Lemma lex_value (m e m' e' : Z) :
  canon m e -> canon m' e' -> lexle m e m' e' -> m * pw e <= m' * pw e'.
Proof.
  intros [Hm [He Hnorm]] [Hm' [He' Hnorm']] [Hlt | [-> Hle]].
  - specialize (Hnorm' ltac:(lia)).
    unfold pw.
    replace (e' + 5000) with ((e + 5000) + (e' - e)) by lia.
    rewrite (Z.pow_add_r 2 (e + 5000) (e' - e)) by lia.
    assert (Hp : 0 < 2 ^ (e + 5000)) by (apply Z.pow_pos_nonneg; lia).
    assert (H2 : 2 ^ 1 <= 2 ^ (e' - e)) by (apply Z.pow_le_mono_r; lia).
    change (2 ^ 1) with 2 in H2.
    change (2 ^ 53) with 9007199254740992 in *.
    change (2 ^ 52) with 4503599627370496 in *.
    assert (H3 : m <= m' * 2 ^ (e' - e)) by nia.
    rewrite (Z.mul_comm (2 ^ (e + 5000))), Z.mul_assoc.
    apply Z.mul_le_mono_nonneg_r; lia.
  - pose proof (pw_pos e' ltac:(lia)). nia.
Qed.

(** Moving both exponents by the same amount keeps the order of values. *)
Lemma value_shift (m e m' e' c : Z) :
  0 <= m -> 0 <= m' ->
  -5000 <= e -> -5000 <= e' -> -5000 <= e + c -> -5000 <= e' + c ->
  m * pw e <= m' * pw e' -> m * pw (e + c) <= m' * pw (e' + c).
Proof.
  intros Hm Hm' He He' Hec Hec' H.
  destruct (Z_le_gt_dec 0 c) as [Hc|Hc].
  - rewrite <- !pw_shift by lia.
    assert (0 < 2 ^ c) by (apply Z.pow_pos_nonneg; lia). nia.
  - assert (E : pw e = 2 ^ (- c) * pw (e + c)).
    { rewrite pw_shift by lia. f_equal. lia. }
    assert (E' : pw e' = 2 ^ (- c) * pw (e' + c)).
    { rewrite pw_shift by lia. f_equal. lia. }
    rewrite E, E' in H.
    assert (0 < 2 ^ (- c)) by (apply Z.pow_pos_nonneg; lia).
    pose proof (pw_pos (e + c) Hec). pose proof (pw_pos (e' + c) Hec').
    nia.
Qed.

(** ** Lifting a rounded operation to all non-negative doubles *)

Section Stage.
Variable f : num -> num.
Variables Nf Df Ef : Z -> Z -> Z.

Hypothesis f_zero : forall s, f (S754_zero s) = S754_zero s.
Hypothesis f_inf : f (S754_infinity false) = S754_infinity false.
Hypothesis f_finite : forall p e, canon (Zpos p) e ->
  f (S754_finite false p e) = rounded (Nf (Zpos p) e) (Df (Zpos p) e) (Ef (Zpos p) e).
Hypothesis f_side : forall m e, canon m e ->
  0 <= Nf m e /\ 0 < Df m e /\ -5000 <= Ef m e /\
  0 <= shiftOf (Nf m e / Df m e) (Ef m e).
Hypothesis f_value : forall m e m' e', canon m e -> canon m' e' ->
  m * pw e <= m' * pw e' ->
  vle (Nf m e) (Df m e) (Ef m e) (Nf m' e') (Df m' e') (Ef m' e').

Lemma stage_nonneg (x : num) : nonneg_double x -> nonneg_double (f x).
Proof.
  destruct x as [s|s| |s p e]; cbn [nonneg_double].
  - intros _. rewrite f_zero. exact I.
  - intros ->. rewrite f_inf. reflexivity.
  - intros [].
  - intros [-> Hc]. rewrite (f_finite _ _ Hc).
    destruct (f_side _ _ Hc) as (H1 & H2 & H3 & H4).
    apply rounded_nonneg; assumption.
Qed.

Lemma SFleb_zero_nonneg (s : bool) (y : num) :
  nonneg_double y -> SFleb (S754_zero s) y = true.
Proof.
  destruct y as [s'|s'| |s' p e]; cbn [nonneg_double].
  - reflexivity.
  - intros ->. reflexivity.
  - intros [].
  - intros [-> _]. reflexivity.
Qed.

Lemma SFleb_nonneg_inf (x : num) :
  nonneg_double x -> SFleb x (S754_infinity false) = true.
Proof.
  destruct x as [s'|s'| |s' p e]; cbn [nonneg_double].
  - reflexivity.
  - intros ->. reflexivity.
  - intros [].
  - intros [-> _]. reflexivity.
Qed.

Theorem stage_mono (x y : num) :
  nonneg_double x -> nonneg_double y ->
  SFleb x y = true -> SFleb (f x) (f y) = true.
Proof.
  intros Hx Hy Hle.
  pose proof (stage_nonneg y Hy) as Hfy.
  pose proof (stage_nonneg x Hx) as Hfx.
  destruct x as [s|s| |s p e]; cbn [nonneg_double] in Hx.
  - rewrite f_zero. apply SFleb_zero_nonneg, Hfy.
  - subst s. destruct y as [s'|s'| |s' p' e']; cbn [nonneg_double] in Hy.
    + discriminate Hle.
    + subst s'. rewrite f_inf. reflexivity.
    + destruct Hy.
    + destruct Hy as [-> _]. discriminate Hle.
  - destruct Hx.
  - destruct Hx as [-> Hc].
    destruct y as [s'|s'| |s' p' e']; cbn [nonneg_double] in Hy.
    + discriminate Hle.
    + subst s'. rewrite f_inf. apply SFleb_nonneg_inf, Hfx.
    + destruct Hy.
    + destruct Hy as [-> Hc'].
      rewrite (f_finite _ _ Hc), (f_finite _ _ Hc').
      destruct (f_side _ _ Hc) as (H1 & H2 & H3 & H4).
      destruct (f_side _ _ Hc') as (H1' & H2' & H3' & H4').
      apply rounded_mono; try assumption.
      apply f_value; try assumption.
      apply lex_value; try assumption.
      apply SFleb_lex, Hle.
Qed.
End Stage.

(** ** Division by a fixed positive double *)

Lemma new_location_locate (N D : Z) :
  0 < D -> new_location D (N mod D) = locate N D.
Proof.
  intros HD. pose proof (Z.mod_pos_bound N D HD) as Hr.
  unfold new_location, new_location_even, new_location_odd, locate.
  destruct (Z.even D) eqn:Ev; [reflexivity|].
  destruct (N mod D =? 0); [reflexivity|]. f_equal.
  assert (Hodd : Z.odd D = true) by (rewrite <- Z.negb_even, Ev; reflexivity).
  apply Z.odd_spec in Hodd as [k Hk].
  destruct (Z.compare_spec (2 * (N mod D) + 1) D) as [H|H|H];
    destruct (Z.compare_spec (2 * (N mod D)) D) as [H'|H'|H'];
    try reflexivity; lia.
Qed.

Lemma div_eucl_pair (a b : Z) : Z.div_eucl a b = (a / b, a mod b).
Proof.
  unfold Z.div, Z.modulo. destruct (Z.div_eucl a b). reflexivity.
Qed.

Section Division.
Variables (p2 : positive) (e2 : Z).
Hypothesis Hliq : canon (Zpos p2) e2.

Lemma divE_le (m e : Z) : 0 <= e - e2 - divE p2 e2 m e.
Proof. unfold divE. lia. Qed.

Lemma div_core (p : positive) (e : Z) :
  SFdiv_core_binary prec emax (Zpos p) e (Zpos p2) e2
  = (divN p2 e2 (Zpos p) e / Zpos p2, divE p2 e2 (Zpos p) e,
     locate (divN p2 e2 (Zpos p) e) (Zpos p2)).
Proof.
  unfold SFdiv_core_binary.
  change (Z.min (fexp prec emax (Zdigits2 (Zpos p) + e - (Zdigits2 (Zpos p2) + e2)))
                (e - e2)) with (divE p2 e2 (Zpos p) e).
  cbv zeta.
  assert (E : match e - e2 - divE p2 e2 (Zpos p) e with
              | 0 => Zpos p
              | Z.pos _ => Z.shiftl (Zpos p) (e - e2 - divE p2 e2 (Zpos p) e)
              | Z.neg _ => 0
              end = divN p2 e2 (Zpos p) e).
  { unfold divN. pose proof (divE_le (Zpos p) e) as Hs.
    destruct (e - e2 - divE p2 e2 (Zpos p) e) as [|s|s] eqn:Es.
    - rewrite Z.pow_0_r, Z.mul_1_r. reflexivity.
    - rewrite Z.shiftl_mul_pow2 by lia. reflexivity.
    - lia. }
  rewrite E, div_eucl_pair, new_location_locate by lia. reflexivity.
Qed.

Lemma div_finite (p : positive) (e : Z) :
  canon (Zpos p) e ->
  SFdiv prec emax (S754_finite false p e) (S754_finite false p2 e2)
  = binary_round_aux prec emax false (divN p2 e2 (Zpos p) e / divD p2 (Zpos p) e)
      (divE p2 e2 (Zpos p) e) (locate (divN p2 e2 (Zpos p) e) (divD p2 (Zpos p) e)).
Proof.
  intros _. cbn [SFdiv]. rewrite div_core. reflexivity.
Qed.

Lemma div_side (m e : Z) :
  canon m e ->
  0 <= divN p2 e2 m e /\ 0 < divD p2 m e /\ -5000 <= divE p2 e2 m e /\
  0 <= shiftOf (divN p2 e2 m e / divD p2 m e) (divE p2 e2 m e).
Proof.
  intros [Hm [He _]]. destruct Hliq as [Hm2 [He2 _]].
  pose proof (divE_le m e) as Hs.
  assert (Hpow : 0 < 2 ^ (e - e2 - divE p2 e2 m e)) by (apply Z.pow_pos_nonneg; lia).
  split; [unfold divN; nia|]. split; [unfold divD; lia|].
  split; [unfold divE; rewrite fexp64_eq; lia|].
  unfold shiftOf, divD.
  set (E := divE p2 e2 m e) in *. set (s := e - e2 - E) in *.
  set (d1 := Zdigits2 m). set (d2 := Zdigits2 (Zpos p2)).
  assert (HE : E <= fexp64 (d1 + e - (d2 + e2))) by (unfold E, divE; fold d1 d2; lia).
  pose proof (Zdigits2_bounds m ltac:(lia)) as [Hlo1 _]. fold d1 in Hlo1.
  pose proof (Zdigits2_bounds (Zpos p2) ltac:(lia)) as [_ Hhi2]. fold d2 in Hhi2.
  pose proof (Zdigits2_pos m ltac:(lia)) as Hd1. fold d1 in Hd1.
  pose proof (Zdigits2_pos (Zpos p2) ltac:(lia)) as Hd2. fold d2 in Hd2.
  assert (Hdig : d1 + s - d2 <= Zdigits2 (divN p2 e2 m e / Zpos p2)).
  { assert (Hq : 0 <= divN p2 e2 m e / Zpos p2) by (apply Z.div_pos; unfold divN; fold E s; nia).
    destruct (Z_le_gt_dec (d1 + s - d2) 0) as [Hk|Hk].
    { pose proof (Zdigits2_nonneg (divN p2 e2 m e / Zpos p2)). lia. }
    apply Zdigits2_ge; [|lia].
    apply Z.div_le_lower_bound; [lia|].
    unfold divN. fold E s.
    (* p2 * 2^(d1+s-d2-1) < 2^d2 * 2^(d1+s-d2-1) = 2^(d1-1) * 2^s <= m * 2^s *)
    assert (Ep : 2 ^ d2 * 2 ^ (d1 + s - d2 - 1) = 2 ^ (d1 - 1) * 2 ^ s).
    { rewrite <- !Z.pow_add_r by lia. f_equal. lia. }
    assert (0 < 2 ^ (d1 + s - d2 - 1)) by (apply Z.pow_pos_nonneg; lia).
    fold s in Hpow.
    nia. }
  rewrite !fexp64_eq in *. lia.
Qed.

Lemma div_value (m e m' e' : Z) :
  canon m e -> canon m' e' ->
  m * pw e <= m' * pw e' ->
  vle (divN p2 e2 m e) (divD p2 m e) (divE p2 e2 m e) (divN p2 e2 m' e') (divD p2 m' e') (divE p2 e2 m' e').
Proof.
  intros Hc Hc' Hv.
  destruct (div_side m e Hc) as (_ & _ & HE & _).
  destruct (div_side m' e' Hc') as (_ & _ & HE' & _).
  destruct Hc as [Hm [He _]], Hc' as [Hm' [He' _]]. destruct Hliq as [Hm2 [He2 _]].
  unfold vle, divN, divD.
  pose proof (divE_le m e) as Hs. pose proof (divE_le m' e') as Hs'.
  pose proof (pw_shift (divE p2 e2 m e) _ HE Hs) as E1.
  pose proof (pw_shift (divE p2 e2 m' e') _ HE' Hs') as E1'.
  replace (divE p2 e2 m e + (e - e2 - divE p2 e2 m e)) with (e + - e2) in E1 by lia.
  replace (divE p2 e2 m' e' + (e' - e2 - divE p2 e2 m' e')) with (e' + - e2) in E1' by lia.
  pose proof (value_shift m e m' e' (- e2) ltac:(lia) ltac:(lia) ltac:(lia)
                ltac:(lia) ltac:(lia) ltac:(lia) Hv) as Hv2.
  rewrite <- E1, <- E1' in Hv2.
  nia.
Qed.

Lemma divBy_mono (x y : num) :
  nonneg_double x -> nonneg_double y ->
  SFleb x y = true -> SFleb (divBy p2 e2 x) (divBy p2 e2 y) = true.
Proof.
  apply (stage_mono (divBy p2 e2) (divN p2 e2) (divD p2) (divE p2 e2)).
  - intros s. unfold divBy, div. cbn [SFdiv]. rewrite xorb_false_r. reflexivity.
  - reflexivity.
  - intros p e Hc. unfold divBy, div. rewrite (div_finite p e Hc).
    destruct (div_side _ _ Hc) as (H1 & H2 & H3 & H4).
    apply round_aux_rounded; assumption.
  - exact div_side.
  - exact div_value.
Qed.

Lemma divBy_nonneg (x : num) : nonneg_double x -> nonneg_double (divBy p2 e2 x).
Proof.
  apply (stage_nonneg (divBy p2 e2) (divN p2 e2) (divD p2) (divE p2 e2)).
  - intros s. unfold divBy, div. cbn [SFdiv]. rewrite xorb_false_r. reflexivity.
  - reflexivity.
  - intros p e Hc. unfold divBy, div. rewrite (div_finite p e Hc).
    destruct (div_side _ _ Hc) as (H1 & H2 & H3 & H4).
    apply round_aux_rounded; assumption.
  - exact div_side.
Qed.
End Division.

(** ** Multiplication by a fixed normal double *)

Section Multiplication.
Variables (pc : positive) (ec : Z).
Hypothesis Hc_norm : 2 ^ 52 <= Zpos pc.
Hypothesis Hc_exp : -1074 <= ec.

Lemma mul_side (m e : Z) :
  canon m e ->
  0 <= mulN pc m e /\ 0 < mulD m e /\ -5000 <= mulE ec m e /\
  0 <= shiftOf (mulN pc m e / mulD m e) (mulE ec m e).
Proof.
  intros [Hm [He _]]. unfold mulN, mulD, mulE.
  split; [nia|]. split; [lia|]. split; [lia|].
  rewrite Z.div_1_r. unfold shiftOf. rewrite fexp64_eq.
  assert (53 <= Zdigits2 (m * Zpos pc)).
  { apply Zdigits2_ge; [|lia]. change (53 - 1) with 52. nia. }
  lia.
Qed.

Lemma mul_value (m e m' e' : Z) :
  canon m e -> canon m' e' ->
  m * pw e <= m' * pw e' ->
  vle (mulN pc m e) (mulD m e) (mulE ec m e) (mulN pc m' e') (mulD m' e') (mulE ec m' e').
Proof.
  intros [Hm [He _]] [Hm' [He' _]] Hv. unfold vle, mulN, mulD, mulE.
  pose proof (value_shift m e m' e' ec ltac:(lia) ltac:(lia) ltac:(lia)
                ltac:(lia) ltac:(lia) ltac:(lia) Hv) as Hv2.
  nia.
Qed.

Lemma mul_finite (p : positive) (e : Z) :
  canon (Zpos p) e ->
  mulBy pc ec (S754_finite false p e)
  = rounded (mulN pc (Zpos p) e) (mulD (Zpos p) e) (mulE ec (Zpos p) e).
Proof.
  intros Hc. destruct (mul_side _ _ Hc) as (H1 & H2 & H3 & H4).
  rewrite <- round_aux_rounded by assumption.
  unfold mulBy, mul, mulN, mulD, mulE. cbn [SFmul xorb].
  rewrite Z.div_1_r, locate_one. reflexivity.
Qed.

Lemma mulBy_mono (x y : num) :
  nonneg_double x -> nonneg_double y ->
  SFleb x y = true -> SFleb (mulBy pc ec x) (mulBy pc ec y) = true.
Proof.
  apply (stage_mono (mulBy pc ec) (mulN pc) mulD (mulE ec)).
  - intros s. unfold mulBy, mul. cbn [SFmul]. rewrite xorb_false_r. reflexivity.
  - reflexivity.
  - exact mul_finite.
  - exact mul_side.
  - exact mul_value.
Qed.

Lemma mulBy_nonneg (x : num) : nonneg_double x -> nonneg_double (mulBy pc ec x).
Proof.
  apply (stage_nonneg (mulBy pc ec) (mulN pc) mulD (mulE ec)).
  - intros s. unfold mulBy, mul. cbn [SFmul]. rewrite xorb_false_r. reflexivity.
  - reflexivity.
  - exact mul_finite.
  - exact mul_side.
Qed.
End Multiplication.

(** ** Integers as doubles *)

Lemma iter_xO (k p : positive) : Zpos (Pos.iter xO p k) = Zpos p * 2 ^ Zpos k.
Proof.
  revert p. induction k as [k IH|k IH|]; intros p; cbn [Pos.iter].
  - rewrite Pos2Z.inj_xO, !IH, pow2_xI. lia.
  - rewrite !IH, pow2_xO. lia.
  - rewrite Pos2Z.inj_xO. change (2 ^ 1) with 2. lia.
Qed.

Lemma Zdigits2_shift (n k : Z) :
  0 < n -> 0 <= k -> Zdigits2 (n * 2 ^ k) = Zdigits2 n + k.
Proof.
  intros Hn Hk. pose proof (Zdigits2_bounds n Hn) as [Hlo Hhi].
  pose proof (Zdigits2_pos n Hn) as Hd.
  assert (Hp : 0 < 2 ^ k) by (apply Z.pow_pos_nonneg; lia).
  apply Zdigits2_unique; [|lia].
  replace (Zdigits2 n + k - 1) with (Zdigits2 n - 1 + k) by lia.
  rewrite !Z.pow_add_r by lia. nia.
Qed.

Lemma align_side (n : Z) :
  0 <= n ->
  0 <= alignN n /\ -5000 <= alignE n /\ 0 <= shiftOf (alignN n / 1) (alignE n).
Proof.
  intros Hn. unfold alignN, alignE, shiftOf. rewrite Z.div_1_r, fexp64_eq.
  destruct (Z.eqb_spec n 0) as [->|Hne].
  - cbn. lia.
  - pose proof (Zdigits2_pos n ltac:(lia)) as Hd.
    destruct (Z.ltb_spec (Zdigits2 n) 53).
    + rewrite Zdigits2_shift by lia.
      assert (0 < 2 ^ (53 - Zdigits2 n)) by (apply Z.pow_pos_nonneg; lia).
      split; [nia|]. lia.
    + lia.
Qed.

Lemma align_value (n : Z) : 0 <= n -> alignN n * pw (alignE n) = n * pw 0.
Proof.
  intros Hn. unfold alignN, alignE.
  destruct (Z.eqb_spec n 0) as [->|Hne]; [reflexivity|].
  pose proof (Zdigits2_pos n ltac:(lia)) as Hd.
  destruct (Z.ltb_spec (Zdigits2 n) 53); [|reflexivity].
  rewrite <- Z.mul_assoc, pw_shift by lia. do 2 f_equal. lia.
Qed.

Lemma normalize_rounded (n : Z) :
  0 <= n -> binary_normalize prec emax n 0 false = rounded (alignN n) 1 (alignE n).
Proof.
  intros Hn. destruct (align_side n Hn) as (H1 & H2 & H3).
  rewrite <- round_aux_rounded by (assumption || lia).
  rewrite locate_one, Z.div_1_r.
  destruct n as [|p|p]; [reflexivity| |lia].
  cbn [binary_normalize]. unfold binary_round, shl_align, alignN, alignE.
  change (Z.pos (digits2_pos p)) with (Zdigits2 (Zpos p)).
  change (fexp prec emax) with fexp64. rewrite fexp64_eq.
  destruct (Z.eqb_spec (Zpos p) 0) as [E0|_]; [discriminate E0|].
  pose proof (Zdigits2_pos (Zpos p) ltac:(lia)) as Hd.
  rewrite Z.add_0_r, Z.sub_0_r.
  destruct (Z.ltb_spec (Zdigits2 (Zpos p)) 53) as [Hlt|Hge].
  - rewrite Z.max_l by lia.
    destruct (Zdigits2 (Zpos p) - 53) as [|k|k] eqn:Ek; try lia.
    rewrite iter_xO. do 3 f_equal. lia.
  - rewrite Z.max_l by lia.
    destruct (Zdigits2 (Zpos p) - 53) as [|k|k] eqn:Ek; try lia; reflexivity.
Qed.

(** ** Math.round *)

Lemma roundInt_nonneg (m e : Z) : 0 <= m -> 0 <= roundInt m e.
Proof.
  intros Hm. unfold roundInt.
  destruct (Z_le_gt_dec 0 (- e + 1)).
  - assert (0 <= 2 ^ (- e)) by (apply Z.pow_nonneg; lia).
    assert (0 < 2 ^ (- e + 1)) by (apply Z.pow_pos_nonneg; lia).
    apply Z.div_pos; lia.
  - rewrite (Z.pow_neg_r 2 (- e + 1)) by lia. rewrite Z.div_0_r. lia.
Qed.

Lemma round_side (m e : Z) :
  canon m e ->
  0 <= roundN m e /\ 0 < roundD m e /\ -5000 <= roundE m e /\
  0 <= shiftOf (roundN m e / roundD m e) (roundE m e).
Proof.
  intros Hc. unfold roundN, roundD, roundE.
  destruct (Z.leb_spec 0 e) as [He|He].
  - rewrite Z.div_1_r, (canon_shift _ _ Hc). destruct Hc as [Hm [? _]]. lia.
  - destruct Hc as [Hm _].
    destruct (align_side _ (roundInt_nonneg m e ltac:(lia))) as (H1 & H2 & H3).
    lia.
Qed.

Lemma round_finite (p : positive) (e : Z) :
  canon (Zpos p) e ->
  Math_round (S754_finite false p e)
  = rounded (roundN (Zpos p) e) (roundD (Zpos p) e) (roundE (Zpos p) e).
Proof.
  intros Hc. unfold Math_round, roundN, roundD, roundE.
  destruct (0 <=? e).
  - symmetry. apply rounded_canon, Hc.
  - cbn [cond_Zopp]. apply normalize_rounded. apply roundInt_nonneg. lia.
Qed.

(** The value of the rounded integer, on the common scale. *)
Lemma round_scaled (m e : Z) :
  canon m e -> e < 0 -> roundN m e * pw (roundE m e) = roundInt m e * pw 0.
Proof.
  intros [Hm _] He. unfold roundN, roundE.
  destruct (Z.leb_spec 0 e); [lia|].
  apply align_value, roundInt_nonneg. lia.
Qed.

Lemma roundInt_le_int (m e k : Z) :
  e < 0 -> 0 <= m -> m <= k * 2 ^ (- e) -> roundInt m e <= k.
Proof.
  intros He Hm Hk. unfold roundInt.
  assert (Hp : 0 < 2 ^ (- e)) by (apply Z.pow_pos_nonneg; lia).
  rewrite Z.pow_add_r by lia. change (2 ^ 1) with 2.
  apply Z.lt_succ_r. apply Z.div_lt_upper_bound; [lia|]. nia.
Qed.

Lemma roundInt_ge_int (m e k : Z) :
  e < 0 -> 0 <= m -> k * 2 ^ (- e) <= m -> k <= roundInt m e.
Proof.
  intros He Hm Hk. unfold roundInt.
  assert (Hp : 0 < 2 ^ (- e)) by (apply Z.pow_pos_nonneg; lia).
  rewrite Z.pow_add_r by lia. change (2 ^ 1) with 2.
  apply Z.div_le_lower_bound; [lia|]. nia.
Qed.

Lemma roundInt_mono (m e m' e' : Z) :
  e < 0 -> e' < 0 -> 0 <= m -> 0 <= m' ->
  m * 2 ^ (- e') <= m' * 2 ^ (- e) -> roundInt m e <= roundInt m' e'.
Proof.
  intros He He' Hm Hm' Hv. unfold roundInt.
  assert (Hp : 0 < 2 ^ (- e)) by (apply Z.pow_pos_nonneg; lia).
  assert (Hp' : 0 < 2 ^ (- e')) by (apply Z.pow_pos_nonneg; lia).
  rewrite !Z.pow_add_r by lia. change (2 ^ 1) with 2.
  apply trunc_mono; try nia.
Qed.

(** [m * 2^e <= m' * 2^e'] without the scale, for exponents in range. *)
Lemma value_unscaled (m e m' e' : Z) :
  0 <= m -> 0 <= m' -> -5000 <= e < 0 -> -5000 <= e' < 0 ->
  m * pw e <= m' * pw e' -> m * 2 ^ (- e') <= m' * 2 ^ (- e).
Proof.
  intros Hm Hm' He He' Hv. unfold pw in Hv.
  assert (E : 2 ^ 5000 = 2 ^ (e + 5000) * 2 ^ (- e)).
  { rewrite <- Z.pow_add_r by lia. f_equal. lia. }
  assert (E' : 2 ^ 5000 = 2 ^ (e' + 5000) * 2 ^ (- e')).
  { rewrite <- Z.pow_add_r by lia. f_equal. lia. }
  assert (Hp : 0 < 2 ^ (e + 5000)) by (apply Z.pow_pos_nonneg; lia).
  assert (Hp' : 0 < 2 ^ (e' + 5000)) by (apply Z.pow_pos_nonneg; lia).
  assert (Hq : 0 < 2 ^ (- e)) by (apply Z.pow_pos_nonneg; lia).
  assert (Hq' : 0 < 2 ^ (- e')) by (apply Z.pow_pos_nonneg; lia).
  (* multiply by 2^(-e) * 2^(-e') and cancel 2^5000 *)
  apply Z.mul_le_mono_pos_r with (p := 2 ^ (e + 5000) * 2 ^ (e' + 5000)); [nia|].
  replace (m * 2 ^ (- e') * (2 ^ (e + 5000) * 2 ^ (e' + 5000)))
    with (m * 2 ^ (e + 5000) * (2 ^ (e' + 5000) * 2 ^ (- e'))) by ring.
  replace (m' * 2 ^ (- e) * (2 ^ (e + 5000) * 2 ^ (e' + 5000)))
    with (m' * 2 ^ (e' + 5000) * (2 ^ (e + 5000) * 2 ^ (- e))) by ring.
  rewrite <- E, <- E'.
  apply Z.mul_le_mono_nonneg_r; [lia | exact Hv].
Qed.

Lemma round_value (m e m' e' : Z) :
  canon m e -> canon m' e' ->
  m * pw e <= m' * pw e' ->
  vle (roundN m e) (roundD m e) (roundE m e) (roundN m' e') (roundD m' e') (roundE m' e').
Proof.
  intros Hc Hc' Hv. unfold vle, roundD. rewrite !Z.mul_1_r.
  pose proof Hc as [Hm [He _]]. pose proof Hc' as [Hm' [He' _]].
  assert (P0 : 0 < pw 0) by (apply pw_pos; lia).
  destruct (Z_lt_ge_dec e 0) as [Hneg|Hpos], (Z_lt_ge_dec e' 0) as [Hneg'|Hpos'].
  - rewrite !round_scaled by assumption.
    apply Z.mul_le_mono_nonneg_r; [lia|].
    apply roundInt_mono; try lia.
    apply value_unscaled; lia.
  - rewrite round_scaled by assumption.
    unfold roundN, roundE. destruct (Z.leb_spec 0 e'); [|lia].
    replace (pw e') with (2 ^ e' * pw 0) by (rewrite pw_shift by lia; f_equal; lia).
    rewrite Z.mul_assoc.
    apply Z.mul_le_mono_nonneg_r; [lia|].
    apply roundInt_le_int; try lia.
    (* m <= m' * 2^e' * 2^(-e) *)
    pose proof (value_shift m e m' e' (- e) ltac:(lia) ltac:(lia) ltac:(lia)
                  ltac:(lia) ltac:(lia) ltac:(lia) Hv) as Hv2.
    replace (e + - e) with 0 in Hv2 by lia.
    replace (pw (e' + - e)) with (2 ^ e' * 2 ^ (- e) * pw 0) in Hv2
      by (rewrite <- Z.pow_add_r by lia; rewrite pw_shift by lia; f_equal; lia).
    nia.
  - rewrite (round_scaled m' e') by assumption.
    unfold roundN, roundE. destruct (Z.leb_spec 0 e); [|lia].
    replace (pw e) with (2 ^ e * pw 0) by (rewrite pw_shift by lia; f_equal; lia).
    rewrite Z.mul_assoc.
    apply Z.mul_le_mono_nonneg_r; [lia|].
    apply roundInt_ge_int; try lia.
    pose proof (value_shift m e m' e' (- e') ltac:(lia) ltac:(lia) ltac:(lia)
                  ltac:(lia) ltac:(lia) ltac:(lia) Hv) as Hv2.
    replace (e' + - e') with 0 in Hv2 by lia.
    replace (pw (e + - e')) with (2 ^ e * 2 ^ (- e') * pw 0) in Hv2
      by (rewrite <- Z.pow_add_r by lia; rewrite pw_shift by lia; f_equal; lia).
    nia.
  - unfold roundN, roundE.
    destruct (Z.leb_spec 0 e); [|lia]. destruct (Z.leb_spec 0 e'); [|lia].
    exact Hv.
Qed.

Lemma Math_round_mono (x y : num) :
  nonneg_double x -> nonneg_double y ->
  SFleb x y = true -> SFleb (Math_round x) (Math_round y) = true.
Proof.
  apply (stage_mono Math_round roundN roundD roundE).
  - reflexivity.
  - reflexivity.
  - exact round_finite.
  - exact round_side.
  - exact round_value.
Qed.

(** ** Non-negative doubles from comparisons *)

Lemma nonneg_of_zero_leb (x : num) :
  valid_binary prec emax x = true ->
  SFleb (S754_zero false) x = true -> nonneg_double x.
Proof.
  intros Hv Hle. destruct x as [s|s| |s p e]; cbn [nonneg_double].
  - exact I.
  - destruct s; [discriminate Hle | reflexivity].
  - discriminate Hle.
  - destruct s; [discriminate Hle|].
    split; [reflexivity|]. apply (valid_canon false), Hv.
Qed.

Lemma nonneg_of_leb (x y : num) :
  nonneg_double x -> valid_binary prec emax y = true ->
  SFleb x y = true -> nonneg_double y.
Proof.
  intros Hx Hv Hle.
  destruct y as [s|s| |s p e]; cbn [nonneg_double].
  - exact I.
  - destruct s; [|reflexivity].
    destruct x as [sx|sx| |sx px ex]; cbn [nonneg_double] in Hx.
    + discriminate Hle.
    + subst sx. discriminate Hle.
    + destruct Hx.
    + destruct Hx as [-> _]. discriminate Hle.
  - destruct x as [sx|sx| |sx px ex]; cbn [nonneg_double] in Hx;
      try discriminate Hle; destruct Hx.
  - destruct s.
    + destruct x as [sx|sx| |sx px ex]; cbn [nonneg_double] in Hx.
      * discriminate Hle.
      * subst sx. discriminate Hle.
      * destruct Hx.
      * destruct Hx as [-> _]. discriminate Hle.
    + split; [reflexivity|]. apply (valid_canon false), Hv.
Qed.

End RoundingFacts.

(* ===================================================================== *)
(** ** Sums, integers and ratios of non-negative doubles *)
(* ===================================================================== *)

Module SummationFacts.

Import Rounding RoundingFacts Summation.
Local Open Scope Z_scope.
Local Unset Default Proof Using.

Lemma fexp64_min (x : Z) : -1074 <= fexp64 x.
Proof. rewrite fexp64_eq. lia. Qed.

Lemma aligned_value (n e : Z) :
  0 < n -> -5000 <= e -> alignedN n e * pw (alignedE n e) = n * pw e.
Proof.
  intros Hn He. unfold alignedN, alignedE. cbv zeta.
  pose proof (fexp64_min (Zdigits2 n + e)) as Hmin.
  destruct (Z.ltb_spec (fexp64 (Zdigits2 n + e)) e) as [Hlt|Hge]; [|reflexivity].
  rewrite <- Z.mul_assoc, pw_shift by lia. do 2 f_equal. lia.
Qed.

Lemma aligned_side (n e : Z) :
  0 < n -> -5000 <= e ->
  0 < alignedN n e /\ -5000 <= alignedE n e /\
  0 <= shiftOf (alignedN n e / 1) (alignedE n e).
Proof.
  intros Hn He. unfold alignedN, alignedE, shiftOf. cbv zeta.
  rewrite Z.div_1_r.
  pose proof (fexp64_min (Zdigits2 n + e)) as Hmin.
  destruct (Z.ltb_spec (fexp64 (Zdigits2 n + e)) e) as [Hlt|Hge].
  - assert (Hp : 0 < 2 ^ (e - fexp64 (Zdigits2 n + e)))
      by (apply Z.pow_pos_nonneg; lia).
    split; [nia|]. split; [lia|].
    rewrite Zdigits2_shift by lia.
    replace (Zdigits2 n + (e - fexp64 (Zdigits2 n + e)) + fexp64 (Zdigits2 n + e))
      with (Zdigits2 n + e) by lia.
    lia.
  - split; [lia|]. split; lia.
Qed.

Lemma normalize_aligned (p : positive) (e : Z) :
  -5000 <= e ->
  binary_normalize prec emax (Zpos p) e false
  = rounded (alignedN (Zpos p) e) 1 (alignedE (Zpos p) e).
Proof.
  intros He. destruct (aligned_side (Zpos p) e ltac:(lia) He) as (H1 & H2 & H3).
  rewrite <- round_aux_rounded by (assumption || lia).
  rewrite locate_one, Z.div_1_r.
  cbn [binary_normalize]. unfold binary_round, shl_align, alignedN, alignedE.
  change (Z.pos (digits2_pos p)) with (Zdigits2 (Zpos p)).
  change (fexp prec emax) with fexp64. cbv zeta.
  destruct (Z.ltb_spec (fexp64 (Zdigits2 (Zpos p) + e)) e) as [Hlt|Hge].
  - destruct (fexp64 (Zdigits2 (Zpos p) + e) - e) as [|k|k] eqn:Ek; try lia.
    rewrite iter_xO. do 3 f_equal. lia.
  - destruct (fexp64 (Zdigits2 (Zpos p) + e) - e) as [|k|k] eqn:Ek; try lia;
      reflexivity.
Qed.

Lemma shl_align_fst (p : positive) (e ez : Z) :
  ez <= e -> Zpos (fst (shl_align p e ez)) = Zpos p * 2 ^ (e - ez).
Proof.
  intros Hle. unfold shl_align.
  destruct (ez - e) as [|k|k] eqn:Ek; try lia; cbn [fst].
  - replace (e - ez) with 0 by lia. rewrite Z.pow_0_r. lia.
  - rewrite iter_xO. do 2 f_equal. lia.
Qed.

Lemma sumM_pos (m1 e1 m2 e2 : Z) : 0 < m1 -> 0 < m2 -> 0 < sumM m1 e1 m2 e2.
Proof.
  intros H1 H2. unfold sumM.
  assert (0 < 2 ^ (e1 - Z.min e1 e2)) by (apply Z.pow_pos_nonneg; lia).
  assert (0 < 2 ^ (e2 - Z.min e1 e2)) by (apply Z.pow_pos_nonneg; lia).
  nia.
Qed.

Lemma sumM_value (m1 e1 m2 e2 : Z) :
  -5000 <= e1 -> -5000 <= e2 ->
  sumM m1 e1 m2 e2 * pw (Z.min e1 e2) = m1 * pw e1 + m2 * pw e2.
Proof.
  intros H1 H2. unfold sumM. rewrite Z.mul_add_distr_r, <- !Z.mul_assoc.
  rewrite !pw_shift by lia. do 3 f_equal; lia.
Qed.

Section AddTo.
Variables (p2 : positive) (e2 : Z).
Hypothesis Hy : canon (Zpos p2) e2.

Lemma add_finite (p : positive) (e : Z) :
  -5000 <= e ->
  SFadd prec emax (S754_finite false p e) (S754_finite false p2 e2)
  = rounded (addN p2 e2 (Zpos p) e) (addD (Zpos p) e) (addE p2 e2 (Zpos p) e).
Proof.
  intros He. destruct Hy as [_ [He2 _]].
  cbn [SFadd cond_Zopp]. rewrite !shl_align_fst by lia.
  change (Z.pos p * 2 ^ (e - Z.min e e2) + Z.pos p2 * 2 ^ (e2 - Z.min e e2))
    with (sumM (Zpos p) e (Zpos p2) e2).
  pose proof (sumM_pos (Zpos p) e (Zpos p2) e2 ltac:(lia) ltac:(lia)) as Hpos.
  destruct (sumM (Zpos p) e (Zpos p2) e2) as [|s|s] eqn:Es; try lia.
  unfold addN, addE, addD. rewrite Es.
  apply normalize_aligned. lia.
Qed.

Lemma add_side (m e : Z) :
  canon m e ->
  0 <= addN p2 e2 m e /\ 0 < addD m e /\ -5000 <= addE p2 e2 m e /\
  0 <= shiftOf (addN p2 e2 m e / addD m e) (addE p2 e2 m e).
Proof.
  intros [Hm [He _]]. destruct Hy as [Hm2 [He2 _]].
  pose proof (sumM_pos m e (Zpos p2) e2 ltac:(lia) ltac:(lia)) as Hpos.
  destruct (aligned_side (sumM m e (Zpos p2) e2) (Z.min e e2) Hpos ltac:(lia))
    as (H1 & H2 & H3).
  unfold addN, addE, addD. split; [lia|]. split; [lia|]. split; assumption.
Qed.

Lemma add_scaled (m e : Z) :
  canon m e ->
  addN p2 e2 m e * pw (addE p2 e2 m e) = m * pw e + Zpos p2 * pw e2.
Proof.
  intros [Hm [He _]]. destruct Hy as [Hm2 [He2 _]].
  pose proof (sumM_pos m e (Zpos p2) e2 ltac:(lia) ltac:(lia)) as Hpos.
  unfold addN, addE. rewrite aligned_value by lia.
  apply sumM_value; lia.
Qed.

Lemma add_value (m e m' e' : Z) :
  canon m e -> canon m' e' ->
  m * pw e <= m' * pw e' ->
  vle (addN p2 e2 m e) (addD m e) (addE p2 e2 m e)
      (addN p2 e2 m' e') (addD m' e') (addE p2 e2 m' e').
Proof.
  intros Hc Hc' Hv. unfold vle, addD. rewrite !Z.mul_1_r.
  rewrite !add_scaled by assumption. lia.
Qed.

Let y := S754_finite false p2 e2.

Lemma add_finite_rounded (p : positive) (e : Z) :
  canon (Zpos p) e ->
  SFadd prec emax (S754_finite false p e) y
  = rounded (addN p2 e2 (Zpos p) e) (addD (Zpos p) e) (addE p2 e2 (Zpos p) e).
Proof. intros [_ [He _]]. apply add_finite. lia. Qed.

(** The addend itself is below every sum with it. *)
Lemma addend_below (p : positive) (e : Z) :
  canon (Zpos p) e ->
  SFleb y (SFadd prec emax (S754_finite false p e) y) = true.
Proof.
  intros Hc. rewrite (add_finite_rounded p e Hc).
  unfold y. rewrite <- (rounded_canon p2 e2 Hy).
  destruct (add_side _ _ Hc) as (H1 & H2 & H3 & H4).
  pose proof Hy as [Hm2 [He2 _]]. pose proof Hc as [Hm [He _]].
  apply rounded_mono; try assumption; try lia.
  - rewrite Z.div_1_r, (canon_shift _ _ Hy). lia.
  - unfold vle, addD. rewrite !Z.mul_1_r, add_scaled by assumption.
    pose proof (pw_pos e ltac:(lia)). nia.
Qed.

Lemma add_nonneg_finite (x : num) :
  nonneg_double x -> nonneg_double (SFadd prec emax x y).
Proof.
  destruct x as [s|s| |s p e]; cbn [nonneg_double].
  - intros _. cbn [SFadd]. split; [reflexivity | exact Hy].
  - intros ->. reflexivity.
  - intros [].
  - intros [-> Hc]. rewrite (add_finite_rounded p e Hc).
    destruct (add_side _ _ Hc) as (H1 & H2 & H3 & H4).
    apply rounded_nonneg; assumption.
Qed.

Lemma SFleb_refl_finite : SFleb y y = true.
Proof. apply SFleb_finite. right. split; [reflexivity | lia]. Qed.

Lemma add_mono_finite (x x' : num) :
  nonneg_double x -> nonneg_double x' -> SFleb x x' = true ->
  SFleb (SFadd prec emax x y) (SFadd prec emax x' y) = true.
Proof.
  intros Hx Hx' Hle.
  pose proof (add_nonneg_finite x Hx) as Hfx.
  pose proof (add_nonneg_finite x' Hx') as Hfx'.
  destruct x as [s|s| |s p e]; cbn [nonneg_double] in Hx.
  - change (SFadd prec emax (S754_zero s) y) with y.
    destruct x' as [s'|s'| |s' p' e']; cbn [nonneg_double] in Hx'.
    + apply SFleb_refl_finite.
    + subst s'. reflexivity.
    + destruct Hx'.
    + destruct Hx' as [-> Hc']. apply addend_below, Hc'.
  - subst s. destruct x' as [s'|s'| |s' p' e']; cbn [nonneg_double] in Hx'.
    + discriminate Hle.
    + subst s'. reflexivity.
    + destruct Hx'.
    + destruct Hx' as [-> _]. discriminate Hle.
  - destruct Hx.
  - destruct Hx as [-> Hc].
    destruct x' as [s'|s'| |s' p' e']; cbn [nonneg_double] in Hx'.
    + discriminate Hle.
    + subst s'. change (SFadd prec emax (S754_infinity false) y)
        with (S754_infinity false).
      apply SFleb_nonneg_inf, Hfx.
    + destruct Hx'.
    + destruct Hx' as [-> Hc'].
      rewrite (add_finite_rounded p e Hc), (add_finite_rounded p' e' Hc').
      destruct (add_side _ _ Hc) as (H1 & H2 & H3 & H4).
      destruct (add_side _ _ Hc') as (H1' & H2' & H3' & H4').
      apply rounded_mono; try assumption.
      apply add_value; try assumption.
      apply lex_value; try assumption. apply SFleb_lex, Hle.
Qed.
End AddTo.

Lemma add_zero_r_nonneg (x : num) (s : bool) :
  nonneg_double x ->
  nonneg_double (SFadd prec emax x (S754_zero s)) /\
  SFleb x (SFadd prec emax x (S754_zero s)) = true /\
  SFleb (SFadd prec emax x (S754_zero s)) x = true.
Proof.
  destruct x as [sx|sx| |sx p e]; cbn [nonneg_double].
  - intros _. destruct sx, s; cbn; repeat split.
  - intros ->. cbn. repeat split.
  - intros [].
  - intros [-> Hc]. cbn [SFadd nonneg_double].
    split; [split; [reflexivity | exact Hc]|].
    split; apply SFleb_finite; right; split; (reflexivity || lia).
Qed.

Lemma SFleb_trans (x y z : num) :
  SFleb x y = true -> SFleb y z = true -> SFleb x z = true.
Proof.
  unfold SFleb. F64Facts.by_cases x; F64Facts.by_cases y; F64Facts.by_cases z; simpl;
    intros H1 H2; try discriminate; try reflexivity; F64Facts.cmp_cases.
Qed.

Lemma SFleb_refl_nonneg (x : num) : nonneg_double x -> SFleb x x = true.
Proof.
  destruct x as [s|s| |s p e]; cbn [nonneg_double].
  - reflexivity.
  - intros ->. reflexivity.
  - intros [].
  - intros [-> _]. apply SFleb_finite. right. split; [reflexivity | lia].
Qed.

(** Non-negative doubles are closed under addition. *)
Lemma add_nonneg (x y : num) :
  nonneg_double x -> nonneg_double y -> nonneg_double (add x y).
Proof.
  intros Hx Hy. unfold add.
  destruct y as [s|s| |s p2 e2]; cbn [nonneg_double] in Hy.
  - apply add_zero_r_nonneg, Hx.
  - subst s. destruct x as [sx|sx| |sx p e]; cbn [nonneg_double] in Hx.
    + reflexivity.
    + subst sx. reflexivity.
    + destruct Hx.
    + destruct Hx as [-> _]. reflexivity.
  - destruct Hy.
  - destruct Hy as [-> Hy]. apply add_nonneg_finite; assumption.
Qed.

(** Addition is monotone in its first argument. *)
Lemma add_mono_l (x x' y : num) :
  nonneg_double x -> nonneg_double x' -> nonneg_double y ->
  SFleb x x' = true -> SFleb (add x y) (add x' y) = true.
Proof.
  intros Hx Hx' Hy Hle. unfold add.
  destruct y as [s|s| |s p2 e2]; cbn [nonneg_double] in Hy.
  - destruct (add_zero_r_nonneg x s Hx) as (_ & _ & H1).
    destruct (add_zero_r_nonneg x' s Hx') as (_ & H2 & _).
    exact (SFleb_trans _ _ _ H1 (SFleb_trans _ _ _ Hle H2)).
  - subst s.
    assert (Hinf : forall z, nonneg_double z ->
              SFadd prec emax z (S754_infinity false) = S754_infinity false).
    { intros [sz|sz| |sz pz ez]; cbn [nonneg_double].
      - reflexivity.
      - intros ->. reflexivity.
      - intros [].
      - reflexivity. }
    rewrite (Hinf x Hx), (Hinf x' Hx'). reflexivity.
  - destruct Hy.
  - destruct Hy as [-> Hy]. apply add_mono_finite; assumption.
Qed.

Lemma add_comm (x y : num) : add x y = add y x.
Proof.
  unfold add.
  destruct x as [[]|[]| |sx mx ex], y as [[]|[]| |sy my ey]; try reflexivity.
  cbn [SFadd]. rewrite (Z.min_comm ey ex), Z.add_comm. reflexivity.
Qed.

(** Addition is monotone in both arguments. *)
Lemma add_mono (x x' y y' : num) :
  nonneg_double x -> nonneg_double x' -> nonneg_double y -> nonneg_double y' ->
  SFleb x x' = true -> SFleb y y' = true -> SFleb (add x y) (add x' y') = true.
Proof.
  intros Hx Hx' Hy Hy' Hlx Hly.
  apply SFleb_trans with (y := add x' y).
  - apply add_mono_l; assumption.
  - rewrite (add_comm x' y), (add_comm x' y'). apply add_mono_l; assumption.
Qed.

(** ** Integers *)

Lemma of_Z_rounded (z : Z) :
  0 < z -> of_Z z = rounded (alignedN z 0) 1 (alignedE z 0).
Proof.
  intros Hz. destruct z as [|p|p]; try lia.
  unfold of_Z. apply normalize_aligned. lia.
Qed.

Lemma of_Z_nonneg (z : Z) : 0 <= z -> nonneg_double (of_Z z).
Proof.
  intros Hz. destruct (Z.eq_dec z 0) as [->|Hne]; [exact I|].
  rewrite of_Z_rounded by lia.
  destruct (aligned_side z 0 ltac:(lia) ltac:(lia)) as (H1 & H2 & H3).
  apply rounded_nonneg; (lia || assumption).
Qed.

Lemma of_Z_mono (a b : Z) : 0 <= a <= b -> SFleb (of_Z a) (of_Z b) = true.
Proof.
  intros Hab.
  destruct (Z.eq_dec a 0) as [->|Ha].
  { apply SFleb_zero_nonneg, of_Z_nonneg. lia. }
  rewrite !of_Z_rounded by lia.
  destruct (aligned_side a 0 ltac:(lia) ltac:(lia)) as (H1 & H2 & H3).
  destruct (aligned_side b 0 ltac:(lia) ltac:(lia)) as (H1' & H2' & H3').
  apply rounded_mono; try lia; try assumption.
  unfold vle. rewrite !Z.mul_1_r, !aligned_value by lia.
  pose proof (pw_pos 0 ltac:(lia)). nia.
Qed.

(** An integer below 2^53 is a finite canonical double. *)
Lemma of_Z_finite (z : Z) :
  0 < z < 2 ^ 53 ->
  exists p e, of_Z z = S754_finite false p e /\ canon (Zpos p) e /\
              Zpos p * pw e = z * pw 0 /\ 2 ^ 52 <= Zpos p.
Proof.
  intros Hz.
  assert (Hd : 0 < Zdigits2 z <= 53).
  { split; [apply Zdigits2_pos; lia | apply Zdigits2_le; lia]. }
  assert (Hc : canon (alignedN z 0) (alignedE z 0)).
  { unfold alignedN, alignedE. cbv zeta. rewrite Z.add_0_r, fexp64_eq.
    destruct (Z.ltb_spec (Z.max (Zdigits2 z - 53) (-1074)) 0) as [Hlt|Hge].
    - rewrite Z.max_l by lia.
      assert (Hdig : Zdigits2 (z * 2 ^ (0 - (Zdigits2 z - 53))) = 53)
        by (rewrite Zdigits2_shift by lia; lia).
      pose proof (Zdigits2_bounds (z * 2 ^ (0 - (Zdigits2 z - 53)))) as Hb.
      assert (Hp : 0 < 2 ^ (0 - (Zdigits2 z - 53))) by (apply Z.pow_pos_nonneg; lia).
      specialize (Hb ltac:(nia)). rewrite Hdig in Hb.
      change (53 - 1) with 52 in Hb.
      unfold canon. split; [nia|]. split; [lia|]. intros _. lia.
    - assert (Zdigits2 z = 53) as E by lia.
      pose proof (Zdigits2_bounds z ltac:(lia)) as Hb. rewrite E in Hb.
      change (53 - 1) with 52 in Hb.
      unfold canon. split; [lia|]. split; [lia|]. intros _. lia. }
  destruct (alignedN z 0) as [|p|p] eqn:En;
    try (destruct Hc as [[Hc _] _]; lia).
  exists p, (alignedE z 0). split; [|split; [exact Hc|split]].
  - rewrite of_Z_rounded, En by lia. apply rounded_canon, Hc.
  - rewrite <- En. apply aligned_value; lia.
  - apply Hc. unfold alignedE. cbv zeta. rewrite Z.add_0_r, fexp64_eq.
    destruct (Z.ltb_spec (Z.max (Zdigits2 z - 53) (-1074)) 0); lia.
Qed.

(** ** Ratios *)

Lemma one_value : of_Z 1 = S754_finite false 4503599627370496 (-52).
Proof. vm_compute. reflexivity. Qed.

(** A finite canonical double divided by itself is 1. *)
Lemma div_self (p : positive) (e : Z) :
  canon (Zpos p) e ->
  div (S754_finite false p e) (S754_finite false p e) = of_Z 1.
Proof.
  intros Hc. unfold div. rewrite (div_finite p e p e Hc).
  destruct (div_side p e Hc (Zpos p) e Hc) as (H1 & H2 & H3 & H4).
  rewrite round_aux_rounded by assumption.
  assert (HE : divE p e (Zpos p) e = -53).
  { unfold divE.
    replace (Zdigits2 (Z.pos p) + e - (Zdigits2 (Z.pos p) + e)) with 0 by lia.
    replace (e - e) with 0 by lia. reflexivity. }
  assert (HN : divN p e (Zpos p) e = Zpos p * 2 ^ 53).
  { unfold divN. rewrite HE. do 2 f_equal. lia. }
  unfold rounded, divD. rewrite HN, HE.
  rewrite (Z.mul_comm (Zpos p) (2 ^ 53)), Z.div_mul by lia.
  assert (Hs : shiftOf (2 ^ 53) (-53) = 1) by reflexivity.
  rewrite Hs.
  assert (Hq : 2 ^ 53 * Z.pos p / (Z.pos p * 2 ^ 1) = 2 ^ 52).
  { change (2 ^ 53) with (2 ^ 52 * 2 ^ 1).
    rewrite <- Z.mul_assoc, (Z.mul_comm (2 ^ 1) (Zpos p)), Z.div_mul; [reflexivity|lia]. }
  assert (Hl : locate (2 ^ 53 * Z.pos p) (Z.pos p * 2 ^ 1) = loc_Exact).
  { unfold locate.
    change (2 ^ 53) with (2 ^ 52 * 2 ^ 1).
    rewrite <- Z.mul_assoc, (Z.mul_comm (2 ^ 1) (Zpos p)), Z.mod_mul by lia.
    reflexivity. }
  rewrite Hq, Hl, one_value. reflexivity.
Qed.

(** The ratio of two integers 0 <= a <= b below 2^53 is within [0, 1]. *)
Lemma ratio_in_unit (a b : Z) :
  0 <= a <= b -> 0 < b < 2 ^ 53 ->
  nonneg_double (div (of_Z a) (of_Z b)) /\
  SFleb (div (of_Z a) (of_Z b)) (of_Z 1) = true.
Proof.
  intros Hab Hb.
  destruct (of_Z_finite b Hb) as (p & e & Eb & Hc & _).
  pose proof (of_Z_nonneg a ltac:(lia)) as Na.
  pose proof (of_Z_nonneg b ltac:(lia)) as Nb.
  pose proof (of_Z_mono a b Hab) as Hle.
  rewrite Eb in *.
  change (div ?x (S754_finite false p e)) with (divBy p e x).
  split; [apply divBy_nonneg; assumption|].
  rewrite <- (div_self p e Hc).
  change (div ?x (S754_finite false p e)) with (divBy p e x).
  apply divBy_mono; assumption.
Qed.

(** ** Exact sums of integers *)

Lemma SFleb_antisym_finite (x : num) (p : positive) (e : Z) :
  nonneg_double x ->
  SFleb x (S754_finite false p e) = true ->
  SFleb (S754_finite false p e) x = true ->
  x = S754_finite false p e.
Proof.
  destruct x as [s|s| |s p' e']; cbn [nonneg_double].
  - intros _ _ H. discriminate H.
  - intros -> H _. discriminate H.
  - intros [].
  - intros [-> _] H1 H2.
    apply SFleb_lex in H1. apply SFleb_lex in H2. unfold lexle in H1, H2.
    assert (e' = e) by lia. subst e'.
    assert (p' = p) by lia. subst p'. reflexivity.
Qed.

(** A rounding whose exact value is a double returns that double. *)
Lemma rounded_exact (N ex : Z) (p : positive) (e : Z) :
  0 <= N -> -5000 <= ex -> 0 <= shiftOf (N / 1) ex ->
  canon (Zpos p) e -> N * pw ex = Zpos p * pw e ->
  rounded N 1 ex = S754_finite false p e.
Proof.
  intros HN Hex Hs Hc Hv.
  pose proof Hc as [Hm [He _]].
  assert (Hs' : 0 <= shiftOf (Zpos p / 1) e)
    by (rewrite Z.div_1_r, (canon_shift _ _ Hc); lia).
  apply SFleb_antisym_finite.
  - apply rounded_nonneg; (lia || assumption).
  - rewrite <- (rounded_canon p e Hc).
    apply rounded_mono; try lia; try assumption.
    unfold vle. rewrite !Z.mul_1_r. lia.
  - rewrite <- (rounded_canon p e Hc).
    apply rounded_mono; try lia; try assumption.
    unfold vle. rewrite !Z.mul_1_r. lia.
Qed.

(** Integers add exactly as long as the sum stays below 2^53. *)
Lemma of_Z_add (a b : Z) :
  0 <= a -> 0 <= b -> a + b < 2 ^ 53 -> add (of_Z a) (of_Z b) = of_Z (a + b).
Proof.
  intros Ha Hb Hsum. unfold add.
  destruct (Z.eq_dec a 0) as [->|Na]; [destruct (Z.eq_dec b 0) as [->|Nb]|].
  - reflexivity.
  - destruct (of_Z_finite b ltac:(lia)) as (pb & eb & Eb & _).
    rewrite Z.add_0_l, Eb. reflexivity.
  - destruct (of_Z_finite a ltac:(lia)) as (pa & ea & Ea & Ca & Va & _).
    destruct (Z.eq_dec b 0) as [->|Nb].
    { rewrite Z.add_0_r, Ea. reflexivity. }
    destruct (of_Z_finite b ltac:(lia)) as (pb & eb & Eb & Cb & Vb & _).
    destruct (of_Z_finite (a + b) ltac:(lia)) as (pc & ec & Ec & Cc & Vc & _).
    rewrite Ea, Eb, Ec, (add_finite_rounded pb eb Cb pa ea Ca).
    destruct (add_side pb eb Cb _ _ Ca) as (H1 & _ & H3 & H4).
    unfold addD in *.
    apply rounded_exact; try assumption.
    rewrite (add_scaled pb eb Cb _ _ Ca). lia.
Qed.

Lemma Math_round_nonneg (x : num) : nonneg_double x -> nonneg_double (Math_round x).
Proof.
  apply (stage_nonneg Math_round roundN roundD roundE).
  - reflexivity.
  - reflexivity.
  - exact round_finite.
  - exact round_side.
Qed.

Lemma nonneg_not_nan (x : num) : nonneg_double x -> is_nan x = false.
Proof. destruct x; cbn [nonneg_double]; try reflexivity. intros []. Qed.

Lemma nonneg_at_least_zero (x : num) : nonneg_double x -> leb (of_Z 0) x = true.
Proof. exact (SFleb_zero_nonneg false x). Qed.

Lemma positive_integer (z : Z) : 0 < z < 2 ^ 53 -> gtb (of_Z z) (of_Z 0) = true.
Proof.
  intros Hz. destruct (of_Z_finite z Hz) as (p & e & E & _). rewrite E. reflexivity.
Qed.

Lemma truthy_integer (z : Z) : 0 < z < 2 ^ 53 -> truthy (of_Z z) = true.
Proof.
  intros Hz. destruct (of_Z_finite z Hz) as (p & e & E & _). rewrite E. reflexivity.
Qed.

(** The smaller of two non-negative doubles is one, and is at most the
    second. *)
Lemma Math_min_capped (a c : num) :
  nonneg_double a -> nonneg_double c ->
  nonneg_double (Math_min a c) /\ SFleb (Math_min a c) c = true.
Proof.
  intros Ha Hc. unfold Math_min.
  rewrite (nonneg_not_nan a Ha), (nonneg_not_nan c Hc). cbn [orb].
  destruct (ltb a c) eqn:E1.
  - split; [exact Ha | exact (F64Facts.ltb_leb _ _ E1)].
  - destruct (ltb c a) eqn:E2.
    + split; [exact Hc | apply SFleb_refl_nonneg, Hc].
    + assert (Hle : SFleb a c = true).
      { apply (F64Facts.leb_total c a);
          [apply nonneg_not_nan, Hc | apply nonneg_not_nan, Ha | exact E2]. }
      destruct a as [[]| | |];
        (split; [assumption | first [exact Hle | apply SFleb_refl_nonneg, Hc]]).
Qed.

(** [min(x / d, 1) * c] for positive integers [d] and [c]: between 0 and
    [1 * c]. *)
Lemma capped_share (x : num) (d c : Z) :
  0 < d < 2 ^ 53 -> 0 < c < 2 ^ 53 -> nonneg_double x ->
  nonneg_double (mul (Math_min (div x (of_Z d)) (of_Z 1)) (of_Z c)) /\
  SFleb (mul (Math_min (div x (of_Z d)) (of_Z 1)) (of_Z c))
        (mul (of_Z 1) (of_Z c)) = true.
Proof.
  intros Hd Hc Hx.
  destruct (of_Z_finite d Hd) as (pd & ed & Ed & Hcd & _).
  destruct (of_Z_finite c Hc) as (pc & ec & Ec & Hcc & _ & Hnorm).
  pose proof Hcc as [_ [[Hec _] _]].
  rewrite Ed, Ec.
  pose proof (divBy_nonneg pd ed Hcd x Hx) as Hq. unfold divBy in Hq.
  pose proof (of_Z_nonneg 1 ltac:(lia)) as H1.
  destruct (Math_min_capped _ _ Hq H1) as [Hm Hle].
  split.
  - exact (mulBy_nonneg pc ec Hnorm Hec _ Hm).
  - exact (mulBy_mono pc ec Hnorm Hec _ _ Hm H1 Hle).
Qed.

Lemma sum_nonneg {A : Type} (g : A -> num) (l : list A) (acc : num) :
  nonneg_double acc ->
  (forall a, In a l -> nonneg_double (g a)) ->
  nonneg_double (fold_left (fun s a => add s (g a)) l acc).
Proof.
  revert acc. induction l as [|x rest IH]; intros acc Hacc Hall; cbn [fold_left].
  - exact Hacc.
  - apply IH.
    + apply add_nonneg; [exact Hacc | apply Hall; left; reflexivity].
    + intros a Ha. apply Hall. right. exact Ha.
Qed.

End SummationFacts.

(* ===================================================================== *)
(** ** Pre-trade gate *)
(* ===================================================================== *)

Module PreTradeFacts.

Import RiskGovernor PreTradeSpec.

Lemma append_cons (c : Ascii.ascii) (s t : string) :
  String.append (String c s) t = String c (String.append s t).
Proof. reflexivity. Qed.

Lemma append_nil_r (s : string) : String.append s "" = s.
Proof. induction s as [|c s IH]; [reflexivity|]. rewrite append_cons, IH. reflexivity. Qed.

Lemma append_assoc (a b c : string) :
  String.append (String.append a b) c = String.append a (String.append b c).
Proof.
  induction a as [|x a IH]; [reflexivity|].
  rewrite !append_cons, IH. reflexivity.
Qed.

Lemma Substring_refl (s : string) : Substring s s.
Proof. exists ""%string, ""%string. rewrite append_nil_r. reflexivity. Qed.

Lemma Substring_prepend (s t p : string) :
  Substring s t -> Substring s (String.append p t).
Proof.
  intros (pre & post & ->). exists (String.append p pre), post.
  rewrite append_assoc. reflexivity.
Qed.

Lemma Substring_extend (s t q : string) :
  Substring s t -> Substring s (String.append t q).
Proof.
  intros (pre & post & ->). exists pre, (String.append post q).
  rewrite !append_assoc. reflexivity.
Qed.


(** Every element of a joined list occurs in the result. *)
Lemma join_names (sep : string) (xs : list string) (x : string) :
  In x xs -> Substring x (join sep xs).
Proof.
  induction xs as [|y ys IH]; [intros []|].
  intros [-> | Hin].
  - destruct ys as [|z zs]; [apply Substring_refl|].
    change (join sep (x :: z :: zs))
      with (String.append x (String.append sep (join sep (z :: zs)))).
    apply Substring_extend, Substring_refl.
  - destruct ys as [|z zs]; [destruct Hin|].
    change (join sep (y :: z :: zs))
      with (String.append y (String.append sep (join sep (z :: zs)))).
    apply Substring_prepend, Substring_prepend, IH, Hin.
Qed.


(** When the store answers, the counters are the store's. *)
Lemma refreshRiskCounters_reads (w : World) (ps : list Position) (t h l : num) :
  database w = {| getOpenPositions := Some ps; getTodayTradeCount := Some t;
                  getHourTradeCount := Some h; getConsecutiveLosses := Some l |} ->
  let rs' := riskState (snd (refreshRiskCounters w)) in
  currentExposureSol rs' = fold_left (fun s p => s + entryAmountSol p) ps (of_Z 0) /\
  todayTradeCount rs' = t /\ hourTradeCount rs' = h /\ consecutiveLosses rs' = l.
Proof. unfold refreshRiskCounters. intros ->. simpl. tauto. Qed.



Lemma reason_names_failures (size : num) (config : BotConfig) (w : World) (d : RiskCheck) :
  let res := fst (checkPreTradeRisk size config w) in
  In d (details res) -> passed d = false -> Substring (check d) (reason res).
Proof.
  unfold checkPreTradeRisk, bind, get_risk, ret.
  destruct (refreshRiskCounters w) as [[] w1].
  cbn [fst snd details reason]. intros Hin Hfail.
  match goal with |- context [forallb passed ?l] => set (checks := l) in * end.
  assert (Hall : forallb passed checks = false).
  { destruct (forallb passed checks) eqn:E; [|reflexivity].
    rewrite forallb_forall in E. rewrite (E d Hin) in Hfail. discriminate. }
  rewrite Hall. apply Substring_prepend, join_names.
  apply in_map, filter_In. split; [exact Hin | now rewrite Hfail].
Qed.








End PreTradeFacts.

(* ===================================================================== *)
(** ** Kill switch and auto-halt *)
(* ===================================================================== *)

Module AutoHaltFacts.

Import RiskGovernor AutoHaltSpec.

Lemma refreshRiskCounters_rest (w : World) :
  let w1 := snd (refreshRiskCounters w) in
  storeCalls w1 = storeCalls w /\ clock w1 = clock w /\
  clockReads w1 = clockReads w /\ uuids w1 = uuids w /\
  uuidCount w1 = uuidCount w /\ database w1 = database w.
Proof.
  unfold refreshRiskCounters.
  destruct (getOpenPositions (database w)); [|simpl; tauto].
  destruct (getTodayTradeCount (database w)); [|simpl; tauto].
  destruct (getHourTradeCount (database w)); [|simpl; tauto].
  destruct (getConsecutiveLosses (database w)); simpl; tauto.
Qed.

(** Every activation halts the state and stores one CRITICAL incident. *)
Lemma activateKillSwitch_effect (reason : Text) (w : World) :
  let w' := snd (activateKillSwitch reason w) in
  isHalted (riskState w') = true /\
  haltReason (riskState w') = Some reason /\
  haltedAt (riskState w') = Some (clock w (clockReads w)) /\
  resumeAt (riskState w') = resumeAt (riskState w) /\
  exists k, storeCalls w' = storeCalls w ++ [SaveIncident k] /\
            inc_severity k = CRITICAL /\ inc_category k = "KILL_SWITCH"%string.
Proof.
  cbn. repeat split. eexists. repeat split.
Qed.

Lemma day_in_ms : of_Z 24 * of_Z 3600000 = of_Z 86400000.
Proof. vm_compute. reflexivity. Qed.

Lemma haltOnDrawdown_quiet (config : BotConfig) (w : World) :
  isHalted (riskState w) = true \/
  (Math_abs (todayDrawdownPct (riskState w)) >=? dailyMaxDrawdownPct config) = false ->
  haltOnDrawdown config w = ([], w).
Proof.
  unfold haltOnDrawdown, bind, get_risk.
  intros [-> | ->]; rewrite ?andb_false_r; reflexivity.
Qed.

Lemma haltOnLosses_halted (config : BotConfig) (w : World) :
  isHalted (riskState w) = true -> haltOnLosses config w = ([], w).
Proof.
  unfold haltOnLosses, bind, get_risk. intros ->.
  rewrite andb_false_r. reflexivity.
Qed.

Lemma haltOnLosses_quiet (config : BotConfig) (w : World) :
  (consecutiveLosses (riskState w) >=? maxConsecutiveLosses config) = false ->
  haltOnLosses config w = ([], w).
Proof. unfold haltOnLosses, bind, get_risk. intros ->. reflexivity. Qed.

Lemma haltOnDrawdown_fires (config : BotConfig) (w : World) :
  isHalted (riskState w) = false ->
  (Math_abs (todayDrawdownPct (riskState w)) >=? dailyMaxDrawdownPct config) = true ->
  exists i w',
    haltOnDrawdown config w = ([i], w') /\
    isHalted (riskState w') = true /\
    resumeAt (riskState w')
      = Some (clock w (clockReads w + 2)%nat + of_Z 86400000) /\
    (inc_severity i = CRITICAL /\ inc_category i = "DAILY_DRAWDOWN"%string) /\
    exists k, storeCalls w' = storeCalls w ++ [SaveIncident k] /\
              inc_severity k = CRITICAL.
Proof.
  intros Hh Hd. unfold haltOnDrawdown. unfold bind at 1. unfold get_risk.
  rewrite Hd, Hh. cbn. rewrite day_in_ms.
  replace (S (S (clockReads w))) with (clockReads w + 2)%nat by lia.
  eexists. eexists. split; [reflexivity|]. cbn.
  repeat split. eexists. split; reflexivity.
Qed.

Lemma haltOnLosses_fires (config : BotConfig) (w : World) :
  isHalted (riskState w) = false ->
  (consecutiveLosses (riskState w) >=? maxConsecutiveLosses config) = true ->
  exists i w',
    haltOnLosses config w = ([i], w') /\
    isHalted (riskState w') = true /\
    resumeAt (riskState w') = resumeAt (riskState w) /\
    (inc_severity i = WARNING /\ inc_category i = "CONSECUTIVE_LOSSES"%string) /\
    exists k, storeCalls w' = storeCalls w ++ [SaveIncident k] /\
              inc_severity k = CRITICAL.
Proof.
  intros Hh Hl. unfold haltOnLosses. unfold bind at 1. unfold get_risk.
  rewrite Hl, Hh. cbn.
  eexists. eexists. split; [reflexivity|]. cbn.
  repeat split. eexists. split; reflexivity.
Qed.

(** When both limits are hit in the same tick, the drawdown rule halts
    first; the loss rule then sees a halted state and reports nothing, and
    the state carries the drawdown rule's resume timestamp. *)
Lemma losses_rule_counterexample :
  ~ losses_rule_as_stated DEFAULT_CONFIG bothLimitsWorld.
Proof.
  unfold losses_rule_as_stated. intros H.
  destruct H as (_ & _ & Hresume); [vm_compute; reflexivity .. |].
  vm_compute in Hresume. discriminate.
Qed.

Lemma both_limits_severities :
  map inc_severity (fst (runAutoHaltChecks DEFAULT_CONFIG bothLimitsWorld))
  = [CRITICAL].
Proof. vm_compute. reflexivity. Qed.

(** C2 (amended).  After refreshing the counters, [runAutoHaltChecks]
    (1) on a running state whose |drawdown %| has reached the daily limit
    halts, returns one CRITICAL incident and sets the resume timestamp to
    the clock reading plus 24 hours; (2) on a running state where the
    drawdown rule did not fire and the consecutive losses have reached
    their limit halts, returns one WARNING incident and leaves the resume
    timestamp as it was; (3) on a halted state changes nothing and returns
    nothing; (4) otherwise changes nothing; and (5) every kill-switch
    activation, these included, stores a CRITICAL incident. *)
Theorem runAutoHaltChecks_transitions (config : BotConfig) (w : World) :
  let rs := riskState (snd (refreshRiskCounters w)) in
  let out := runAutoHaltChecks config w in
  let rs' := riskState (snd out) in
  let drawdownHit := Math_abs (todayDrawdownPct rs) >=? dailyMaxDrawdownPct config in
  let lossesHit := consecutiveLosses rs >=? maxConsecutiveLosses config in
  (isHalted rs = false -> drawdownHit = true ->
     isHalted rs' = true /\
     resumeAt rs' = Some (clock w (clockReads w + 2)%nat + of_Z 86400000) /\
     (exists i, fst out = [i] /\ inc_severity i = CRITICAL /\
                inc_category i = "DAILY_DRAWDOWN"%string) /\
     (exists k, storeCalls (snd out) = storeCalls w ++ [SaveIncident k] /\
                inc_severity k = CRITICAL)) /\
  (isHalted rs = false -> drawdownHit = false -> lossesHit = true ->
     isHalted rs' = true /\
     resumeAt rs' = resumeAt rs /\
     (exists i, fst out = [i] /\ inc_severity i = WARNING /\
                inc_category i = "CONSECUTIVE_LOSSES"%string) /\
     (exists k, storeCalls (snd out) = storeCalls w ++ [SaveIncident k] /\
                inc_severity k = CRITICAL)) /\
  (isHalted rs = true ->
     rs' = rs /\ fst out = [] /\ storeCalls (snd out) = storeCalls w) /\
  (isHalted rs = false -> drawdownHit = false -> lossesHit = false ->
     rs' = rs /\ fst out = [] /\ storeCalls (snd out) = storeCalls w) /\
  (forall reason w0,
     isHalted (riskState (snd (activateKillSwitch reason w0))) = true /\
     exists k, storeCalls (snd (activateKillSwitch reason w0))
               = storeCalls w0 ++ [SaveIncident k] /\
               inc_severity k = CRITICAL).
Proof.
  intros rs out rs' drawdownHit lossesHit.
  destruct (refreshRiskCounters_rest w) as (Hst & Hck & Hrd & _).
  subst out rs' drawdownHit lossesHit rs.
  unfold runAutoHaltChecks, bind.
  destruct (refreshRiskCounters w) as [[] w1]. cbn [snd fst] in *.
  split; [|split; [|split; [|split]]].
  - intros Hh Hd.
    destruct (haltOnDrawdown_fires config w1 Hh Hd)
      as (i & w2 & -> & H1 & H2 & H3 & H5).
    rewrite (haltOnLosses_halted config w2 H1). cbn [fst snd ret app].
    rewrite H1, H2, Hck, Hrd. repeat split; auto.
    + exists i. repeat split; tauto.
    + destruct H5 as (k & -> & ?). rewrite Hst. exists k. split; auto.
  - intros Hh Hd Hl.
    rewrite (haltOnDrawdown_quiet config w1 (or_intror Hd)).
    destruct (haltOnLosses_fires config w1 Hh Hl)
      as (i & w2 & -> & H1 & H2 & H3 & H5).
    cbn [fst snd ret app]. rewrite H1, H2. repeat split; auto.
    + exists i. repeat split; tauto.
    + destruct H5 as (k & -> & ?). rewrite Hst. exists k. split; auto.
  - intros Hh.
    rewrite (haltOnDrawdown_quiet config w1 (or_introl Hh)).
    rewrite (haltOnLosses_halted config w1 Hh). cbn. auto.
  - intros Hh Hd Hl.
    rewrite (haltOnDrawdown_quiet config w1 (or_intror Hd)).
    rewrite (haltOnLosses_quiet config w1 Hl). cbn. auto.
  - intros reason w0.
    destruct (activateKillSwitch_effect reason w0)
      as (Hhalt & _ & _ & _ & k & Hk & Hs & _).
    split; [exact Hhalt|]. exists k. split; assumption.
Qed.

End AutoHaltFacts.

(* ===================================================================== *)
(** ** Exit evaluator *)
(* ===================================================================== *)

Module ExitFacts.

Import StrategyEngine ExitSpec.








Section Examples.
Variables (now : num) (position : Position).
Hypothesis entry_100 : entryPrice position = of_Z 100.

Let check (price : num) :=
  checkExitConditionsAt now position price DEFAULT_CONFIG.






Hypothesis hwm_200 : highWaterMark position = of_Z 200.
Hypothesis ladder_spent : takeProfitLevels position = spentLadder.




End Examples.



End ExitFacts.

(* ===================================================================== *)
(** ** Paper engine: a failed buy *)
(* ===================================================================== *)

Module BuyFacts.

Import RiskGovernor PaperTradingEngine.

(** The world after the failure branch: only the order was stored and
    the clock and identifier supplies were consumed. *)
Lemma failedBuy_effect (plan : ExecutionPlan) (decisionCardId orderId : string)
    (key : IdempotencyKey) (w : World) :
  let out := failedBuy plan decisionCardId orderId key w in
  ord_status (fst out) = FAILED /\
  ord_errorMessage (fst out) = Some "Simulated transaction failure"%string /\
  ord_amountTokens (fst out) = of_Z 0 /\
  riskState (snd out) = riskState w /\
  storeCalls (snd out) = storeCalls w ++ [SaveOrder (fst out)] /\
  eventBuffer (snd out) = eventBuffer w /\
  tokenEvents (snd out) = tokenEvents w /\
  database (snd out) = database w.
Proof. unfold failedBuy. wsimpl. repeat split. Qed.

(** C4.  When the failure draw of the simulated buy fires, [executeBuy]
    returns an order with status FAILED carrying an error message, and
    the trading state is untouched: the risk state (equity included) is
    unchanged and the only call made to the store saves that order, so no
    position is created. *)
Theorem executeBuy_failure_atomic (config : BotConfig) (plan : ExecutionPlan)
    (decisionCardId : string) (w : World) :
  (rng w (S (rngDraws w)) <? paperFailureRate config) = true ->
  let out := executeBuy config plan decisionCardId w in
  ord_status (fst out) = FAILED /\
  ord_errorMessage (fst out) = Some "Simulated transaction failure"%string /\
  riskState (snd out) = riskState w /\
  equitySol (riskState (snd out)) = equitySol (riskState w) /\
  storeCalls (snd out) = storeCalls w ++ [SaveOrder (fst out)] /\
  (forall p, In (SavePosition p) (storeCalls (snd out)) ->
             In (SavePosition p) (storeCalls w)).
Proof.
  intros Hfail out. subst out.
  unfold executeBuy, simulateLatency. wsimpl. rewrite Hfail.
  match goal with |- context [failedBuy ?p ?d ?o ?k ?w0] =>
    destruct (failedBuy_effect p d o k w0) as (H1 & H2 & _ & H4 & H5 & _);
    revert H1 H2 H4 H5; wsimpl; generalize (failedBuy p d o k w0)
  end.
  intros [order w'] H1 H2 H4 H5. cbn [fst snd] in *.
  rewrite H4, H5. repeat split; auto.
  intros p Hin. apply in_app_or in Hin as [Hin | [Heq | []]];
    [exact Hin | discriminate].
Qed.

End BuyFacts.

Module BuyWitness.

Import RiskGovernor PaperTradingEngine PaperSpec.

(** A world whose draws (0.01) fall below the 5 % failure rate. *)
Lemma executeBuy_failure_atomic_witness :
  let w := sampleWorld initialRiskState emptyDatabase 1762000000000 (dec 1 100) in
  (rng w (S (rngDraws w)) <? paperFailureRate DEFAULT_CONFIG) = true /\
  ord_status (fst (executeBuy DEFAULT_CONFIG samplePlan sampleDecisionId w)) = FAILED /\
  storeCalls (snd (executeBuy DEFAULT_CONFIG samplePlan sampleDecisionId w))
  = [SaveOrder (fst (executeBuy DEFAULT_CONFIG samplePlan sampleDecisionId w))].
Proof.
  intros w.
  assert (H : (rng w (S (rngDraws w)) <? paperFailureRate DEFAULT_CONFIG) = true)
    by (vm_compute; reflexivity).
  split; [exact H|].
  destruct (BuyFacts.executeBuy_failure_atomic DEFAULT_CONFIG samplePlan
              sampleDecisionId w H) as (H1 & _ & _ & _ & H5 & _).
  split; [exact H1 | exact H5].
Defined.

End BuyWitness.

(* ===================================================================== *)
(** ** The resume timestamp outlives the halt that set it *)
(* ===================================================================== *)

Module ResumeFacts.

Import RiskGovernor AutoHaltSpec ResumeSpec.

Lemma deactivateKillSwitch_effect (w : World) :
  let rs := riskState w in
  let rs' := riskState (snd (deactivateKillSwitch w)) in
  isHalted rs' = false /\ haltReason rs' = None /\ haltedAt rs' = None /\
  resumeAt rs' = resumeAt rs.
Proof. cbn. tauto. Qed.

Lemma resetDailyCounters_elapsed (w : World) (t : num) :
  resumeAt (riskState w) = Some t -> truthy t = true ->
  (clock w (clockReads w) >=? t) = true ->
  isHalted (riskState (snd (resetDailyCounters w))) = false.
Proof.
  intros Hr Ht Hnow. unfold resetDailyCounters. wsimpl.
  cbn [with_day_reset resumeAt]. rewrite Hr, Ht. wsimpl. rewrite Hnow.
  reflexivity.
Qed.

Lemma scenario_manual_halt_lifted :
  isHalted (riskState afterDrawdownHalt) = true /\
  resumeAt (riskState afterDrawdownHalt) = Some (of_Z (t_start + 2 + hours 24)) /\
  isHalted (riskState afterOperatorResume) = false /\
  isHalted (riskState afterManualHalt) = true /\
  resumeAt (riskState afterManualHalt) = Some (of_Z (t_start + 2 + hours 24)) /\
  isHalted (riskState afterMidnightReset) = false.
Proof. vm_compute. repeat split. Qed.

(** C10.  [deactivateKillSwitch] clears [isHalted], [haltReason] and
    [haltedAt] and leaves [resumeAt] as it is; neither a manual activation
    nor a consecutive-loss halt changes [resumeAt].  Hence, once a drawdown
    halt has stored a resume timestamp, [resetDailyCounters] lifts whatever
    halt is in force as soon as the clock has reached that timestamp. *)
Theorem stale_resumeAt_lifts_later_halts :
  (forall w,
     let rs' := riskState (snd (deactivateKillSwitch w)) in
     isHalted rs' = false /\ haltReason rs' = None /\ haltedAt rs' = None /\
     resumeAt rs' = resumeAt (riskState w)) /\
  (forall reason w,
     isHalted (riskState (snd (activateKillSwitch reason w))) = true /\
     resumeAt (riskState (snd (activateKillSwitch reason w)))
     = resumeAt (riskState w)) /\
  (forall config w,
     isHalted (riskState w) = false ->
     (consecutiveLosses (riskState w) >=? maxConsecutiveLosses config) = true ->
     isHalted (riskState (snd (haltOnLosses config w))) = true /\
     resumeAt (riskState (snd (haltOnLosses config w))) = resumeAt (riskState w)) /\
  (forall w t,
     resumeAt (riskState w) = Some t -> truthy t = true ->
     (clock w (clockReads w) >=? t) = true ->
     isHalted (riskState (snd (resetDailyCounters w))) = false) /\
  (isHalted (riskState afterManualHalt) = true /\
   haltReason (riskState afterManualHalt)
   = Some (TStr "Manual kill switch activated by operator") /\
   isHalted (riskState afterMidnightReset) = false).
Proof.
  split; [apply deactivateKillSwitch_effect|].
  split.
  { intros reason w.
    destruct (AutoHaltFacts.activateKillSwitch_effect reason w)
      as (H1 & _ & _ & H4 & _).
    split; assumption. }
  split.
  { intros config w Hh Hl.
    destruct (AutoHaltFacts.haltOnLosses_fires config w Hh Hl)
      as (i & w' & -> & H1 & H2 & _).
    split; assumption. }
  split; [apply resetDailyCounters_elapsed|].
  vm_compute. repeat split.
Qed.

End ResumeFacts.

(* ===================================================================== *)
(** ** Daily drawdown *)
(* ===================================================================== *)

Module DrawdownFacts.

Import RiskGovernor DrawdownSpec F64Facts.

Lemma updateEquity_fields (sol : num) (w : World) :
  let rs := riskState w in
  let rs' := riskState (snd (updateEquity sol w)) in
  startOfDayEquity rs' = startOfDayEquity rs /\
  todayPnlPct rs' = ((sol - startOfDayEquity rs) / startOfDayEquity rs) * of_Z 100 /\
  todayDrawdownPct rs'
  = (if todayPnlPct rs' <? todayDrawdownPct rs
     then todayPnlPct rs' else todayDrawdownPct rs).
Proof. cbn. tauto. Qed.

(** One update never raises the drawdown figure. *)
Lemma updateEquity_monotone (sol : num) (w : World) :
  let d := todayDrawdownPct (riskState w) in
  let d' := todayDrawdownPct (riskState (snd (updateEquity sol w))) in
  d' = d \/ (d' <? d) = true.
Proof.
  intros d d'. subst d d'.
  pose proof (updateEquity_fields sol w) as H. cbv zeta in H.
  destruct H as (_ & _ & ->).
  destruct (_ <? _) eqn:E; [right; exact E | left; reflexivity].
Qed.

Lemma runUpdates_monotone (sols : list num) (w : World) :
  let d := todayDrawdownPct (riskState w) in
  let d' := todayDrawdownPct (riskState (runUpdates sols w)) in
  d' = d \/ (d' <? d) = true.
Proof.
  revert w. induction sols as [|sol rest IH]; intros w; [left; reflexivity|].
  cbn [runUpdates]. cbv zeta in *.
  destruct (IH (snd (updateEquity sol w))) as [E2 | H2];
    destruct (updateEquity_monotone sol w) as [E1 | H1].
  - left. congruence.
  - right. rewrite E2. exact H1.
  - right. rewrite <- E1. exact H2.
  - right. exact (ltb_trans _ _ _ H2 H1).
Qed.

Lemma runUpdates_lowest (sols : list num) (w : World) :
  lowest_since (todayDrawdownPct (riskState w)) (observedPnlPct sols w)
    (todayDrawdownPct (riskState (runUpdates sols w))).
Proof.
  revert w. induction sols as [|sol rest IH]; intros w.
  - left. split; [reflexivity | intros p []].
  - cbn [runUpdates observedPnlPct].
    pose proof (updateEquity_fields sol w) as Hd. cbv zeta in Hd.
    destruct Hd as (_ & _ & Hd).
    pose proof (IH (snd (updateEquity sol w))) as H. clear IH.
    remember (snd (updateEquity sol w)) as w1 eqn:Hw1.
    remember (todayPnlPct (riskState w1)) as p1 eqn:Hp1.
    remember (todayDrawdownPct (riskState w)) as d0 eqn:Hd0.
    remember (todayDrawdownPct (riskState (runUpdates rest w1))) as d eqn:Hdd.
    remember (observedPnlPct rest w1) as obs eqn:Hobs.
    rewrite Hd in H. clear Hd Hw1 Hp1 Hd0 Hdd Hobs.
    destruct (p1 <? d0) eqn:E1;
      destruct H as [[-> Hall] | (Hin & Hlt & Hall)].
    + (* the new P&L% became the drawdown and stayed *)
      right. split; [left; reflexivity|]. split; [exact E1|].
      intros p [<- | Hp]; [apply ltb_irrefl | apply Hall, Hp].
    + (* ... and was lowered again later *)
      right. split; [right; exact Hin|].
      split; [exact (ltb_trans _ _ _ Hlt E1)|].
      intros p [<- | Hp]; [apply ltb_asym, Hlt | apply Hall, Hp].
    + (* the drawdown stayed throughout *)
      left. split; [reflexivity|].
      intros p [<- | Hp]; [exact E1 | apply Hall, Hp].
    + (* the drawdown stayed now and was lowered later *)
      right. split; [right; exact Hin|]. split; [exact Hlt|].
      intros p [<- | Hp]; [|apply Hall, Hp].
      destruct (p1 <? d) eqn:E2; [|reflexivity].
      rewrite (ltb_trans _ _ _ E2 Hlt) in E1. discriminate.
Qed.

Lemma resetDailyCounters_drawdown (w : World) :
  todayDrawdownPct (riskState (snd (resetDailyCounters w))) = of_Z 0.
Proof.
  unfold resetDailyCounters. wsimpl. cbn [with_day_reset resumeAt].
  destruct (resumeAt (riskState w)) as [t|]; [|reflexivity].
  destruct (truthy t); [|reflexivity]. wsimpl.
  destruct (_ >=? _); reflexivity.
Qed.

(** C8.  [resetDailyCounters] sets [todayDrawdownPct] to 0.  From there
    on, across any sequence of [updateEquity] calls, the figure never
    rises (each call keeps it or lowers it), and after the sequence it
    equals the most negative [todayPnlPct] observed since the reset, or 0
    if no negative one was observed. *)
Theorem drawdown_is_lowest_pnl_since_reset (w : World) (sols : list num) :
  let w0 := snd (resetDailyCounters w) in
  todayDrawdownPct (riskState w0) = of_Z 0 /\
  (forall before after,
     sols = before ++ after ->
     let d := todayDrawdownPct (riskState (runUpdates before w0)) in
     let d' := todayDrawdownPct (riskState (runUpdates sols w0)) in
     d' = d \/ (d' <? d) = true) /\
  lowest_since (of_Z 0) (observedPnlPct sols w0)
    (todayDrawdownPct (riskState (runUpdates sols w0))).
Proof.
  intros w0. split; [apply resetDailyCounters_drawdown|]. split.
  - intros before after -> d d'. subst d d'.
    assert (Happ : forall l1 l2 x, runUpdates (l1 ++ l2) x = runUpdates l2 (runUpdates l1 x)).
    { induction l1 as [|a l1 IH]; intros l2 x; [reflexivity|]. cbn. apply IH. }
    rewrite Happ. apply runUpdates_monotone.
  - rewrite <- (resetDailyCounters_drawdown w). apply runUpdates_lowest.
Qed.

End DrawdownFacts.

(* ===================================================================== *)
(** ** Paper engine: selling *)
(* ===================================================================== *)

Module SellFacts.

Import RiskGovernor PaperTradingEngine StrategyEngine ExitSpec SellSpec.

Lemma tolerance_value : dec 1 100 = S754_finite false 5764607523034235 (-59).
Proof. vm_compute. reflexivity. Qed.

(** A number above the tolerance is not negative. *)
Lemma above_tolerance_nonneg (x : num) :
  is_nan x = false -> (x <=? dec 1 100) = false -> (of_Z 0 <=? x) = true.
Proof.
  rewrite tolerance_value. change (of_Z 0) with (S754_zero false).
  unfold leb, SFleb, is_nan.
  destruct x as [[]|[]| |[] m e]; cbv beta iota delta [SFcompare];
    intros Hn Hc; try discriminate; reflexivity.
Qed.

(** What a successful sell does to the position. *)
Lemma soldPosition_fields (position : Position) (tokensToSell netSol now : num)
    (source : OrderSource) :
  let position' := soldPosition position tokensToSell netSol now source in
  let left := remainingTokens position - tokensToSell in
  totalTokensBought position' = totalTokensBought position /\
  totalTokensSold position' = totalTokensSold position + tokensToSell /\
  takeProfitLevels position' = takeProfitLevels position /\
  (pos_status position' = CLOSED \/ pos_status position' = PARTIALLY_CLOSED) /\
  (pos_status position' = CLOSED <-> (left <=? dec 1 100) = true) /\
  (pos_status position' = CLOSED ->
     remainingTokens position' = of_Z 0 /\ exitReason position' = Some source) /\
  (pos_status position' = PARTIALLY_CLOSED ->
     remainingTokens position' = left /\ exitReason position' = exitReason position) /\
  (is_nan left = false -> (of_Z 0 <=? remainingTokens position') = true).
Proof.
  unfold soldPosition. cbn [totalTokensBought totalTokensSold takeProfitLevels
                            pos_status remainingTokens exitReason].
  destruct (remainingTokens position - tokensToSell <=? dec 1 100) eqn:E.
  - repeat split; auto; try discriminate.
  - repeat split; auto; try discriminate.
    intros Hn. apply above_tolerance_nonneg; assumption.
Qed.

Lemma executeSell_success (config : BotConfig) (position : Position)
    (pct : num) (source : OrderSource) (price : num) (w : World) :
  sellSucceeds config w ->
  exists netSol now,
    snd (fst (executeSell config position pct source price w))
    = soldPosition position (remainingTokens position * (pct / of_Z 100))
        netSol now source /\
    ord_status (fst (fst (executeSell config position pct source price w)))
    = CONFIRMED /\
    ord_amountTokens (fst (fst (executeSell config position pct source price w)))
    = remainingTokens position * (pct / of_Z 100) /\
    exists calls,
      storeCalls (snd (executeSell config position pct source price w))
      = storeCalls w ++ calls ++
        [SavePosition (snd (fst (executeSell config position pct source price w)))].
Proof.
  unfold sellSucceeds. intros Hok.
  unfold executeSell, simulateLatency. wsimpl. rewrite Hok.
  unfold filledSell, getRiskState, updateEquity. wsimpl.
  eexists. eexists. split; [reflexivity|]. split; [reflexivity|].
  split; [reflexivity|].
  eexists [_]. rewrite <- app_assoc. reflexivity.
Qed.

(** Selling 99.5 % of a one-token position leaves 0.005 tokens, which is
    within the tolerance: the position closes with [remainingTokens] reset
    to 0 although bought - sold is still 0.005.  And a position left with
    exactly 0.01 tokens closes, although 0.01 is not below 0.01. *)
Lemma sell_claim_counterexample :
  ~ sell_claim_as_stated DEFAULT_CONFIG oneTokenPosition (dec 995 10)
      TAKE_PROFIT (dec 1 1000000) calmWorld /\
  ~ sell_claim_as_stated DEFAULT_CONFIG toleranceTokenPosition (of_Z 0)
      TAKE_PROFIT (dec 1 1000000) calmWorld.
Proof.
  split; intros H.
  - destruct H as ((Hacc & _) & _ & _).
    + split; vm_compute; reflexivity.
    + vm_compute; reflexivity.
    + vm_compute; reflexivity.
    + vm_compute; reflexivity.
    + vm_compute in Hacc. discriminate Hacc.
  - destruct H as (_ & (Hcl & _) & _).
    + split; vm_compute; reflexivity.
    + vm_compute; reflexivity.
    + vm_compute; reflexivity.
    + vm_compute; reflexivity.
    + assert (Hc : (dec 1 100 - dec 1 100 * (of_Z 0 / of_Z 100) <? dec 1 100) = true).
      { apply Hcl. vm_compute. reflexivity. }
      vm_compute in Hc. discriminate Hc.
Qed.

(** C5 (amended).  A successful [executeSell] of [pct] % confirms an
    order for [remainingTokens * (pct / 100)] tokens, adds exactly that
    amount to [totalTokensSold] and takes it off [remainingTokens]; the
    position ends CLOSED or PARTIALLY_CLOSED, it is CLOSED exactly when
    the tokens left are at or below the tolerance 0.01, and then
    [remainingTokens] is reset to 0; otherwise it is PARTIALLY_CLOSED with
    the tokens left.  [remainingTokens] is never negative afterwards
    (provided the subtraction did not produce NaN), and the position
    saved to the store is the one returned. *)
Theorem executeSell_accounting (config : BotConfig) (position : Position)
    (pct : num) (source : OrderSource) (price : num) (w : World) :
  sellSucceeds config w ->
  let out := executeSell config position pct source price w in
  let position' := snd (fst out) in
  let sold := remainingTokens position * (pct / of_Z 100) in
  let left := remainingTokens position - sold in
  ord_status (fst (fst out)) = CONFIRMED /\
  ord_amountTokens (fst (fst out)) = sold /\
  totalTokensBought position' = totalTokensBought position /\
  totalTokensSold position' = totalTokensSold position + sold /\
  (pos_status position' = CLOSED \/ pos_status position' = PARTIALLY_CLOSED) /\
  (pos_status position' = CLOSED <-> (left <=? dec 1 100) = true) /\
  (pos_status position' = CLOSED -> remainingTokens position' = of_Z 0) /\
  (pos_status position' = PARTIALLY_CLOSED -> remainingTokens position' = left) /\
  (is_nan left = false -> (of_Z 0 <=? remainingTokens position') = true) /\
  (exists calls,
     storeCalls (snd out) = storeCalls w ++ calls ++ [SavePosition position']).
Proof.
  intros Hok out position' sold left. subst out position' sold left.
  destruct (executeSell_success config position pct source price w Hok)
    as (netSol & now & Hpos & Hst & Hamt & Hcalls).
  rewrite Hst, Hamt. split; [reflexivity|]. split; [reflexivity|].
  revert Hcalls. rewrite Hpos. intros Hcalls.
  pose proof (soldPosition_fields position
                (remainingTokens position * (pct / of_Z 100)) netSol now source) as H.
  cbv zeta in H. destruct H as (H1 & H2 & _ & H4 & H5 & H6 & H7 & H8).
  repeat split; tauto.
Qed.

Lemma executeSell_accounting_witness :
  sellSucceeds DEFAULT_CONFIG calmWorld /\
  (let out := executeSell DEFAULT_CONFIG oneTokenPosition (of_Z 30) TAKE_PROFIT
                (dec 1 1000000) calmWorld in
   pos_status (snd (fst out)) = PARTIALLY_CLOSED /\
   remainingTokens (snd (fst out)) = dec 7 10).
Proof.
  split; [vm_compute; reflexivity|].
  pose proof (executeSell_accounting DEFAULT_CONFIG oneTokenPosition (of_Z 30)
                TAKE_PROFIT (dec 1 1000000) calmWorld) as H.
  cbv zeta in H.
  destruct H as (_ & _ & _ & _ & Hst & Hcl & _ & Hpart & _);
    [vm_compute; reflexivity|].
  assert (Hp : pos_status (snd (fst (executeSell DEFAULT_CONFIG oneTokenPosition
                 (of_Z 30) TAKE_PROFIT (dec 1 1000000) calmWorld))) = PARTIALLY_CLOSED).
  { destruct Hst as [Hc | Hp]; [|exact Hp].
    apply Hcl in Hc. vm_compute in Hc. discriminate Hc. }
  split; [exact Hp|]. rewrite (Hpart Hp). vm_compute. reflexivity.
Defined.

End SellFacts.

(* ===================================================================== *)
(** ** The take-profit ladder is never marked *)
(* ===================================================================== *)

Module LadderFacts.

Import RiskGovernor StrategyEngine PaperTradingEngine ExitSpec SellSpec LadderSpec.

(** Neither branch of [executeSell] assigns to [takeProfitLevels]. *)
Lemma executeSell_keeps_ladder (config : BotConfig) (position : Position)
    (pct : num) (source : OrderSource) (price : num) (w : World) :
  takeProfitLevels (snd (fst (executeSell config position pct source price w)))
  = takeProfitLevels position.
Proof.
  unfold executeSell, simulateLatency. wsimpl.
  destruct (_ <? _).
  - unfold failedSell. wsimpl. reflexivity.
  - unfold filledSell, getRiskState, updateEquity. wsimpl. reflexivity.
Qed.

(** The evaluator only reads the clock. *)
Lemma checkExitConditions_reads_only (position : Position) (price : num)
    (config : BotConfig) (w : World) :
  let w' := snd (checkExitConditions position price config w) in
  riskState w' = riskState w /\ storeCalls w' = storeCalls w /\
  eventBuffer w' = eventBuffer w /\ tokenEvents w' = tokenEvents w.
Proof. unfold checkExitConditions. wsimpl. tauto. Qed.

(** C6 (the code does not do this).  After a take-profit signal for the
    +50 % level and the sell it triggers, the level is still untriggered
    on the position, and evaluating the position again at the same price
    returns the same take-profit signal: nothing in [checkExitConditions],
    [executeSell] or the monitor sets [triggered]. *)
Theorem take_profit_level_fires_again :
  (forall config position pct source price w,
     takeProfitLevels (snd (fst (executeSell config position pct source price w)))
     = takeProfitLevels position) /\
  (let tick1 := monitorTick DEFAULT_CONFIG risenPosition (of_Z 150) calmWorld in
   let position1 := snd (fst tick1) in
   let tick2 := monitorTick DEFAULT_CONFIG position1 (of_Z 150) (snd tick1) in
   outcome (fst (fst tick1)) = Some (TAKE_PROFIT, of_Z 30) /\
   pos_status position1 = PARTIALLY_CLOSED /\
   remainingTokens position1 = of_Z 14000 /\
   map triggered (takeProfitLevels position1) = [false; false] /\
   outcome (fst (fst tick2)) = Some (TAKE_PROFIT, of_Z 30) /\
   remainingTokens (snd (fst tick2)) = of_Z 9800).
Proof.
  split; [apply executeSell_keeps_ladder|].
  vm_compute. repeat split.
Qed.

End LadderFacts.

(* ===================================================================== *)
(** ** Event buffers *)
(* ===================================================================== *)

Module EventFacts.

Import FeatureEngine EventSpec F64Facts.

(** Pruning removes a prefix of stale events and stops at the first
    fresh one. *)
Lemma pruneFront_suffix (cutoff : num) (buf : list PumpEvent) :
  exists dropped,
    buf = dropped ++ pruneFront cutoff buf /\
    Forall (fun e => (ev_timestamp e <? cutoff) = true) dropped.
Proof.
  induction buf as [|e rest (dropped & Heq & Hd)]; [exists []; split; auto|].
  cbn [pruneFront]. destruct (ev_timestamp e <? cutoff) eqn:E.
  - exists (e :: dropped). split; [cbn; congruence | constructor; assumption].
  - exists []. split; [reflexivity | constructor].
Qed.

Lemma pruneFront_head (cutoff : num) (buf : list PumpEvent) (e : PumpEvent)
    (rest : list PumpEvent) :
  pruneFront cutoff buf = e :: rest -> fresh cutoff e.
Proof.
  induction buf as [|x xs IH]; [discriminate|].
  cbn [pruneFront]. destruct (ev_timestamp x <? cutoff) eqn:E; [exact IH|].
  intros [= <- _]. exact E.
Qed.

Lemma chronological_suffix (a b : list PumpEvent) :
  chronological (a ++ b) -> chronological b.
Proof.
  unfold chronological. induction a as [|x a IH]; [auto|].
  cbn. intros H. apply IH. inversion H; assumption.
Qed.

(** In a chronological buffer, a fresh head makes every event fresh. *)
Lemma pruneFront_chronological (cutoff : num) (buf : list PumpEvent) :
  chronological buf -> Forall (fresh cutoff) (pruneFront cutoff buf).
Proof.
  intros Hs. destruct (pruneFront_suffix cutoff buf) as (dropped & Heq & _).
  rewrite Heq in Hs. apply chronological_suffix in Hs.
  destruct (pruneFront cutoff buf) as [|e rest] eqn:Hp; [constructor|].
  pose proof (pruneFront_head _ _ _ _ Hp) as He.
  constructor; [exact He|].
  inversion Hs as [|? ? _ Hall]; subst.
  eapply Forall_impl; [exact Hall|]. cbv beta. intros x Hx.
  unfold fresh in *. destruct (ev_timestamp x <? cutoff) eqn:E; [|reflexivity].
  rewrite (leb_ltb_trans _ _ _ Hx E) in He. discriminate.
Qed.

Lemma recordEvent_buffers (event : PumpEvent) (w : World) :
  let w' := snd (recordEvent event w) in
  eventBuffer w' = pruneFront (cutoffAt w) (eventBuffer w ++ [event]) /\
  tokenEvents w' !! ev_tokenMint event
  = Some (default [] (tokenEvents w !! ev_tokenMint event) ++ [event]) /\
  (forall mint, mint <> ev_tokenMint event ->
                tokenEvents w' !! mint = tokenEvents w !! mint).
Proof.
  unfold recordEvent, cutoffAt. wsimpl.
  split; [reflexivity|].
  destruct (tokenEvents w !! ev_tokenMint event) as [evs|] eqn:E.
  - rewrite E. split.
    + rewrite lookup_insert_eq. reflexivity.
    + intros mint Hne. rewrite lookup_insert_ne; [reflexivity | congruence].
  - rewrite lookup_insert_eq. split.
    + rewrite lookup_insert_eq. reflexivity.
    + intros mint Hne. rewrite !lookup_insert_ne; [reflexivity | congruence ..].
Qed.

(** Asset A's buffer still holds the buy recorded eleven minutes ago when
    the buy of asset B is inserted. *)
Lemma buffers_bounded_counterexample :
  ~ buffers_bounded_as_stated eventB worldElevenMinutesLater.
Proof.
  intros [_ H].
  assert (Hl : tokenEvents (snd (recordEvent eventB worldElevenMinutesLater))
               !! "AssetA"%string = Some [eventA]).
  { destruct (recordEvent_buffers eventB worldElevenMinutesLater) as (_ & _ & Hother).
    rewrite Hother; [|discriminate]. vm_compute. reflexivity. }
  specialize (H _ _ Hl). inversion H as [|? ? Hfresh _]; subst.
  vm_compute in Hfresh. discriminate Hfresh.
Qed.

(** C7 (amended).  After [recordEvent] the global buffer is the old
    buffer plus the event with the leading stale events removed: its
    first event is never older than the cutoff (insert time minus twice
    the five-minute window), and when the events are in non-decreasing
    timestamp order none of its events is.  The per-asset buffer of the
    event's asset gains the event and no per-asset buffer is pruned. *)
Theorem recordEvent_prunes_global_front (event : PumpEvent) (w : World) :
  let w' := snd (recordEvent event w) in
  let cutoff := cutoffAt w in
  (exists dropped,
     eventBuffer w ++ [event] = dropped ++ eventBuffer w' /\
     Forall (fun e => (ev_timestamp e <? cutoff) = true) dropped) /\
  (forall e rest, eventBuffer w' = e :: rest -> fresh cutoff e) /\
  (chronological (eventBuffer w ++ [event]) ->
     Forall (fresh cutoff) (eventBuffer w')) /\
  tokenEvents w' !! ev_tokenMint event
  = Some (default [] (tokenEvents w !! ev_tokenMint event) ++ [event]) /\
  (forall mint, mint <> ev_tokenMint event ->
                tokenEvents w' !! mint = tokenEvents w !! mint).
Proof.
  intros w' cutoff. subst w' cutoff.
  destruct (recordEvent_buffers event w) as (Hbuf & Hown & Hother).
  rewrite Hbuf. split; [apply pruneFront_suffix|].
  split; [intros e rest; apply pruneFront_head|].
  split; [apply pruneFront_chronological|].
  split; assumption.
Qed.

End EventFacts.

(* ===================================================================== *)
(** ** Slippage estimate *)
(* ===================================================================== *)

Module SlippageFacts.

Import FeatureEngine SlippageSpec Rounding.

(** The feature record carries the estimate for the requested size
    against the liquidity depth it reports. *)
Lemma features_slippage (tokenMint : string) (orderSizeSol : num) (w : World) :
  let f := fst (computeExecutionRiskFeatures tokenMint orderSizeSol w) in
  feat_estimatedSlippageBps f = estimateSlippageBps orderSizeSol (liquidityDepthSol f).
Proof.
  unfold computeExecutionRiskFeatures, bind.
  destruct (filterM _ _ w) as [recent w']. reflexivity.
Qed.

Lemma thousand_value : of_Z 1000 = S754_finite false 8796093022208000 (-43).
Proof. vm_compute. reflexivity. Qed.

(** A zero-size order has a zero estimate against any positive depth. *)
Lemma estimate_zero_size (liquidity : num) :
  (of_Z 0 <? liquidity) = true ->
  estimateSlippageBps (of_Z 0) liquidity = of_Z 0.
Proof.
  unfold estimateSlippageBps, div, mul. rewrite thousand_value.
  change (of_Z 0) with (S754_zero false).
  destruct liquidity as [[]|[]| |[] m e]; intros H; try discriminate H;
    reflexivity.
Qed.

Lemma estimate_examples :
  estimateSlippageBps (of_Z 5) (of_Z 50) = of_Z 100 /\
  estimateSlippageBps (dec 1 10) (of_Z 50) = of_Z 2 /\
  estimateSlippageBps (dec 11 100) (of_Z 50) = of_Z 2 /\
  (of_Z 2 <? of_Z 100) = true /\
  (dec 1 10 <? dec 11 100) = true.
Proof. vm_compute. repeat split. Qed.

(** Orders of 0.1 and 0.11 against a depth of 50 are both estimated at
    2 basis points: rounding to whole basis points makes the estimate a
    step function. *)
Lemma strictly_increasing_counterexample :
  ~ strictly_increasing_as_stated (of_Z 50).
Proof.
  intros H. specialize (H (dec 1 10) (dec 11 100)).
  assert (Hlt : (dec 1 10 <? dec 11 100) = true) by (vm_compute; reflexivity).
  specialize (H Hlt). vm_compute in H. discriminate H.
Qed.

Lemma thousand_normal : (2 ^ 52 <= Zpos 8796093022208000)%Z.
Proof. vm_compute. discriminate. Qed.

(** For a positive finite depth the estimate never decreases when the
    order grows: the quotient, its product with 1000 and the rounding to
    whole basis points are each monotone on the non-negative doubles. *)
Lemma estimate_monotone (liquidity size1 size2 : num) :
  is_double liquidity -> positive_finite liquidity ->
  is_double size1 -> is_double size2 ->
  (of_Z 0 <=? size1) = true -> (size1 <=? size2) = true ->
  (estimateSlippageBps size1 liquidity <=? estimateSlippageBps size2 liquidity) = true.
Proof.
  intros Hl Hpos H1 H2 H0 Hle.
  destruct liquidity as [s|s| |s p2 e2]; try contradiction.
  destruct s; [contradiction|].
  pose proof (RoundingFacts.valid_canon _ _ _ Hl) as Hc.
  pose proof (RoundingFacts.nonneg_of_zero_leb size1 H1 H0) as N1.
  pose proof (RoundingFacts.nonneg_of_leb size1 size2 N1 H2 Hle) as N2.
  unfold estimateSlippageBps. rewrite thousand_value.
  change (div ?x (S754_finite false p2 e2)) with (divBy p2 e2 x).
  change (mul ?x (S754_finite false 8796093022208000 (-43)))
    with (mulBy 8796093022208000 (-43) x).
  pose proof thousand_normal as Hn.
  assert (He : (-1074 <= -43)%Z) by lia.
  apply RoundingFacts.Math_round_mono.
  - apply RoundingFacts.mulBy_nonneg; [exact Hn | exact He |].
    apply RoundingFacts.divBy_nonneg; assumption.
  - apply RoundingFacts.mulBy_nonneg; [exact Hn | exact He |].
    apply RoundingFacts.divBy_nonneg; assumption.
  - apply RoundingFacts.mulBy_mono; [exact Hn | exact He | | |].
    + apply RoundingFacts.divBy_nonneg; assumption.
    + apply RoundingFacts.divBy_nonneg; assumption.
    + apply RoundingFacts.divBy_mono; assumption.
Qed.

(** C9 (amended).  The slippage estimate reported by
    [computeExecutionRiskFeatures] is the order size divided by the
    reported liquidity depth, times 1000, rounded to a whole number of
    basis points.  It is 0 for a zero-size order.  For a fixed positive
    finite liquidity it is non-decreasing in the order size over the
    non-negative sizes (not strictly increasing: rounding makes it a step
    function), and the estimate for size 5 at liquidity 50 exceeds the
    estimate for size 0.1 at liquidity 50. *)
Theorem estimateSlippageBps_nondecreasing
    (tokenMint : string) (orderSizeSol : num) (w : World)
    (liquidity size1 size2 : num) :
  is_double liquidity -> positive_finite liquidity ->
  is_double size1 -> is_double size2 ->
  (of_Z 0 <=? size1) = true -> (size1 <=? size2) = true ->
  let f := fst (computeExecutionRiskFeatures tokenMint orderSizeSol w) in
  feat_estimatedSlippageBps f
    = Math_round (orderSizeSol / liquidityDepthSol f * of_Z 1000)
  /\ estimateSlippageBps (of_Z 0) liquidity = of_Z 0
  /\ (estimateSlippageBps size1 liquidity <=? estimateSlippageBps size2 liquidity) = true
  /\ (estimateSlippageBps (dec 1 10) (of_Z 50) <? estimateSlippageBps (of_Z 5) (of_Z 50)) = true.
Proof.
  intros Hl Hpos H1 H2 H0 Hle f.
  split; [apply features_slippage|].
  split.
  { apply estimate_zero_size.
    destruct liquidity as [s|s| |s p2 e2]; try contradiction.
    destruct s; [contradiction | reflexivity]. }
  split; [apply estimate_monotone; assumption|].
  vm_compute. reflexivity.
Qed.

Lemma estimateSlippageBps_nondecreasing_witness :
  (estimateSlippageBps (dec 1 10) (of_Z 50)
     <=? estimateSlippageBps (dec 11 100) (of_Z 50)) = true
  /\ estimateSlippageBps (of_Z 0) (of_Z 50) = of_Z 0.
Proof.
  pose proof (estimateSlippageBps_nondecreasing "mint" (of_Z 5)
                (sampleWorld RiskGovernor.initialRiskState emptyDatabase 0 (of_Z 0))
                (of_Z 50) (dec 1 10) (dec 11 100)) as H.
  cbv zeta in H.
  destruct H as (_ & Hz & Hm & _).
  - vm_compute. reflexivity.
  - vm_compute. exact I.
  - vm_compute. reflexivity.
  - vm_compute. reflexivity.
  - vm_compute. reflexivity.
  - vm_compute. reflexivity.
  - split; [exact Hm | exact Hz].
Defined.

End SlippageFacts.

(* ===================================================================== *)
(** ** RPC health bookkeeping *)
(* ===================================================================== *)

Module RpcHealthFacts.

Import RpcHealth RpcHealthSpec.

(** X1.  [recordRpcLatency] keeps a sliding window of the last 100 samples:
    the new sample is always the newest entry; below 100 samples
    nothing is dropped, at 100 the oldest is dropped, so a history of at
    most 100 samples stays at most 100 long.  Nothing else in the module
    state changes. *)
Theorem recordRpcLatency_window (ms : num) (w : World) :
  let h := rpcLatencyHistory w in
  let w' := snd (recordRpcLatency ms w) in
  let h' := rpcLatencyHistory w' in
  (exists older, h' = older ++ [ms]) /\
  ((length h < 100)%nat -> h' = h ++ [ms]) /\
  ((length h = 100)%nat -> h' = tl h ++ [ms]) /\
  ((length h <= 100)%nat -> (length h' <= 100)%nat) /\
  recentFailures w' = recentFailures w /\
  recentAttempts w' = recentAttempts w /\
  eventBuffer w' = eventBuffer w /\ tokenEvents w' = tokenEvents w /\
  riskState w' = riskState w.
Proof.
  intros h w' h'. subst w' h'. unfold recordRpcLatency, set_rpc.
  cbn [snd rpcLatencyHistory recentFailures recentAttempts eventBuffer
       tokenEvents riskState]. fold h.
  assert (Hlen : length (h ++ [ms]) = S (length h))
    by (rewrite length_app; cbn; lia).
  rewrite Hlen.
  destruct (Nat.ltb_spec 100 (S (length h))) as [Hbig | Hsmall].
  - destruct h as [|x t]; [cbn in Hbig; lia|]. cbn [app tl length] in *.
    split; [exists t; reflexivity|].
    split; [intros; lia|]. split; [reflexivity|].
    split; [|repeat split]. intros Hle. rewrite length_app. cbn. lia.
  - split; [exists h; reflexivity|].
    split; [reflexivity|]. split; [intros; lia|].
    split; [|repeat split]. intros _. lia.
Qed.

Lemma num_eqb_eq (x y : num) : num_eqb x y = true -> x = y.
Proof.
  destruct x as [s|s| |s m e], y as [s'|s'| |s' m' e']; cbn;
    intros H; try discriminate H; try reflexivity.
  - apply Bool.eqb_prop in H. now subst.
  - apply Bool.eqb_prop in H. now subst.
  - apply andb_true_iff in H as [H He]. apply andb_true_iff in H as [Hs Hm].
    apply Bool.eqb_prop in Hs. apply Pos.eqb_eq in Hm. apply Z.eqb_eq in He.
    now subst.
Qed.

Lemma in_upto (n : nat) (z : Z) : (0 <= z <= Z.of_nat n)%Z -> In z (upto n).
Proof.
  intros Hz. unfold upto. apply in_map_iff. exists (Z.to_nat z).
  split; [lia|]. apply in_seq. lia.
Qed.

Lemma increments_ok_true : increments_ok = true.
Proof. vm_compute. reflexivity. Qed.

Lemma halves_ok_true : halves_ok = true.
Proof. vm_compute. reflexivity. Qed.

Lemma increment (a : Z) :
  (0 <= a <= 200)%Z ->
  of_Z a + of_Z 1 = of_Z (a + 1) /\
  (of_Z a + of_Z 1 >? of_Z 200) = negb (a <? 200)%Z.
Proof.
  intros Ha. pose proof increments_ok_true as H. unfold increments_ok in H.
  rewrite forallb_forall in H.
  specialize (H a (in_upto 200 a ltac:(lia))). cbv beta in H.
  apply andb_true_iff in H as [H1 H2].
  split; [apply num_eqb_eq, H1 | apply Bool.eqb_prop, H2].
Qed.

Lemma half (n : Z) :
  (0 <= n <= 201)%Z -> Math_floor (of_Z n / of_Z 2) = of_Z (n / 2).
Proof.
  intros Hn. pose proof halves_ok_true as H. unfold halves_ok in H.
  rewrite forallb_forall in H.
  apply num_eqb_eq, (H n (in_upto 201 n ltac:(lia))).
Qed.

Lemma attemptCounters_integers (success : bool) (a f : Z) :
  (0 <= f <= a)%Z -> (a <= 200)%Z ->
  attemptCounters success (of_Z f) (of_Z a)
  = (of_Z (nextFailures success a f), of_Z (nextAttempts a)).
Proof.
  intros Hf Ha. unfold attemptCounters, nextFailures, nextAttempts.
  destruct (increment a ltac:(lia)) as [Ea Ec].
  destruct (increment f ltac:(lia)) as [Ef _].
  rewrite Ec, Ea.
  destruct (Z.ltb_spec a 200) as [Hlt | Hge]; cbn [negb].
  - destruct success; cbn [negb]; [reflexivity | rewrite Ef; reflexivity].
  - destruct success; cbn [negb].
    + rewrite !half by lia. replace a with 200%Z by lia. reflexivity.
    + rewrite Ef, !half by lia. replace a with 200%Z by lia. reflexivity.
Qed.

(** X2.  As long as the two counters hold integers with
    0 <= failures <= attempts <= 200, [recordTxAttempt] keeps them so:
    below 200 attempts it adds one attempt (and one failure unless the
    attempt succeeded); at 200 it halves both, rounding down.  The
    attempts therefore never exceed 200 and the failures never exceed
    the attempts.  The latency history is not touched. *)
Theorem recordTxAttempt_counters (success : bool) (w : World) (a f : Z) :
  (0 <= f <= a)%Z -> (a <= 200)%Z ->
  recentAttempts w = of_Z a -> recentFailures w = of_Z f ->
  let w' := snd (recordTxAttempt success w) in
  recentAttempts w' = of_Z (nextAttempts a) /\
  recentFailures w' = of_Z (nextFailures success a f) /\
  (0 <= nextFailures success a f <= nextAttempts a)%Z /\
  (nextAttempts a <= 200)%Z /\
  rpcLatencyHistory w' = rpcLatencyHistory w.
Proof.
  intros Hf Ha Eatt Efail w'. subst w'.
  unfold recordTxAttempt, set_rpc.
  cbn [snd recentAttempts recentFailures rpcLatencyHistory].
  rewrite Eatt, Efail, (attemptCounters_integers success a f Hf Ha).
  cbn [fst snd].
  split; [reflexivity|]. split; [reflexivity|].
  unfold nextFailures, nextAttempts.
  destruct (Z.ltb_spec a 200); destruct success; cbv beta iota zeta;
    (split; [|split; [|reflexivity]]); Z.div_mod_to_equations; lia.
Qed.

Lemma recordTxAttempt_counters_witness :
  recentAttempts (snd (recordTxAttempt false busyWorld)) = of_Z 100 /\
  recentFailures (snd (recordTxAttempt false busyWorld)) = of_Z 4.
Proof.
  pose proof (recordTxAttempt_counters false busyWorld 200 7) as H.
  cbv zeta in H.
  destruct H as (H1 & H2 & _).
  - lia.
  - lia.
  - reflexivity.
  - reflexivity.
  - split; [exact H1 | exact H2].
Defined.

End RpcHealthFacts.

(* ===================================================================== *)
(** ** Execution-risk features: bounds and defaults *)
(* ===================================================================== *)

Module ExecutionFacts.

Import FeatureEngine RpcHealth.

Lemma Math_max_cases (a b : num) :
  Math_max a b = a \/ Math_max a b = b \/ Math_max a b = NaN.
Proof.
  unfold Math_max. destruct (is_nan a || is_nan b); [auto|].
  destruct (a <? b); [auto|]. destruct (b <? a); [auto|].
  destruct a as [[]| | |]; auto.
Qed.

Lemma Math_min_cases (a b : num) :
  Math_min a b = a \/ Math_min a b = b \/ Math_min a b = NaN.
Proof.
  unfold Math_min. destruct (is_nan a || is_nan b); [auto|].
  destruct (a <? b); [auto|]. destruct (b <? a); [auto|].
  destruct a as [[]| | |]; auto.
Qed.

Lemma Math_max_not_below_l (a b : num) : (Math_max a b <? a) = false.
Proof.
  unfold Math_max. destruct (is_nan a || is_nan b); [reflexivity|].
  destruct (a <? b) eqn:E1; [apply F64Facts.ltb_asym, E1|].
  destruct (b <? a) eqn:E2; [apply F64Facts.ltb_irrefl|].
  destruct a as [[]| | |]; first [exact E2 | apply F64Facts.ltb_irrefl].
Qed.

Lemma Math_max_not_below_r (a b : num) : (Math_max a b <? b) = false.
Proof.
  unfold Math_max. destruct (is_nan a || is_nan b); [reflexivity|].
  destruct (a <? b) eqn:E1; [apply F64Facts.ltb_irrefl|].
  destruct (b <? a) eqn:E2; [exact E1|].
  destruct a as [[]| | |]; first [exact E1 | apply F64Facts.ltb_irrefl].
Qed.

Lemma Math_min_not_above_l (a b : num) : (a <? Math_min a b) = false.
Proof.
  unfold Math_min. destruct (is_nan a || is_nan b);
    [destruct a; reflexivity|].
  destruct (a <? b) eqn:E1; [apply F64Facts.ltb_irrefl|].
  destruct (b <? a) eqn:E2; [exact E1|].
  destruct a as [[]| | |]; first [exact E1 | apply F64Facts.ltb_irrefl].
Qed.

(** The two derived figures as the function computes them. *)
Lemma features_depth_and_spread (tokenMint : string) (orderSizeSol : num) (w : World) :
  let f := fst (computeExecutionRiskFeatures tokenMint orderSizeSol w) in
  (exists recentBuys, liquidityDepthSol f = Math_max (recentBuys * of_Z 5) (of_Z 1)) /\
  spreadBps f
  = Math_max (of_Z 50) (Math_min (of_Z 1000) (of_Z 5000 / liquidityDepthSol f)).
Proof.
  unfold computeExecutionRiskFeatures, bind.
  destruct (filterM _ _ w) as [recent w'].
  split; [eexists; reflexivity | reflexivity].
Qed.

Lemma not_below_at_least (x lo : num) :
  is_nan lo = false -> (x <? lo) = false -> is_nan x = false -> (lo <=? x) = true.
Proof. intros Hlo Hlt Hx. apply F64Facts.leb_total; assumption. Qed.

Lemma not_above_at_most (x hi : num) :
  is_nan hi = false -> (hi <? x) = false -> is_nan x = false -> (x <=? hi) = true.
Proof. intros Hhi Hlt Hx. apply F64Facts.leb_total; assumption. Qed.

(** X3.  Whatever the events, the order size and the RPC history, the
    liquidity depth reported by [computeExecutionRiskFeatures] is never
    below 1 SOL and the spread proxy is never below 50 or above 1000
    basis points: each is either NaN or inside its bounds. *)
Theorem execution_features_bounds (tokenMint : string) (orderSizeSol : num)
    (w : World) :
  let f := fst (computeExecutionRiskFeatures tokenMint orderSizeSol w) in
  (liquidityDepthSol f <? of_Z 1) = false /\
  (spreadBps f <? of_Z 50) = false /\
  (of_Z 1000 <? spreadBps f) = false /\
  (is_nan (liquidityDepthSol f) = false -> (of_Z 1 <=? liquidityDepthSol f) = true) /\
  (is_nan (spreadBps f) = false ->
     (of_Z 50 <=? spreadBps f) = true /\ (spreadBps f <=? of_Z 1000) = true).
Proof.
  intros f.
  destruct (features_depth_and_spread tokenMint orderSizeSol w) as [[rb Hl] Hs].
  fold f in Hl, Hs.
  assert (H1 : (liquidityDepthSol f <? of_Z 1) = false)
    by (rewrite Hl; apply Math_max_not_below_r).
  assert (H2 : (spreadBps f <? of_Z 50) = false)
    by (rewrite Hs; apply Math_max_not_below_l).
  assert (H3 : (of_Z 1000 <? spreadBps f) = false).
  { rewrite Hs.
    destruct (Math_max_cases (of_Z 50)
                (Math_min (of_Z 1000) (of_Z 5000 / liquidityDepthSol f)))
      as [-> | [-> | ->]].
    - vm_compute. reflexivity.
    - apply Math_min_not_above_l.
    - reflexivity. }
  split; [exact H1|]. split; [exact H2|]. split; [exact H3|]. split.
  - apply not_below_at_least; [reflexivity | exact H1].
  - intros Hn. split.
    + apply not_below_at_least; [reflexivity | exact H2 | exact Hn].
    + apply not_above_at_most; [reflexivity | exact H3 | exact Hn].
Qed.

Lemma unknown_token_features (tokenMint : string) (orderSizeSol : num) (w : World) :
  tokenEvents w !! tokenMint = None ->
  let out := computeExecutionRiskFeatures tokenMint orderSizeSol w in
  snd out = w /\
  liquidityDepthSol (fst out) = Math_max (of_Z 0 * of_Z 5) (of_Z 1) /\
  spreadBps (fst out)
  = Math_max (of_Z 50)
      (Math_min (of_Z 1000) (of_Z 5000 / Math_max (of_Z 0 * of_Z 5) (of_Z 1))) /\
  feat_estimatedSlippageBps (fst out)
  = estimateSlippageBps orderSizeSol (Math_max (of_Z 0 * of_Z 5) (of_Z 1)).
Proof.
  intros Hnone. unfold computeExecutionRiskFeatures. rewrite Hnone.
  repeat split.
Qed.

Lemma unit_depth : Math_max (of_Z 0 * of_Z 5) (of_Z 1) = of_Z 1.
Proof. vm_compute. reflexivity. Qed.

Lemma widest_spread :
  Math_max (of_Z 50) (Math_min (of_Z 1000) (of_Z 5000 / of_Z 1)) = of_Z 1000.
Proof. vm_compute. reflexivity. Qed.

Lemma unknown_token_gets_floor_values_aux (tokenMint : string) (orderSizeSol : num)
    (w : World) :
  tokenEvents w !! tokenMint = None ->
  let f := fst (computeExecutionRiskFeatures tokenMint orderSizeSol w) in
  liquidityDepthSol f = of_Z 1 /\
  spreadBps f = of_Z 1000 /\
  feat_estimatedSlippageBps f = estimateSlippageBps orderSizeSol (of_Z 1).
Proof.
  intros Hnone f.
  destruct (unknown_token_features tokenMint orderSizeSol w Hnone)
    as (_ & H2 & H3 & H4). fold f in H2, H3, H4.
  rewrite unit_depth in H2, H3, H4. rewrite widest_spread in H3.
  repeat split; assumption.
Qed.

(** X4.  For a token the engine has recorded no event for (the key is missing
    from the per-token map), [computeExecutionRiskFeatures] reports the
    floor values: a liquidity depth of exactly 1 SOL, a spread of exactly
    1000 basis points, and the slippage estimate of the order against a
    depth of 1.  The clock is not read and the module state is
    unchanged. *)
Theorem unknown_token_gets_floor_values (tokenMint : string) (orderSizeSol : num)
    (w : World) :
  tokenEvents w !! tokenMint = None ->
  let out := computeExecutionRiskFeatures tokenMint orderSizeSol w in
  snd out = w /\
  liquidityDepthSol (fst out) = of_Z 1 /\
  spreadBps (fst out) = of_Z 1000 /\
  feat_estimatedSlippageBps (fst out) = estimateSlippageBps orderSizeSol (of_Z 1).
Proof.
  intros Hnone out.
  destruct (unknown_token_features tokenMint orderSizeSol w Hnone) as (H1 & _).
  destruct (unknown_token_gets_floor_values_aux tokenMint orderSizeSol w Hnone)
    as (H2 & H3 & H4).
  repeat split; assumption.
Qed.

Lemma unknown_token_gets_floor_values_witness :
  liquidityDepthSol
    (fst (computeExecutionRiskFeatures "nobody" (of_Z 2)
            (sampleWorld RiskGovernor.initialRiskState emptyDatabase 0 (of_Z 0))))
  = of_Z 1.
Proof.
  pose proof (unknown_token_gets_floor_values "nobody" (of_Z 2)
                (sampleWorld RiskGovernor.initialRiskState emptyDatabase 0 (of_Z 0)))
    as H.
  cbv zeta in H. destruct H as (_ & H & _); [reflexivity | exact H].
Defined.

Lemma cold_start_features (tokenMint : string) (orderSizeSol : num) (w : World) :
  tokenEvents w !! tokenMint = None ->
  rpcLatencyHistory w = [] ->
  recentAttempts w = of_Z 0 ->
  let f := fst (computeExecutionRiskFeatures tokenMint orderSizeSol w) in
  let est := estimateSlippageBps orderSizeSol (Math_max (of_Z 0 * of_Z 5) (of_Z 1)) in
  rpcLatencyMs f = of_Z 200 /\
  recentFailureRate f = (if of_Z 0 >? of_Z 0 then recentFailures w / of_Z 0 else of_Z 0) /\
  executionRisk f
  = fst (if (est >? of_Z 500) || (of_Z 200 >? of_Z 2000)
            || ((if of_Z 0 >? of_Z 0 then recentFailures w / of_Z 0 else of_Z 0)
                >? dec 2 10)
         then (RISK_HIGH, TUndefined)
         else if (est >? of_Z 200) || (of_Z 200 >? of_Z 1000)
                 || ((if of_Z 0 >? of_Z 0 then recentFailures w / of_Z 0 else of_Z 0)
                     >? dec 1 10)
         then (RISK_MEDIUM, TUndefined)
         else (RISK_LOW, TUndefined)).
Proof.
  intros Hnone Hhist Hatt. unfold computeExecutionRiskFeatures.
  rewrite Hnone, Hhist, Hatt.
  cbn [default from_option id filterM bind ret fst snd map sum fold_left length
       Nat.ltb Nat.leb rpcLatencyMs recentFailureRate executionRisk].
  split; [reflexivity|]. split; [reflexivity|].
  match goal with |- fst (if ?c then _ else if ?d then _ else _) = _ =>
    destruct c, d; reflexivity end.
Qed.

Lemma idle_rates :
  (of_Z 0 >? of_Z 0) = false /\ (of_Z 200 >? of_Z 2000) = false /\
  (of_Z 200 >? of_Z 1000) = false /\ (of_Z 0 >? dec 2 10) = false /\
  (of_Z 0 >? dec 1 10) = false.
Proof. vm_compute. repeat split. Qed.

(** X5.  After [clearBuffers], the features of any token are those of an idle
    engine: liquidity depth 1, spread 1000, the default latency of 200 ms
    and a failure rate of 0 (neither average divides by zero), and the
    risk class is decided by the slippage estimate alone: HIGH above
    500, MEDIUM above 200, LOW otherwise. *)
Theorem features_after_clearBuffers (tokenMint : string) (orderSizeSol : num)
    (w : World) :
  let f := fst (computeExecutionRiskFeatures tokenMint orderSizeSol
                  (snd (clearBuffers w))) in
  let est := estimateSlippageBps orderSizeSol (of_Z 1) in
  liquidityDepthSol f = of_Z 1 /\
  spreadBps f = of_Z 1000 /\
  feat_estimatedSlippageBps f = est /\
  rpcLatencyMs f = of_Z 200 /\
  recentFailureRate f = of_Z 0 /\
  executionRisk f
  = (if est >? of_Z 500 then RISK_HIGH
     else if est >? of_Z 200 then RISK_MEDIUM else RISK_LOW).
Proof.
  intros f est.
  assert (Hnone : tokenEvents (snd (clearBuffers w)) !! tokenMint = None)
    by apply lookup_empty.
  destruct (unknown_token_gets_floor_values_aux tokenMint orderSizeSol _ Hnone)
    as (H1 & H2 & H3).
  destruct (cold_start_features tokenMint orderSizeSol (snd (clearBuffers w))
              Hnone eq_refl eq_refl) as (H4 & H5 & H6).
  fold f in H1, H2, H3, H4, H5, H6.
  destruct idle_rates as (I1 & I2 & I3 & I4 & I5).
  rewrite unit_depth in H6. fold est in H6.
  rewrite I1 in H5, H6. rewrite I2, I3, I4, I5 in H6.
  rewrite !orb_false_r in H6.
  split; [exact H1|]. split; [exact H2|]. split; [exact H3|].
  split; [exact H4|]. split; [exact H5|].
  rewrite H6. destruct (est >? of_Z 500), (est >? of_Z 200); reflexivity.
Qed.

End ExecutionFacts.

(* ===================================================================== *)
(** ** Risk governor: store failures, NaN sizes, start-up *)
(* ===================================================================== *)

Module RiskEdgeFacts.

Import RiskGovernor RiskGovernorInit.

(** X6.  [refreshRiskCounters] swallows a failing store query but keeps what
    it had assigned before: if the open-position query throws, the world
    is unchanged; if a later query throws, the position count and the
    exposure are already refreshed while the counters from that query
    on keep their old values.  With an equity that is not above 0 the
    exposure percentage is set to 0 instead of dividing. *)
Theorem refreshRiskCounters_partial (w : World) :
  let db := database w in
  let rs := riskState w in
  let w' := snd (refreshRiskCounters w) in
  let rs' := riskState w' in
  (getOpenPositions db = None -> w' = w) /\
  (forall ps, getOpenPositions db = Some ps ->
     openPositionCount rs' = count ps /\
     currentExposureSol rs'
     = fold_left (fun s p => s + entryAmountSol p) ps (of_Z 0) /\
     ((equitySol rs >? of_Z 0) = false -> currentExposurePct rs' = of_Z 0) /\
     ((equitySol rs >? of_Z 0) = true ->
        currentExposurePct rs' = currentExposureSol rs' / equitySol rs * of_Z 100) /\
     (getTodayTradeCount db = None ->
        todayTradeCount rs' = todayTradeCount rs /\
        hourTradeCount rs' = hourTradeCount rs /\
        consecutiveLosses rs' = consecutiveLosses rs) /\
     (forall t, getTodayTradeCount db = Some t ->
        todayTradeCount rs' = t /\
        (getHourTradeCount db = None ->
           hourTradeCount rs' = hourTradeCount rs /\
           consecutiveLosses rs' = consecutiveLosses rs) /\
        (forall h, getHourTradeCount db = Some h ->
           hourTradeCount rs' = h /\
           (getConsecutiveLosses db = None ->
              consecutiveLosses rs' = consecutiveLosses rs) /\
           (forall l, getConsecutiveLosses db = Some l ->
              consecutiveLosses rs' = l)))).
Proof.
  intros db rs w' rs'. subst db rs w' rs'. unfold refreshRiskCounters.
  destruct (getOpenPositions (database w)) as [ps0|];
    [|split; [reflexivity | intros ps H; discriminate H]].
  split; [intros H; discriminate H|]. intros ps [= <-].
  destruct (getTodayTradeCount (database w)) as [t0|];
    destruct (getHourTradeCount (database w)) as [h0|];
    destruct (getConsecutiveLosses (database w)) as [l0|];
    cbn [snd riskState set_world_risk with_counts with_exposure
         openPositionCount currentExposureSol currentExposurePct
         todayTradeCount hourTradeCount consecutiveLosses];
    (split; [reflexivity|]); (split; [reflexivity|]);
    (split; [intros ->; reflexivity|]); (split; [intros ->; reflexivity|]);
    (split; [intros H; first [discriminate H | repeat split]|]);
    intros t Ht; try discriminate Ht; injection Ht as <-;
    (split; [reflexivity|]);
    (split; [intros H; first [discriminate H | repeat split]|]);
    intros h Hh; try discriminate Hh; injection Hh as <-;
    (split; [reflexivity|]);
    (split; [intros H; first [discriminate H | reflexivity]|]);
    intros l Hl; try discriminate Hl; injection Hl as <-; reflexivity.
Qed.

Lemma add_nan_r (x : num) : x + NaN = NaN.
Proof. destruct x as [[]|[]| |[] ? ?]; reflexivity. Qed.

Lemma div_nan_l (y : num) : NaN / y = NaN.
Proof. reflexivity. Qed.

Lemma mul_nan_l (y : num) : NaN * y = NaN.
Proof. reflexivity. Qed.

Lemma leb_nan_l (y : num) : (NaN <=? y) = false.
Proof. reflexivity. Qed.

Lemma ltb_nan_l (y : num) : (NaN <? y) = false.
Proof. reflexivity. Qed.

Lemma ltb_nan_r (x : num) : (x <? NaN) = false.
Proof. destruct x; reflexivity. Qed.

Lemma leb_nan_r (x : num) : (x <=? NaN) = false.
Proof. destruct x; reflexivity. Qed.

Lemma nan_size_checks (config : BotConfig) (w : World) :
  let res := fst (checkPreTradeRisk NaN config w) in
  allowed res = false /\
  (exists d, In d (details res) /\ check d = "Exposure limit"%string /\
             passed d = false) /\
  (exists d, In d (details res) /\ check d = "Trade size"%string /\
             passed d = false).
Proof.
  unfold checkPreTradeRisk, bind, get_risk, ret.
  destruct (refreshRiskCounters w) as [[] w1].
  cbn [fst snd allowed details forallb passed].
  rewrite add_nan_r, !div_nan_l, !mul_nan_l, !leb_nan_l.
  split; [rewrite !andb_false_r; reflexivity|]. split.
  - eexists. split; [right; right; left; reflexivity|]. split; reflexivity.
  - eexists. split; [right; right; right; left; reflexivity|]. split; reflexivity.
Qed.

(** X7.  A trade size of NaN is never allowed, whatever the configuration,
    the risk state and the store: the exposure and the trade-size checks
    both fail (a comparison with NaN is false) and the reason names
    both. *)
Theorem nan_trade_size_blocked (config : BotConfig) (w : World) :
  let res := fst (checkPreTradeRisk NaN config w) in
  allowed res = false /\
  Substring "Exposure limit" (reason res) /\
  Substring "Trade size" (reason res).
Proof.
  intros res.
  destruct (nan_size_checks config w) as (H & (d1 & In1 & N1 & F1) & (d2 & In2 & N2 & F2)).
  fold res in H, In1, In2.
  split; [exact H|]. split.
  - rewrite <- N1. apply (PreTradeFacts.reason_names_failures NaN config w d1 In1 F1).
  - rewrite <- N2. apply (PreTradeFacts.reason_names_failures NaN config w d2 In2 F2).
Qed.

(** X8.  [initRiskState] followed by [updateEquity]: both equity figures
    become the configured paper starting equity and the limits are
    installed from the configuration, each of the nine numeric limits
    from its setting and every take-profit level untriggered with the
    configured gain and share.  The start-up neither lifts a halt nor
    resets the day's PnL, drawdown, exposure or trade counters, and it
    does not touch the store.  A following [updateEquity] measures the
    day's PnL against the configured starting equity and keeps the
    installed limits. *)
Theorem initRiskState_then_updateEquity (config : BotConfig) (sol : num) (w : World) :
  let rs := riskState w in
  let w1 := snd (initRiskState config w) in
  let rs1 := riskState w1 in
  let rs2 := riskState (snd (updateEquity sol w1)) in
  equitySol rs1 = paperStartingEquity config /\
  startOfDayEquity rs1 = paperStartingEquity config /\
  (lim_maxRiskPerTradePct (limits rs1) = riskPerTradePct config /\
   lim_maxExposurePct (limits rs1) = maxExposurePct config /\
   lim_dailyMaxDrawdownPct (limits rs1) = dailyMaxDrawdownPct config /\
   lim_maxTradesPerHour (limits rs1) = maxTradesPerHour config /\
   lim_maxTradesPerDay (limits rs1) = maxTradesPerDay config /\
   lim_maxConsecutiveLosses (limits rs1) = maxConsecutiveLosses config /\
   lim_stopLossPct (limits rs1) = stopLossPct config /\
   lim_trailingStopPct (limits rs1) = trailingStopPct config /\
   lim_timeStopMinutes (limits rs1) = timeStopMinutes config) /\
  Forall (fun l => triggered l = false) (lim_takeProfitLevels (limits rs1)) /\
  map (fun l => (pctGain l, sellPct l)) (lim_takeProfitLevels (limits rs1))
  = cfg_takeProfitLevels config /\
  (todayPnlSol rs1 = todayPnlSol rs /\ todayPnlPct rs1 = todayPnlPct rs /\
   todayDrawdownPct rs1 = todayDrawdownPct rs /\
   currentExposureSol rs1 = currentExposureSol rs /\
   currentExposurePct rs1 = currentExposurePct rs /\
   openPositionCount rs1 = openPositionCount rs /\
   todayTradeCount rs1 = todayTradeCount rs /\
   hourTradeCount rs1 = hourTradeCount rs /\
   consecutiveLosses rs1 = consecutiveLosses rs /\
   isHalted rs1 = isHalted rs /\ haltReason rs1 = haltReason rs /\
   haltedAt rs1 = haltedAt rs /\ resumeAt rs1 = resumeAt rs) /\
  (storeCalls w1 = storeCalls w /\ database w1 = database w) /\
  todayPnlSol rs2 = sol - paperStartingEquity config /\
  todayPnlPct rs2
  = (sol - paperStartingEquity config) / paperStartingEquity config * of_Z 100 /\
  equitySol rs2 = sol /\
  startOfDayEquity rs2 = paperStartingEquity config /\
  limits rs2 = limits rs1 /\
  isHalted rs2 = isHalted rs.
Proof.
  intros rs w1 rs1 rs2. subst rs w1 rs1 rs2.
  unfold initRiskState, updateEquity, modify_risk.
  cbn [snd riskState set_world_risk with_equity configuredLimits
       equitySol startOfDayEquity limits lim_takeProfitLevels isHalted resumeAt
       todayDrawdownPct todayTradeCount consecutiveLosses todayPnlSol todayPnlPct
       lim_maxRiskPerTradePct lim_maxExposurePct lim_dailyMaxDrawdownPct
       lim_maxTradesPerHour lim_maxTradesPerDay lim_maxConsecutiveLosses
       lim_stopLossPct lim_trailingStopPct lim_timeStopMinutes
       currentExposureSol currentExposurePct openPositionCount hourTradeCount
       haltReason haltedAt storeCalls database].
  repeat match goal with |- _ /\ _ => split end; try reflexivity.
  - apply List.Forall_forall. intros l Hl. apply in_map_iff in Hl as [[g s] [<- _]].
    reflexivity.
  - rewrite map_map. cbn [pctGain sellPct fst snd].
    induction (cfg_takeProfitLevels config) as [|[g s] rest IH];
      [reflexivity | cbn [map fst snd]; rewrite IH; reflexivity].
Qed.

End RiskEdgeFacts.

(* ===================================================================== *)
(** ** Exit evaluation on an undefined profit *)
(* ===================================================================== *)

Module ExitEdgeFacts.

Import StrategyEngine.

Lemma sub_nan_l (y : num) : NaN - y = NaN.
Proof. reflexivity. Qed.

Lemma geb_nan_l (y : num) : (NaN >=? y) = false.
Proof. destruct y; reflexivity. Qed.

Lemma firstTakeProfit_nan (levels : list TakeProfitLevel) :
  firstTakeProfit NaN levels = None.
Proof.
  induction levels as [|l rest IH]; [reflexivity|].
  cbn [firstTakeProfit]. rewrite geb_nan_l, andb_false_r. exact IH.
Qed.

Lemma nan_pnl_no_exit (now : num) (position : Position) (currentPrice : num)
    (config : BotConfig) :
  pnlPctOf position currentPrice = NaN ->
  checkExitConditionsAt now position currentPrice config = None.
Proof.
  intros Hnan. unfold checkExitConditionsAt. rewrite Hnan.
  cbv zeta.
  change (NaN <=? - stopLossPct config) with false. cbv iota.
  rewrite firstTakeProfit_nan.
  change (NaN >? of_Z 0) with (of_Z 0 <? NaN).
  rewrite (RiskEdgeFacts.ltb_nan_r (of_Z 0)), andb_false_r.
  change (NaN <? of_Z 10) with false. rewrite andb_false_r. reflexivity.
Qed.

Lemma nan_price_pnl (position : Position) : pnlPctOf position NaN = NaN.
Proof. reflexivity. Qed.

Lemma zero_over_zero_pnl (position : Position) :
  entryPrice position = of_Z 0 -> pnlPctOf position (of_Z 0) = NaN.
Proof. unfold pnlPctOf. intros ->. vm_compute. reflexivity. Qed.

(** X9.  When the profit percentage of a position is NaN, no exit rule fires:
    not the stop-loss, no take-profit level, not the trailing stop and
    not even the time stop, however long the position has been held.
    This is the case for a NaN price and for a zero price on a position
    entered at price zero. *)
Theorem undefined_pnl_never_exits (position : Position) (config : BotConfig)
    (w : World) :
  (forall now price, pnlPctOf position price = NaN ->
     checkExitConditionsAt now position price config = None) /\
  fst (checkExitConditions position NaN config w) = None /\
  (entryPrice position = of_Z 0 ->
   fst (checkExitConditions position (of_Z 0) config w) = None).
Proof.
  split; [intros now price; apply nan_pnl_no_exit|]. split.
  - unfold checkExitConditions. wsimpl. apply nan_pnl_no_exit, nan_price_pnl.
  - intros H0. unfold checkExitConditions. wsimpl.
    apply nan_pnl_no_exit, zero_over_zero_pnl, H0.
Qed.

End ExitEdgeFacts.

(* ===================================================================== *)
(** ** Paper engine: failed sells, filled buys, proceeds *)
(* ===================================================================== *)

Module PaperEdgeFacts.

Import RiskGovernor PaperTradingEngine SellSpec PaperSpec.

(** X10.  When the failure draw of the simulated sell fires, [executeSell]
    returns a FAILED order for zero tokens and zero SOL quoting the
    current price, leaves the position exactly as it was handed in, and
    does not touch the risk state; the only call made to the store
    saves that order. *)
Theorem executeSell_failure_atomic (config : BotConfig) (position : Position)
    (pct : num) (source : OrderSource) (price : num) (w : World) :
  (rng w (S (rngDraws w)) <? paperFailureRate config * dec 5 10) = true ->
  let out := executeSell config position pct source price w in
  let order := fst (fst out) in
  ord_status order = FAILED /\
  ord_errorMessage order = Some "Simulated sell failure"%string /\
  ord_amountSol order = of_Z 0 /\ ord_amountTokens order = of_Z 0 /\
  ord_estimatedPrice order = price /\
  snd (fst out) = position /\
  riskState (snd out) = riskState w /\
  storeCalls (snd out) = storeCalls w ++ [SaveOrder order].
Proof.
  intros Hfail out order. subst order out.
  unfold executeSell, simulateLatency. wsimpl. rewrite Hfail.
  unfold failedSell. wsimpl. repeat split.
Qed.

Lemma executeSell_failure_atomic_witness :
  let w := sampleWorld initialRiskState emptyDatabase 1762000000000 (dec 1 100) in
  ord_status (fst (fst (executeSell DEFAULT_CONFIG oneTokenPosition (of_Z 30)
                          TAKE_PROFIT (dec 1 1000000) w))) = FAILED /\
  snd (fst (executeSell DEFAULT_CONFIG oneTokenPosition (of_Z 30)
              TAKE_PROFIT (dec 1 1000000) w)) = oneTokenPosition.
Proof.
  intros w.
  pose proof (executeSell_failure_atomic DEFAULT_CONFIG oneTokenPosition (of_Z 30)
                TAKE_PROFIT (dec 1 1000000) w) as H.
  cbv zeta in H. destruct H as (H1 & _ & _ & _ & _ & H6 & _).
  - vm_compute. reflexivity.
  - split; [exact H1 | exact H6].
Defined.

(** X11.  A sell that goes through credits the equity with exactly the net
    proceeds recorded on the order, the fee on the order is 0.3 % of the
    gross proceeds, and the store sees the order first and the updated
    position second. *)
Theorem executeSell_proceeds (config : BotConfig) (position : Position)
    (pct : num) (source : OrderSource) (price : num) (w : World) :
  (rng w (S (rngDraws w)) <? paperFailureRate config * dec 5 10) = false ->
  let out := executeSell config position pct source price w in
  let order := fst (fst out) in
  exists executedPrice,
    ord_executedPrice order = Some executedPrice /\
    ord_feeSol order = Some (ord_amountTokens order * executedPrice * dec 3 1000) /\
    ord_amountSol order
    = ord_amountTokens order * executedPrice
      - ord_amountTokens order * executedPrice * dec 3 1000 /\
    equitySol (riskState (snd out))
    = equitySol (riskState w) + ord_amountSol order /\
    storeCalls (snd out)
    = storeCalls w ++ [SaveOrder order; SavePosition (snd (fst out))].
Proof.
  intros Hok out order. subst order out.
  unfold executeSell, simulateLatency. wsimpl. rewrite Hok.
  unfold filledSell, getRiskState, updateEquity. wsimpl.
  eexists. split; [reflexivity|]. split; [reflexivity|].
  split; [reflexivity|]. split; [reflexivity|].
  rewrite <- app_assoc. reflexivity.
Qed.

Lemma executeSell_proceeds_witness :
  exists order position',
    storeCalls (snd (executeSell DEFAULT_CONFIG oneTokenPosition (of_Z 30)
                       TAKE_PROFIT (dec 1 1000000) calmWorld))
    = storeCalls calmWorld ++ [SaveOrder order; SavePosition position'].
Proof.
  pose proof (executeSell_proceeds DEFAULT_CONFIG oneTokenPosition (of_Z 30)
                TAKE_PROFIT (dec 1 1000000) calmWorld) as H.
  cbv zeta in H. destruct H as (px & _ & _ & _ & _ & H).
  - vm_compute. reflexivity.
  - eexists. eexists. exact H.
Defined.

(** X12.  A buy whose failure draw passes is always recorded as CONFIRMED,
    partial fills included, and opens a position that mirrors the order:
    same SOL amount, entry price and token count, nothing sold yet, an
    untriggered ladder with the configured levels, the stop-loss price
    as the initial trailing stop.  The store sees the order first and
    the position second, and the equity is debited by the SOL amount
    and by the fee of 0.3 % of it. *)
Theorem executeBuy_filled (config : BotConfig) (plan : ExecutionPlan)
    (decisionCardId : string) (w : World) :
  (rng w (S (rngDraws w)) <? paperFailureRate config) = false ->
  let out := executeBuy config plan decisionCardId w in
  let order := fst out in
  ord_status order = CONFIRMED /\
  ord_feeSol order = Some (ord_amountSol order * dec 3 1000) /\
  ord_executedPrice order = Some (ord_estimatedPrice order) /\
  equitySol (riskState (snd out))
  = equitySol (riskState w) - ord_amountSol order - ord_amountSol order * dec 3 1000 /\
  exists position,
    storeCalls (snd out) = storeCalls w ++ [SaveOrder order; SavePosition position] /\
    pos_status position = OPEN /\
    pos_tokenMint position = ord_tokenMint order /\
    pos_decisionCardId position = decisionCardId /\
    entryAmountSol position = ord_amountSol order /\
    entryPrice position = ord_estimatedPrice order /\
    remainingTokens position = ord_amountTokens order /\
    totalTokensBought position = ord_amountTokens order /\
    totalTokensSold position = of_Z 0 /\
    realizedPnlSol position = of_Z 0 /\
    trailingStopPrice position = stopLossPrice position /\
    stopLossPrice position
    = entryPrice position * (of_Z 1 - stopLossPct config / of_Z 100) /\
    highWaterMark position = entryPrice position /\
    Forall (fun l => triggered l = false) (takeProfitLevels position) /\
    map (fun l => (pctGain l, sellPct l)) (takeProfitLevels position)
    = cfg_takeProfitLevels config.
Proof.
  intros Hok out order. subst order out.
  unfold executeBuy, simulateLatency. wsimpl. rewrite Hok.
  unfold filledBuy. wsimpl.
  match goal with |- context [rng w ?k <? dec 9 10] =>
    destruct (rng w k <? dec 9 10) end;
    wsimpl;
    match goal with |- context [if ?c then CONFIRMED else CONFIRMED] =>
      destruct c end;
    cbn [ord_status orderStatus_eqb]; unfold getRiskState, updateEquity; wsimpl;
    (split; [reflexivity|]); (split; [reflexivity|]); (split; [reflexivity|]);
    (split; [reflexivity|]);
    eexists; (split; [rewrite <- app_assoc; reflexivity|]);
    cbn [pos_status pos_tokenMint pos_decisionCardId entryAmountSol entryPrice
         remainingTokens totalTokensBought totalTokensSold realizedPnlSol
         trailingStopPrice stopLossPrice highWaterMark takeProfitLevels
         ord_tokenMint ord_amountSol ord_estimatedPrice ord_amountTokens];
    repeat match goal with |- _ /\ _ => split end; try reflexivity;
    try (apply List.Forall_forall; intros l Hl;
         apply in_map_iff in Hl as [[g s] [<- _]]; reflexivity);
    (rewrite map_map; cbn [pctGain sellPct fst snd];
     induction (cfg_takeProfitLevels config) as [|[g s] rest IH];
     [reflexivity | cbn [map fst snd]; rewrite IH; reflexivity]).
Qed.

Lemma executeBuy_filled_witness :
  ord_status (fst (executeBuy DEFAULT_CONFIG samplePlan sampleDecisionId calmWorld))
  = CONFIRMED.
Proof.
  pose proof (executeBuy_filled DEFAULT_CONFIG samplePlan sampleDecisionId calmWorld)
    as H.
  cbv zeta in H. destruct H as (H & _).
  - vm_compute. reflexivity.
  - exact H.
Defined.

End PaperEdgeFacts.

(* ===================================================================== *)
(** ** Regime and traction features *)
(* ===================================================================== *)

Module RegimeFacts.

Import FeatureEngine RegimeEngine FeatureSpec.

Lemma computeRegimeFeatures_runs (config : EntryConfig) (w : World) :
  fst (computeRegimeFeatures config w)
  = regimeOf config (clock w (clockReads w) - EVENT_WINDOW_MS) (eventBuffer w).
Proof. reflexivity. Qed.

Lemma regime_of_verdict (config : EntryConfig) (ws : num) (buf : list PumpEvent) :
  let f := regimeOf config ws buf in
  regime f = (if regimeScore f >=? of_Z 70 then MANIA
              else if regimeScore f >=? regimeScoreThreshold config then NORMAL
              else COLD) /\
  marketRiskOn f = (regimeScore f >=? regimeScoreThreshold config).
Proof.
  unfold regimeOf. cbv zeta. cbn [regime regimeScore marketRiskOn].
  split; [|reflexivity].
  match goal with |- fst (if ?c then _ else if ?d then _ else _) = _ =>
    destruct c, d; reflexivity end.
Qed.

(** X13.  The regime label and the risk-on flag of [computeRegimeFeatures]
    agree: the regime is MANIA exactly when the score is at least 70,
    NORMAL exactly when it is below 70 and risk-on, and COLD exactly
    when it is below 70 and risk-off, so a COLD regime is never
    risk-on; the flag itself is "score at least the configured
    threshold".  (With a threshold above 70 a MANIA regime can be
    risk-off.) *)
Theorem regime_agrees_with_risk_flag (config : EntryConfig) (w : World) :
  let f := fst (computeRegimeFeatures config w) in
  marketRiskOn f = (regimeScore f >=? regimeScoreThreshold config) /\
  (regime f = MANIA <-> (regimeScore f >=? of_Z 70) = true) /\
  (regime f = NORMAL <->
     (regimeScore f >=? of_Z 70) = false /\ marketRiskOn f = true) /\
  (regime f = COLD <->
     (regimeScore f >=? of_Z 70) = false /\ marketRiskOn f = false).
Proof.
  intros f. subst f. rewrite computeRegimeFeatures_runs.
  destruct (regime_of_verdict config (clock w (clockReads w) - EVENT_WINDOW_MS)
              (eventBuffer w)) as [Hr Hm].
  cbv zeta in Hr, Hm. rewrite Hr, Hm.
  destruct (regimeScore _ >=? of_Z 70), (regimeScore _ >=? regimeScoreThreshold config);
    cbv iota; intuition congruence.
Qed.

Lemma regimeOf_ignores (config : EntryConfig) (ws : num)
    (before after : list PumpEvent) (e : PumpEvent) :
  ignorable ws e ->
  regimeOf config ws (before ++ e :: after) = regimeOf config ws (before ++ after).
Proof.
  intros Hig. unfold regimeOf.
  rewrite !List.filter_app. cbn [List.filter].
  destruct (ev_timestamp e >? ws) eqn:Ets; [|reflexivity].
  destruct Hig as [Hsell | Hold]; [|congruence].
  cbn [List.filter].
  destruct (ev_type e); try discriminate Hsell. reflexivity.
Qed.

Lemma quiet_scores :
  Math_min (of_Z 0 / of_Z 100) (of_Z 1) = of_Z 0 /\
  Math_round (Math_min (of_Z 0 / of_Z 20) (of_Z 1) * of_Z 30
              + Math_min (of_Z 0 / of_Z 500) (of_Z 1) * of_Z 40
              + Math_min (of_Z 0 / of_Z 5) (of_Z 1) * of_Z 30) = of_Z 0.
Proof. vm_compute. split; reflexivity. Qed.

Lemma regimeOf_empty (config : EntryConfig) (ws : num) :
  let f := regimeOf config ws [] in
  pumpfunLaunchRate f = of_Z 0 /\ pumpfunVolumeProxy f = of_Z 0 /\
  solVolatility f = of_Z 0 /\ regimeScore f = of_Z 0.
Proof.
  destruct quiet_scores as [Hv Hs].
  unfold regimeOf. cbv zeta.
  cbn [List.filter fold_left pumpfunLaunchRate pumpfunVolumeProxy solVolatility
       regimeScore].
  change (count (@nil PumpEvent)) with (of_Z 0).
  rewrite Hv, Hs. repeat split.
Qed.

Lemma regimeOf_all_ignorable (config : EntryConfig) (ws : num) (buf : list PumpEvent) :
  List.Forall (ignorable ws) buf -> regimeOf config ws buf = regimeOf config ws [].
Proof.
  induction buf as [|e rest IH]; [reflexivity|].
  intros Hall. inversion Hall as [|? ? He Hrest]; subst.
  change (e :: rest) with ([] ++ e :: rest).
  rewrite (regimeOf_ignores config ws [] rest e He). apply IH, Hrest.
Qed.

(** X14.  [computeRegimeFeatures] looks only at LAUNCH, BUY and GRADUATION
    events newer than five minutes: a SELL event, or an event at or
    before the window start, can be removed from the global buffer
    without changing any feature; and when the buffer holds only such
    events (or nothing) the launch rate, the volume, the volatility and
    the score are all 0. *)
Theorem regime_ignores_sells_and_stale_events (config : EntryConfig) (w : World) :
  let ws := clock w (clockReads w) - EVENT_WINDOW_MS in
  (forall before after e w',
     eventBuffer w = before ++ e :: after -> ignorable ws e ->
     eventBuffer w' = before ++ after ->
     clock w' = clock w -> clockReads w' = clockReads w ->
     fst (computeRegimeFeatures config w) = fst (computeRegimeFeatures config w')) /\
  (List.Forall (ignorable ws) (eventBuffer w) ->
   let f := fst (computeRegimeFeatures config w) in
   pumpfunLaunchRate f = of_Z 0 /\ pumpfunVolumeProxy f = of_Z 0 /\
   solVolatility f = of_Z 0 /\ regimeScore f = of_Z 0).
Proof.
  intros ws. split.
  - intros before after e w' Hbuf Hig Hbuf' Hclock Hreads.
    rewrite !computeRegimeFeatures_runs, Hbuf, Hbuf', Hclock, Hreads.
    apply regimeOf_ignores, Hig.
  - intros Hall f. subst f. rewrite computeRegimeFeatures_runs. fold ws.
    rewrite (regimeOf_all_ignorable config ws _ Hall). apply regimeOf_empty.
Qed.

End RegimeFacts.

Module TractionFacts.

Import FeatureEngine RegimeEngine TractionEngine FeatureSpec.

Lemma computeTractionFeatures_runs (tokenMint : string) (tokenInfo : TokenInfo)
    (w : World) :
  fst (computeTractionFeatures tokenMint tokenInfo w)
  = tractionOf (clock w (clockReads w)) tokenInfo
      (default [] (tokenEvents w !! tokenMint)).
Proof. reflexivity. Qed.

Lemma ltb_excludes_geb (x y : num) : (x <? y) = true -> (x >=? y) = false.
Proof.
  intros Hlt. unfold geb. change (SFleb y x) with (y <=? x).
  destruct (y <=? x) eqn:E; [|reflexivity].
  rewrite <- (F64Facts.ltb_irrefl y). symmetry.
  exact (F64Facts.leb_ltb_trans _ _ _ E Hlt).
Qed.

Lemma tenth_below_one : (dec 1 10 <? of_Z 1) = true.
Proof. vm_compute. reflexivity. Qed.

(** A buy falls into at most one size class, and into exactly one unless
    its amount is NaN. *)
Lemma one_class (b : PumpEvent) :
  (Nat.b2n (small b) + Nat.b2n (medium b) + Nat.b2n (large b) <= 1)%nat /\
  (is_nan (ev_amountSol b) = false ->
   (Nat.b2n (small b) + Nat.b2n (medium b) + Nat.b2n (large b) = 1)%nat).
Proof.
  unfold small, medium, large. set (a := ev_amountSol b).
  destruct (a <? dec 1 10) eqn:Es.
  - rewrite (ltb_excludes_geb _ _ Es). cbn [andb Nat.b2n].
    assert (Hl : (a >=? of_Z 1) = false).
    { apply ltb_excludes_geb.
      exact (F64Facts.ltb_trans _ _ _ Es tenth_below_one). }
    rewrite Hl. cbn. split; [lia | intros _; lia].
  - destruct (a <? of_Z 1) eqn:Em.
    + rewrite (ltb_excludes_geb _ _ Em), andb_true_r.
      destruct (a >=? dec 1 10) eqn:Eg; cbn [Nat.b2n].
      * split; [lia | intros _; lia].
      * split; [lia|]. intros Hn. exfalso.
        assert (H : (dec 1 10 <=? a) = true)
          by (apply F64Facts.leb_total; [exact Hn | reflexivity | exact Es]).
        unfold geb in Eg. change (SFleb (dec 1 10) a) with (dec 1 10 <=? a) in Eg.
        congruence.
    + rewrite andb_false_r. cbn [Nat.b2n].
      destruct (a >=? of_Z 1) eqn:Eg; cbn [Nat.b2n].
      * split; [lia | intros _; lia].
      * split; [lia|]. intros Hn. exfalso.
        assert (H : (of_Z 1 <=? a) = true)
          by (apply F64Facts.leb_total; [exact Hn | reflexivity | exact Em]).
        unfold geb in Eg. change (SFleb (of_Z 1) a) with (of_Z 1 <=? a) in Eg.
        congruence.
Qed.

Lemma filter_length_b2n {A} (p : A -> bool) (l : list A) :
  length (List.filter p l) = fold_right (fun x n => (Nat.b2n (p x) + n)%nat) 0%nat l.
Proof.
  induction l as [|x rest IH]; [reflexivity|].
  cbn [List.filter fold_right]. destruct (p x); cbn [length Nat.b2n]; lia.
Qed.

Lemma classes_count (buys : list PumpEvent) :
  (length (List.filter small buys) + length (List.filter medium buys)
   + length (List.filter large buys) <= length buys)%nat /\
  (List.Forall (fun b => is_nan (ev_amountSol b) = false) buys ->
   (length (List.filter small buys) + length (List.filter medium buys)
    + length (List.filter large buys) = length buys)%nat).
Proof.
  rewrite !filter_length_b2n.
  induction buys as [|b rest [IHle IHeq]]; [cbn; split; [lia | intros _; lia]|].
  destruct (one_class b) as [Hle Heq]. cbn [fold_right length]. split.
  - lia.
  - intros Hall. inversion Hall as [|? ? Hb Hrest]; subst.
    specialize (Heq Hb). specialize (IHeq Hrest). lia.
Qed.

Lemma uniqueCount_le (wallets : list string) :
  (uniqueCount wallets <= length wallets)%nat.
Proof.
  unfold uniqueCount. induction wallets as [|x rest IH].
  - cbn [list_to_set]. rewrite size_empty. lia.
  - cbn [list_to_set length].
    pose proof (size_union_alt ({[x]} : gset string) (list_to_set rest)) as Hu.
    assert (Hsub : (list_to_set rest ∖ {[x]} : gset string) ⊆ list_to_set rest)
      by apply subseteq_difference_l, reflexivity.
    apply subseteq_size in Hsub.
    rewrite size_singleton in Hu. lia.
Qed.

(** X15.  The three buy-size classes of the traction features partition the
    token's recent buys: the counts of small (below 0.1 SOL), medium
    (0.1 up to 1) and large (1 and above) buys never add up to more than
    the number of buys in the window, and add up to exactly that number
    when no amount is NaN.  The unique buyers are at most as many as the
    buys. *)
Theorem buy_size_classes_partition (tokenMint : string) (tokenInfo : TokenInfo)
    (w : World) :
  let f := fst (computeTractionFeatures tokenMint tokenInfo w) in
  let now := clock w (clockReads w) in
  let buys :=
    List.filter (fun e => is_BUY (ev_type e))
      (List.filter (fun e => ev_timestamp e >? now - EVENT_WINDOW_MS)
         (default [] (tokenEvents w !! tokenMint))) in
  exists nSmall nMedium nLarge nUnique : nat,
    buyCountSmall f = of_Z (Z.of_nat nSmall) /\
    buyCountMedium f = of_Z (Z.of_nat nMedium) /\
    buyCountLarge f = of_Z (Z.of_nat nLarge) /\
    uniqueBuyersPerMin f
    = of_Z (Z.of_nat nUnique) / (EVENT_WINDOW_MS / of_Z 60000) /\
    (nSmall + nMedium + nLarge <= length buys)%nat /\
    (nUnique <= length buys)%nat /\
    (List.Forall (fun b => is_nan (ev_amountSol b) = false) buys ->
     (nSmall + nMedium + nLarge = length buys)%nat).
Proof.
  intros f now buys. subst f. rewrite computeTractionFeatures_runs.
  fold now. unfold tractionOf. cbv zeta.
  cbn [buyCountSmall buyCountMedium buyCountLarge uniqueBuyersPerMin].
  fold buys.
  exists (length (List.filter small buys)), (length (List.filter medium buys)),
         (length (List.filter large buys)), (uniqueCount (map ev_wallet buys)).
  destruct (classes_count buys) as [Hle Heq].
  pose proof (uniqueCount_le (map ev_wallet buys)) as Hu.
  rewrite length_map in Hu.
  repeat split; try assumption.
Qed.

Lemma idle_traction :
  of_Z 0 / (EVENT_WINDOW_MS / of_Z 60000) = of_Z 0 /\
  (of_Z 0 + of_Z 0 >? of_Z 0) = false /\
  truthy (of_Z 0) = false /\
  (of_Z 0 + of_Z 0) / of_Z 1 = of_Z 0 /\
  (of_Z 0 >? of_Z 0) = false.
Proof. vm_compute. repeat split. Qed.

(** X16.  For a token with no recorded events (the key is missing from the
    per-token map) every traction figure takes its guarded value: no
    unique buyers, a net buy pressure of 0 rather than 0/0, empty size
    classes, a breadth score of 0 (the divisor falls back to 1), a price
    velocity of 0 rather than a division by the zero first-half volume,
    and a volume acceleration of -1. *)
Theorem traction_of_unknown_token (tokenMint : string) (tokenInfo : TokenInfo)
    (w : World) :
  tokenEvents w !! tokenMint = None ->
  let f := fst (computeTractionFeatures tokenMint tokenInfo w) in
  uniqueBuyersPerMin f = of_Z 0 /\ netBuyPressure f = of_Z 0 /\
  buyCountSmall f = of_Z 0 /\ buyCountMedium f = of_Z 0 /\
  buyCountLarge f = of_Z 0 /\ breadthScore f = of_Z 0 /\
  priceVelocity f = of_Z 0 /\ volumeAcceleration f = of_Z (-1) /\
  drawdownFromHigh f = of_Z 0.
Proof.
  intros Hnone f. subst f. rewrite computeTractionFeatures_runs, Hnone.
  destruct idle_traction as (I1 & I2 & I3 & I4 & I5).
  unfold tractionOf. cbv zeta.
  cbn [default from_option id List.filter map volumeOf fold_left
       uniqueBuyersPerMin netBuyPressure buyCountSmall buyCountMedium
       buyCountLarge breadthScore priceVelocity volumeAcceleration
       drawdownFromHigh].
  assert (Hu : uniqueCount [] = 0%nat)
    by (unfold uniqueCount; cbn [list_to_set]; apply size_empty).
  rewrite Hu. change (count (@nil PumpEvent)) with (of_Z 0).
  change (of_Z (Z.of_nat 0)) with (of_Z 0).
  rewrite I1, I2, I3, I4, I5. repeat split.
Qed.

Lemma traction_of_unknown_token_witness :
  netBuyPressure
    (fst (computeTractionFeatures "nobody"
            {| tok_mint := "nobody"; tok_name := "Nobody"; tok_symbol := "NOBODY";
               tok_creator := "creator"; tok_createdAt := of_Z 0;
               tok_phase := BONDING_CURVE; tok_bondingCurveAddress := None;
               tok_raydiumPoolAddress := None; tok_graduatedAt := None |}
            (sampleWorld RiskGovernor.initialRiskState emptyDatabase 0 (of_Z 0))))
  = of_Z 0.
Proof.
  pose proof (traction_of_unknown_token "nobody"
                {| tok_mint := "nobody"; tok_name := "Nobody"; tok_symbol := "NOBODY";
                   tok_creator := "creator"; tok_createdAt := of_Z 0;
                   tok_phase := BONDING_CURVE; tok_bondingCurveAddress := None;
                   tok_raydiumPoolAddress := None; tok_graduatedAt := None |}
                (sampleWorld RiskGovernor.initialRiskState emptyDatabase 0 (of_Z 0)))
    as H.
  cbv zeta in H. destruct H as (_ & H & _); [reflexivity | exact H].
Defined.

End TractionFacts.

(* ===================================================================== *)
(** ** Paper trading statistics *)
(* ===================================================================== *)

Module PaperStatsFacts.

Import PaperStatistics.

Lemma filter_idem {A} (p : A -> bool) (l : list A) :
  List.filter p (List.filter p l) = List.filter p l.
Proof.
  induction l as [|x rest IH]; [reflexivity|].
  cbn [List.filter]. destruct (p x) eqn:E; [|exact IH].
  cbn [List.filter]. rewrite E, IH. reflexivity.
Qed.

(** A position is a win or a loss, never both, and one of the two unless
    its realised PnL is NaN. *)
Lemma win_or_loss (p : Position) :
  (Nat.b2n (is_win p) + Nat.b2n (is_loss p) <= 1)%nat /\
  (is_nan (realizedPnlSol p) = false ->
   (Nat.b2n (is_win p) + Nat.b2n (is_loss p) = 1)%nat).
Proof.
  unfold is_win, is_loss, gtb. set (x := realizedPnlSol p).
  change (SFltb (of_Z 0) x) with (of_Z 0 <? x).
  destruct (of_Z 0 <? x) eqn:Ew; destruct (x <=? of_Z 0) eqn:El; cbn [Nat.b2n].
  - exfalso. pose proof (F64Facts.ltb_leb_trans _ _ _ Ew El) as H.
    rewrite F64Facts.ltb_irrefl in H. discriminate H.
  - split; [lia | intros _; lia].
  - split; [lia | intros _; lia].
  - split; [lia|]. intros Hn. exfalso.
    assert (H : (x <=? of_Z 0) = true)
      by (apply F64Facts.leb_total; [reflexivity | exact Hn | exact Ew]).
    congruence.
Qed.

Lemma wins_losses_count (closed : list Position) :
  (length (List.filter is_win closed) + length (List.filter is_loss closed)
   <= length closed)%nat /\
  (List.Forall (fun p => is_nan (realizedPnlSol p) = false) closed ->
   (length (List.filter is_win closed) + length (List.filter is_loss closed)
    = length closed)%nat).
Proof.
  rewrite !TractionFacts.filter_length_b2n.
  induction closed as [|p rest [IHle IHeq]]; [cbn; split; [lia | intros _; lia]|].
  destruct (win_or_loss p) as [Hle Heq]. cbn [fold_right length]. split.
  - lia.
  - intros Hall. inversion Hall as [|? ? Hp Hrest]; subst.
    specialize (Heq Hp). specialize (IHeq Hrest). lia.
Qed.

(** X17.  [computePaperStats] counts closed positions only: positions that are
    open or partially closed can be dropped from the input without
    changing any statistic.  Among the closed ones the wins (realised
    PnL above 0) and the losses (at most 0) never overlap, and they add
    up to the number of trades unless some realised PnL is NaN. *)
Theorem paper_stats_count_closed_trades (positions : list Position)
    (orders : list Order) :
  let stats := computePaperStats positions orders in
  let closed := List.filter is_CLOSED positions in
  computePaperStats closed orders = stats /\
  exists nWin nLoss : nat,
    totalTrades stats = of_Z (Z.of_nat (length closed)) /\
    winningTrades stats = of_Z (Z.of_nat nWin) /\
    losingTrades stats = of_Z (Z.of_nat nLoss) /\
    (nWin + nLoss <= length closed)%nat /\
    (List.Forall (fun p => is_nan (realizedPnlSol p) = false) closed ->
     (nWin + nLoss = length closed)%nat).
Proof.
  intros stats closed. subst stats. split.
  - unfold computePaperStats. subst closed. rewrite filter_idem. reflexivity.
  - unfold computePaperStats. cbv zeta.
    cbn [totalTrades winningTrades losingTrades]. fold closed.
    exists (length (List.filter is_win closed)), (length (List.filter is_loss closed)).
    destruct (wins_losses_count closed) as [Hle Heq].
    repeat split; assumption.
Qed.

Lemma filter_none {A} (p : A -> bool) (l : list A) :
  List.Forall (fun x => p x = false) l -> List.filter p l = [].
Proof.
  induction 1 as [|x rest Hx _ IH]; [reflexivity|].
  cbn [List.filter]. rewrite Hx. exact IH.
Qed.

Lemma omap_none {A B} (f : A -> option B) (l : list A) :
  List.Forall (fun x => f x = None) l -> omap f l = [].
Proof.
  induction 1 as [|x rest Hx _ IH]; [reflexivity|].
  cbn [omap list_omap]. rewrite Hx. exact IH.
Qed.

Lemma zero_expectancy :
  of_Z 0 * of_Z 0 - (of_Z 1 - of_Z 0) * of_Z 0 = of_Z 0.
Proof. vm_compute. reflexivity. Qed.

(** X18.  With no closed position and no order carrying a slippage, every
    statistic is 0: the averages and the win rate are guarded against
    dividing by an empty count, so none of them is NaN. *)
Theorem paper_stats_without_trades (positions : list Position) (orders : list Order) :
  List.Forall (fun p => is_CLOSED p = false) positions ->
  List.Forall (fun o => ord_slippageBps o = None) orders ->
  let stats := computePaperStats positions orders in
  totalTrades stats = of_Z 0 /\ winningTrades stats = of_Z 0 /\
  losingTrades stats = of_Z 0 /\ winRate stats = of_Z 0 /\
  totalPnlSol stats = of_Z 0 /\ avgPnlPerTrade stats = of_Z 0 /\
  avgSlippageBps stats = of_Z 0 /\ avgHoldTimeMinutes stats = of_Z 0 /\
  expectancy stats = of_Z 0.
Proof.
  intros Hopen Hslip stats. subst stats. unfold computePaperStats, slippagesOf.
  rewrite (filter_none _ _ Hopen), (omap_none _ _ Hslip).
  cbv zeta.
  cbn [List.filter map length Nat.ltb Nat.leb pnlOf fold_left
       totalTrades winningTrades losingTrades winRate totalPnlSol
       avgPnlPerTrade avgSlippageBps avgHoldTimeMinutes expectancy].
  rewrite zero_expectancy. repeat split.
Qed.

Lemma paper_stats_without_trades_witness :
  winRate (computePaperStats [SellSpec.oneTokenPosition] []) = of_Z 0.
Proof.
  pose proof (paper_stats_without_trades [SellSpec.oneTokenPosition] []) as H.
  cbv zeta in H. destruct H as (_ & _ & _ & H & _).
  - repeat constructor.
  - constructor.
  - exact H.
Defined.

End PaperStatsFacts.

(* ===================================================================== *)
(** ** Entry filters, summary and decision *)
(* ===================================================================== *)

Module DecisionFacts.

Import RiskGovernor FeatureEngine RegimeEngine TractionEngine DecisionEngine
       DecisionSpec ConfigCheck.

Lemma geb_false_ltb (x m : num) :
  is_nan x = false -> is_nan m = false -> (x >=? m) = false -> (x <? m) = true.
Proof.
  intros Hx Hm Hge. destruct (x <? m) eqn:E; [reflexivity|].
  pose proof (F64Facts.leb_total x m Hx Hm E) as H.
  unfold geb in Hge. change (SFleb m x) with (m <=? x) in Hge. congruence.
Qed.

Lemma riskLimits_pass_reason (c : BotConfig) (risk : RiskState) :
  negb (isHalted risk)
  && (currentExposurePct risk <? maxExposurePct c)
  && (todayTradeCount risk <? maxTradesPerDay c)
  && (hourTradeCount risk <? maxTradesPerHour c)
  && (consecutiveLosses risk <? maxConsecutiveLosses c)
  && (Math_abs (todayDrawdownPct risk) <? dailyMaxDrawdownPct c) = true ->
  riskLimitsReason c risk = TStr "All risk limits OK".
Proof.
  rewrite !andb_true_iff, negb_true_iff.
  intros (((((Hh & H1) & H2) & H3) & H4) & H5).
  unfold riskLimitsReason.
  rewrite Hh, (TractionFacts.ltb_excludes_geb _ _ H1),
    (TractionFacts.ltb_excludes_geb _ _ H2), (TractionFacts.ltb_excludes_geb _ _ H3),
    (TractionFacts.ltb_excludes_geb _ _ H4), (TractionFacts.ltb_excludes_geb _ _ H5).
  reflexivity.
Qed.

Lemma riskLimits_ok_reason (c : BotConfig) (risk : RiskState) :
  riskLimitsReason c risk = TStr "All risk limits OK" ->
  isHalted risk = false /\
  (currentExposurePct risk >=? maxExposurePct c) = false /\
  (todayTradeCount risk >=? maxTradesPerDay c) = false /\
  (hourTradeCount risk >=? maxTradesPerHour c) = false /\
  (consecutiveLosses risk >=? maxConsecutiveLosses c) = false /\
  (Math_abs (todayDrawdownPct risk) >=? dailyMaxDrawdownPct c) = false.
Proof.
  unfold riskLimitsReason.
  destruct (isHalted risk); [discriminate|].
  destruct (currentExposurePct risk >=? maxExposurePct c); [discriminate|].
  destruct (todayTradeCount risk >=? maxTradesPerDay c); [discriminate|].
  destruct (hourTradeCount risk >=? maxTradesPerHour c); [discriminate|].
  destruct (consecutiveLosses risk >=? maxConsecutiveLosses c); [discriminate|].
  destruct (Math_abs (todayDrawdownPct risk) >=? dailyMaxDrawdownPct c);
    [discriminate|].
  intros _. repeat split.
Qed.

(** X19.  The risk-limits entry filter: when it passes, its reason is "All
    risk limits OK"; a halted state always fails it and the reason
    names the halt; and as long as none of the compared figures is NaN
    the reason "All risk limits OK" means the filter passed.  With a NaN
    in play the two disagree: an exposure percentage of NaN fails the
    filter while the reason still reads "All risk limits OK". *)
Theorem riskLimits_reason_and_result (f : AllFeatures) (c : BotConfig)
    (e : EntryConfig) (token : TokenInfo) (risk : RiskState) :
  let chk := riskLimits f c e token risk in
  (flt_result chk = PASS -> flt_reason chk = TStr "All risk limits OK") /\
  (isHalted risk = true ->
     flt_result chk = FAIL /\
     flt_reason chk = TCat (TStr "Trading halted: ") (TOpt (haltReason risk))) /\
  (comparable_limits c risk ->
     flt_reason chk = TStr "All risk limits OK" -> flt_result chk = PASS) /\
  (let bad := riskLimits f DEFAULT_CONFIG e token undefinedExposure in
   flt_result bad = FAIL /\ flt_reason bad = TStr "All risk limits OK").
Proof.
  intros chk. subst chk. unfold riskLimits. cbv zeta.
  cbn [flt_result flt_reason].
  split; [|split; [|split]].
  - unfold verdictOf.
    destruct (negb (isHalted risk) && _ && _ && _ && _ && _) eqn:E;
      [|discriminate].
    intros _. apply riskLimits_pass_reason, E.
  - intros Hh. unfold riskLimitsReason. rewrite Hh. split; reflexivity.
  - intros (N1 & M1 & N2 & M2 & N3 & M3 & N4 & M4 & N5 & M5) Hok.
    destruct (riskLimits_ok_reason c risk Hok) as (Hh & G1 & G2 & G3 & G4 & G5).
    rewrite Hh, (geb_false_ltb _ _ N1 M1 G1), (geb_false_ltb _ _ N2 M2 G2),
      (geb_false_ltb _ _ N3 M3 G3), (geb_false_ltb _ _ N4 M4 G4),
      (geb_false_ltb _ _ N5 M5 G5).
    reflexivity.
  - vm_compute. split; reflexivity.
Qed.

Lemma firstn_map {A B} (g : A -> B) (n : nat) (l : list A) :
  firstn n (map g l) = map g (firstn n l).
Proof.
  revert l. induction n as [|n IH]; intros [|x l]; cbn; try reflexivity.
  rewrite IH. reflexivity.
Qed.

Lemma firstn_firstn_2_3 {A} (l : list A) : firstn 2 (firstn 3 l) = firstn 2 l.
Proof. destruct l as [|a [|b [|c l]]]; reflexivity. Qed.

(** X20.  [generateSummary] returns two or three bullets, never more.  For a
    TRADE verdict there are exactly three.  For a SKIP verdict the first
    bullet counts the failed filters and at most two reasons follow:
    those of the first two failed filters (the third collected reason is
    cut off again), or the stock sentence when no filter failed. *)
Theorem summary_is_at_most_three_bullets (verdict : Verdict)
    (filters : list FilterCheck) (features : AllFeatures) (token : TokenInfo) :
  let bullets := generateSummary verdict filters features token in
  (2 <= length bullets <= 3)%nat /\
  (verdict = TRADE -> length bullets = 3%nat) /\
  (verdict = SKIP ->
     tl bullets = firstn 2 (skipReasons filters) /\
     hd (TStr "") bullets
     = TCat (TStr "SKIPPING ")
         (TCat (TStr (tok_symbol token))
            (TCat (TStr ": ")
               (TCat (TNum (count (List.filter (fun f => is_FAIL (flt_result f))
                                     filters)))
                  (TStr " filter(s) failed"))))).
Proof.
  intros bullets. subst bullets. destruct verdict.
  - cbn [generateSummary length]. split; [lia|]. split; [reflexivity | discriminate].
  - unfold generateSummary, skipReasons. cbv zeta.
    set (failed := List.filter (fun f => is_FAIL (flt_result f)) filters).
    clearbody failed.
    split; [|split; [discriminate|]].
    + destruct failed as [|a [|b [|c l]]]; cbn; lia.
    + intros _. destruct failed as [|a [|b [|c l]]]; split; reflexivity.
Qed.

Section Decision.

Variable computeAllFeatures :
  string -> TokenInfo -> BotConfig -> EntryConfig -> num -> M AllFeatures.
Variable saveDecision : DecisionCard -> M unit.

Let evaluate := evaluateToken computeAllFeatures saveDecision.

Lemma forallb_app_false {A} (p : A -> bool) (l : list A) (x : A) :
  p x = false -> forallb p (l ++ [x]) = false.
Proof.
  intros Hx. rewrite forallb_app. cbn [forallb]. rewrite Hx.
  rewrite andb_false_r. reflexivity.
Qed.

(** X21.  Whatever the feature computation returns, [evaluateToken] decides
    TRADE only if every filter on the card passed; in particular only
    if the risk state is not halted, its exposure, trade counts,
    consecutive losses and drawdown are strictly inside their limits,
    and no open position holds the token.  A SKIP card carries neither
    an execution plan nor a risk impact; a TRADE card carries both,
    for the token, sized at the configured share of the equity, split
    in two when the order exceeds 1 SOL. *)
Theorem evaluateToken_trades_only_inside_limits (token : TokenInfo)
    (config : BotConfig) (entry : EntryConfig) (riskState : RiskState)
    (openPositions : list Position) (w : World) :
  let card := fst (evaluate token config entry riskState openPositions w) in
  let size := riskPerTradePct config / of_Z 100 * equitySol riskState in
  (card_verdict card = TRADE <->
     forallb (fun f => is_PASS (flt_result f)) (card_filters card) = true) /\
  (card_verdict card = TRADE ->
     isHalted riskState = false /\
     holds openPositions token = false /\
     (currentExposurePct riskState <? maxExposurePct config) = true /\
     (todayTradeCount riskState <? maxTradesPerDay config) = true /\
     (hourTradeCount riskState <? maxTradesPerHour config) = true /\
     (consecutiveLosses riskState <? maxConsecutiveLosses config) = true /\
     (Math_abs (todayDrawdownPct riskState) <? dailyMaxDrawdownPct config) = true /\
     length (card_filters card) = 13%nat /\
     exists p impact,
       executionPlan card = Some p /\ riskImpact card = Some impact /\
       outputMint (plan p) = tok_mint token /\
       amountInSol (plan p) = size /\
       splitOrders (plan p) = (if size >? of_Z 1 then of_Z 2 else of_Z 1) /\
       maxLossSol impact = size * (stopLossPct config / of_Z 100)) /\
  (card_verdict card = SKIP ->
     executionPlan card = None /\ riskImpact card = None) /\
  (holds openPositions token = true -> card_verdict card = SKIP) /\
  (isHalted riskState = true -> card_verdict card = SKIP).
Proof.
  intros card size. subst card evaluate. unfold evaluateToken, bind.
  destruct (computeAllFeatures _ _ _ _ _ w) as [features w1].
  cbn [uuidv4 Date_now ret fst snd].
  match goal with |- context [saveDecision ?c ?w0] =>
    destruct (saveDecision c w0) as [[] w4] end.
  wsimpl. cbn [card_verdict card_filters executionPlan riskImpact].
  fold size.
  set (base := map (fun fn => fn features config entry token riskState) FILTERS).
  set (results := if holds openPositions token then base ++ [duplicateCheck]
                  else base).
  set (allPassed := forallb (fun f => is_PASS (flt_result f)) results).
  assert (Hdup : holds openPositions token = true -> allPassed = false).
  { intros Hh. subst allPassed results. rewrite Hh.
    apply forallb_app_false. reflexivity. }
  assert (Hrisk : allPassed = true ->
            holds openPositions token = false /\
            negb (isHalted riskState)
            && (currentExposurePct riskState <? maxExposurePct config)
            && (todayTradeCount riskState <? maxTradesPerDay config)
            && (hourTradeCount riskState <? maxTradesPerHour config)
            && (consecutiveLosses riskState <? maxConsecutiveLosses config)
            && (Math_abs (todayDrawdownPct riskState) <? dailyMaxDrawdownPct config)
            = true).
  { intros Hall.
    destruct (holds openPositions token) eqn:Hh;
      [rewrite (Hdup eq_refl) in Hall; discriminate Hall|].
    split; [reflexivity|].
    subst allPassed results base. try rewrite Hh in Hall. cbv iota in Hall.
    rewrite forallb_forall in Hall.
    specialize (Hall (riskLimits features config entry token riskState)).
    cbn [FILTERS map In] in Hall.
    specialize (Hall ltac:(do 11 right; left; reflexivity)).
    unfold riskLimits in Hall. cbv zeta in Hall. cbn [flt_result] in Hall.
    unfold verdictOf in Hall.
    destruct (negb (isHalted riskState) && _ && _ && _ && _ && _);
      [reflexivity | discriminate Hall]. }
  clearbody allPassed.
  split; [|split; [|split; [|split]]].
  - destruct allPassed; split; intros H; try reflexivity; discriminate H.
  - destruct allPassed eqn:E; [|discriminate]. intros _.
    destruct (Hrisk eq_refl) as [Hh Hlim].
    rewrite !andb_true_iff, negb_true_iff in Hlim.
    destruct Hlim as (((((L0 & L1) & L2) & L3) & L4) & L5).
    repeat (split; [assumption|]).
    split.
    + subst results base. rewrite Hh. reflexivity.
    + eexists. eexists. repeat split.
  - destruct allPassed; [discriminate|]. intros _. split; reflexivity.
  - intros Hh. rewrite (Hdup Hh). reflexivity.
  - intros Hhalt. destruct allPassed eqn:E; [|reflexivity].
    destruct (Hrisk eq_refl) as [_ Hlim]. rewrite Hhalt in Hlim.
    discriminate Hlim.
Qed.

End Decision.

Lemma no_issue (cond : bool) (msg : string) (rest : list string) :
  issue cond msg ++ rest = [] <-> cond = false /\ rest = [].
Proof.
  unfold issue. destruct cond; cbn [app].
  - split; [discriminate | intros [H _]; discriminate H].
  - split; [intros ->; split; reflexivity | intros [_ ->]; reflexivity].
Qed.

Lemma validateConfig_clean (config : BotConfig) (entry : EntryConfig) :
  validateConfig config entry = [] <->
  (riskPerTradePct config >? of_Z 1) = false /\
  (maxExposurePct config >? of_Z 5) = false /\
  (dailyMaxDrawdownPct config >? of_Z 5) = false /\
  (stopLossPct config >? of_Z 50) = false /\
  (maxTradesPerDay config >? of_Z 50) = false /\
  (paperFailureRate config >? dec 5 10) = false /\
  (maxSlippageBps entry >? of_Z 1000) = false /\
  is_LIVE (mode entry) && no_wallet (walletPath entry) = false.
Proof.
  unfold validateConfig. rewrite !no_issue.
  unfold issue. destruct (is_LIVE (mode entry) && no_wallet (walletPath entry)).
  - split; [intros (_ & _ & _ & _ & _ & _ & _ & H); discriminate H
           | intros (_ & _ & _ & _ & _ & _ & _ & H); discriminate H].
  - tauto.
Qed.

Lemma nan_limit_blocks (config : BotConfig) (size : num) (w : World) :
  riskPerTradePct config = NaN ->
  allowed (fst (checkPreTradeRisk size config w)) = false.
Proof.
  intros Hnan. unfold checkPreTradeRisk, bind, get_risk, ret.
  destruct (refreshRiskCounters w) as [[] w1].
  cbn [fst snd allowed forallb passed]. rewrite Hnan.
  rewrite RiskEdgeFacts.leb_nan_r, !andb_false_r. reflexivity.
Qed.

(** X22.  [validateConfig] compares with [>], so a limit that is NaN raises no
    issue: a configuration whose per-trade risk is NaN and whose other
    settings are acceptable passes the check with no issue at all, and
    with it [checkPreTradeRisk] allows no trade of any size in any
    state. *)
Theorem nan_limit_passes_validation_and_blocks_trading (config : BotConfig)
    (entry : EntryConfig) :
  riskPerTradePct config = NaN ->
  other_settings_accepted config entry ->
  validateConfig config entry = [] /\
  forall size w, allowed (fst (checkPreTradeRisk size config w)) = false.
Proof.
  intros Hnan (H2 & H3 & H4 & H5 & H6 & H7 & H8). split.
  - apply validateConfig_clean. rewrite Hnan.
    repeat (split; [first [reflexivity | assumption]|]). assumption.
  - intros size w. apply nan_limit_blocks, Hnan.
Qed.

Lemma nan_limit_passes_validation_and_blocks_trading_witness :
  validateConfig undefinedRiskPerTrade DEFAULT_ENTRY_CONFIG = [] /\
  allowed (fst (checkPreTradeRisk (dec 2 100) undefinedRiskPerTrade
                  SellSpec.calmWorld)) = false.
Proof.
  destruct (nan_limit_passes_validation_and_blocks_trading undefinedRiskPerTrade
              DEFAULT_ENTRY_CONFIG) as [H1 H2].
  - reflexivity.
  - vm_compute. repeat split.
  - split; [exact H1 | apply H2].
Defined.

End DecisionFacts.

(* ===================================================================== *)
(** ** Compositions: events and features, kill switch, shown configuration *)
(* ===================================================================== *)

Module CompositionFacts.

Import RiskGovernor FeatureEngine ApiServer.

(** X23.  The first BUY recorded for a token becomes the token's whole
    history, and features computed while it is younger than a minute see
    exactly that buy: the reported liquidity depth is the larger of five
    times its amount and 1. *)
Theorem first_recorded_buy_sets_depth (event : PumpEvent) (orderSizeSol : num)
    (w : World) :
  tokenEvents w !! ev_tokenMint event = None ->
  ev_type event = BUY ->
  let w1 := snd (recordEvent event w) in
  (ev_timestamp event >? clock w1 (clockReads w1) - of_Z 60000) = true ->
  tokenEvents w1 !! ev_tokenMint event = Some [event] /\
  liquidityDepthSol
    (fst (computeExecutionRiskFeatures (ev_tokenMint event) orderSizeSol w1))
  = Math_max ((of_Z 0 + ev_amountSol event) * of_Z 5) (of_Z 1).
Proof.
  intros Hnone Hbuy w1 Hfresh.
  destruct (EventFacts.recordEvent_buffers event w) as (_ & Hown & _).
  fold w1 in Hown. rewrite Hnone in Hown. cbn [default from_option id app] in Hown.
  split; [exact Hown|].
  clearbody w1. unfold computeExecutionRiskFeatures. rewrite Hown.
  cbn [default from_option id filterM]. rewrite Hbuy. cbn [is_BUY].
  unfold bind at 1. unfold bind at 1. unfold bind at 1.
  cbn [Date_now]. cbn [ret]. rewrite Hfresh. reflexivity.
Qed.

Lemma first_recorded_buy_sets_depth_witness :
  liquidityDepthSol
    (fst (computeExecutionRiskFeatures "AssetA" (of_Z 1)
            (snd (recordEvent EventSpec.eventA
                    (sampleWorld initialRiskState emptyDatabase EventSpec.t0 (of_Z 0))))))
  = Math_max ((of_Z 0 + dec 5 10) * of_Z 5) (of_Z 1).
Proof.
  pose proof (first_recorded_buy_sets_depth EventSpec.eventA (of_Z 1)
                (sampleWorld initialRiskState emptyDatabase EventSpec.t0 (of_Z 0)))
    as H.
  cbv zeta in H. destruct H as (_ & H).
  - reflexivity.
  - reflexivity.
  - vm_compute. reflexivity.
  - exact H.
Defined.

(** X24.  [activateKillSwitch] followed by [deactivateKillSwitch]: trading is
    running again with no halt reason or halt time, and a risk state
    that was running with none recorded is restored exactly; the resume
    timestamp is whatever it was, and the CRITICAL incident written by
    the activation stays in the store. *)
Theorem kill_switch_round_trip (reason : Text) (w : World) :
  let w' := snd (deactivateKillSwitch (snd (activateKillSwitch reason w))) in
  isHalted (riskState w') = false /\
  haltReason (riskState w') = None /\ haltedAt (riskState w') = None /\
  resumeAt (riskState w') = resumeAt (riskState w) /\
  (isHalted (riskState w) = false -> haltReason (riskState w) = None ->
   haltedAt (riskState w) = None -> riskState w' = riskState w) /\
  exists incident,
    storeCalls w' = storeCalls w ++ [SaveIncident incident] /\
    inc_severity incident = CRITICAL /\
    inc_message incident = TCat (TStr "Kill switch: ") reason.
Proof.
  intros w'. subst w'.
  unfold deactivateKillSwitch, activateKillSwitch. wsimpl.
  cbn [with_halt isHalted haltReason haltedAt resumeAt].
  repeat (split; [reflexivity|]). split.
  - destruct (riskState w). cbn. intros -> -> ->. reflexivity.
  - eexists. repeat split.
Qed.

(** X25.  The configuration handed to the cockpit never carries the wallet
    path: the field is either absent or the fixed mask, and it is the
    mask exactly when a non-empty path is configured.  Every other
    setting is passed through unchanged, the two RPC endpoints
    included, and sanitising twice is the same as once. *)
Theorem sanitizeConfig_masks_wallet (config : BotConfig) (entry : EntryConfig) :
  let shown := sanitizeConfig config entry in
  (forall path, walletPath (snd shown) = Some path ->
                path = "***configured***"%string) /\
  (walletPath (snd shown) = None <->
   ConfigCheck.no_wallet (walletPath entry) = true) /\
  fst shown = config /\
  (mode (snd shown) = mode entry /\
   rpcEndpoint (snd shown) = rpcEndpoint entry /\
   rpcWsEndpoint (snd shown) = rpcWsEndpoint entry /\
   regimeScoreThreshold (snd shown) = regimeScoreThreshold entry /\
   minLiquidityDepthSol (snd shown) = minLiquidityDepthSol entry /\
   maxTop10HolderPct (snd shown) = maxTop10HolderPct entry /\
   minUniqueBuyersPerMin (snd shown) = minUniqueBuyersPerMin entry /\
   minBreadthScore (snd shown) = minBreadthScore entry /\
   maxSpreadBps (snd shown) = maxSpreadBps entry /\
   maxEstimatedSlippageBps (snd shown) = maxEstimatedSlippageBps entry /\
   minSecondsAfterGraduation (snd shown) = minSecondsAfterGraduation entry /\
   maxSecondsAfterGraduation (snd shown) = maxSecondsAfterGraduation entry /\
   maxSlippageBps (snd shown) = maxSlippageBps entry /\
   cfg_priorityFeeLamports (snd shown) = cfg_priorityFeeLamports entry /\
   maxRetries (snd shown) = maxRetries entry /\
   computeBudget (snd shown) = computeBudget entry /\
   tradePreGraduation (snd shown) = tradePreGraduation entry /\
   tradePostGraduation (snd shown) = tradePostGraduation entry) /\
  sanitizeConfig (fst shown) (snd shown) = shown.
Proof.
  intros shown. subst shown. unfold sanitizeConfig.
  cbn [fst snd walletPath mode maxSlippageBps regimeScoreThreshold
       rpcEndpoint rpcWsEndpoint minLiquidityDepthSol maxTop10HolderPct
       minUniqueBuyersPerMin minBreadthScore maxSpreadBps
       maxEstimatedSlippageBps minSecondsAfterGraduation
       maxSecondsAfterGraduation cfg_priorityFeeLamports maxRetries
       computeBudget tradePreGraduation tradePostGraduation].
  destruct (ConfigCheck.no_wallet (walletPath entry)) eqn:E.
  - split; [intros path H; discriminate H|]. split; [tauto|].
    repeat split.
  - split; [intros path [= <-]; reflexivity|].
    split; [split; intros H; discriminate H|].
    repeat split.
Qed.

End CompositionFacts.

(* ===================================================================== *)
(** ** Figures that stay within their range *)
(* ===================================================================== *)

Module BoundsFacts.

Import Rounding RoundingFacts SummationFacts.
Import RpcHealth RpcHealthSpec FeatureEngine RegimeEngine TractionEngine FeatureSpec.

Lemma next_counters_bounds (success : bool) (a k : Z) :
  (0 <= k <= a)%Z -> (a <= 200)%Z ->
  (0 <= nextFailures success a k <= nextAttempts a)%Z /\ (nextAttempts a <= 200)%Z.
Proof.
  intros Hk Ha. unfold nextFailures, nextAttempts.
  destruct (Z.ltb_spec a 200); destruct success; cbv beta iota zeta;
    split; Z.div_mod_to_equations; lia.
Qed.

Lemma recordAttempts_step (success : bool) (rest : list bool) (w : World) :
  recordAttempts (success :: rest) w
  = recordAttempts rest (snd (recordTxAttempt success w)).
Proof.
  cbn [recordAttempts]. unfold bind.
  destruct (recordTxAttempt success w). reflexivity.
Qed.

Lemma counters_stay_integers (outcomes : list bool) :
  forall (w : World) (a k : Z),
  (0 <= k <= a)%Z -> (a <= 200)%Z ->
  recentAttempts w = of_Z a -> recentFailures w = of_Z k ->
  exists a' k' : Z,
    (0 <= k' <= a')%Z /\ (a' <= 200)%Z /\
    recentAttempts (snd (recordAttempts outcomes w)) = of_Z a' /\
    recentFailures (snd (recordAttempts outcomes w)) = of_Z k'.
Proof.
  induction outcomes as [|success rest IH]; intros w a k Hk Ha Ea Ek.
  - exists a, k. cbn [recordAttempts ret snd]. repeat split; (assumption || lia).
  - rewrite recordAttempts_step.
    destruct (next_counters_bounds success a k Hk Ha) as [Hk' Ha'].
    apply (IH _ (nextAttempts a) (nextFailures success a k) Hk' Ha').
    + unfold recordTxAttempt, set_rpc. cbn [snd recentAttempts].
      rewrite Ea, Ek, (RpcHealthFacts.attemptCounters_integers success a k Hk Ha).
      reflexivity.
    + unfold recordTxAttempt, set_rpc. cbn [snd recentFailures].
      rewrite Ea, Ek, (RpcHealthFacts.attemptCounters_integers success a k Hk Ha).
      reflexivity.
Qed.

Lemma features_failure_rate (tokenMint : string) (orderSizeSol : num) (w : World) :
  recentFailureRate (fst (computeExecutionRiskFeatures tokenMint orderSizeSol w))
  = if recentAttempts w >? of_Z 0 then recentFailures w / recentAttempts w
    else of_Z 0.
Proof.
  unfold computeExecutionRiskFeatures, bind.
  destruct (filterM _ _ w) as [recent w']. reflexivity.
Qed.

(** X26.  Starting from cleared buffers, after any run of recorded
    transaction attempts the two counters are integers with
    0 <= failures <= attempts <= 200, and the failure rate that
    [computeExecutionRiskFeatures] reports is a number between 0 and 1
    (never NaN, never a division by zero). *)
Theorem failure_rate_stays_between_0_and_1 (outcomes : list bool)
    (tokenMint : string) (orderSizeSol : num) (w : World) :
  let w1 := snd (recordAttempts outcomes (snd (clearBuffers w))) in
  let f := fst (computeExecutionRiskFeatures tokenMint orderSizeSol w1) in
  (exists a k : Z,
     (0 <= k <= a)%Z /\ (a <= 200)%Z /\
     recentAttempts w1 = of_Z a /\ recentFailures w1 = of_Z k) /\
  (of_Z 0 <=? recentFailureRate f) = true /\
  (recentFailureRate f <=? of_Z 1) = true.
Proof.
  intros w1 f.
  destruct (counters_stay_integers outcomes (snd (clearBuffers w)) 0%Z 0%Z)
    as (a & k & Hk & Ha & Ea & Ek); try lia; try reflexivity.
  fold w1 in Ea, Ek.
  split; [exists a, k; repeat split; (assumption || lia)|].
  subst f. rewrite features_failure_rate, Ea, Ek.
  destruct (Z.eq_dec a 0%Z) as [->|Hne].
  - split; reflexivity.
  - rewrite (positive_integer a) by lia.
    destruct (ratio_in_unit k a) as [Hn Hle]; try lia.
    split; [apply nonneg_at_least_zero, Hn | exact Hle].
Qed.

(** X27.  The win rate of [computePaperStats] is a number between 0 and 1
    whatever the positions hold (NaN or infinite PnL included): it is
    the ratio of two counts, or 0 when no position is closed.  The
    bound on the number of positions holds for every JavaScript
    array. *)
Theorem win_rate_between_0_and_1 (positions : list Position) (orders : list Order) :
  (Z.of_nat (length positions) < 2 ^ 53)%Z ->
  let stats := PaperStatistics.computePaperStats positions orders in
  (of_Z 0 <=? PaperStatistics.winRate stats) = true /\
  (PaperStatistics.winRate stats <=? of_Z 1) = true.
Proof.
  intros Hlen stats. subst stats. unfold PaperStatistics.computePaperStats.
  cbv zeta. cbn [PaperStatistics.winRate].
  set (closed := List.filter PaperStatistics.is_CLOSED positions).
  destruct (Nat.ltb_spec 0 (length closed)) as [Hpos|Hz]; [|split; reflexivity].
  unfold count.
  pose proof (List.filter_length_le PaperStatistics.is_win closed) as Hw.
  pose proof (List.filter_length_le PaperStatistics.is_CLOSED positions) as Hc.
  fold closed in Hc.
  destruct (ratio_in_unit
              (Z.of_nat (length (List.filter PaperStatistics.is_win closed)))
              (Z.of_nat (length closed))) as [Hn Hle]; try lia.
  split; [apply nonneg_at_least_zero, Hn | exact Hle].
Qed.

Lemma win_rate_between_0_and_1_witness :
  (PaperStatistics.winRate
     (PaperStatistics.computePaperStats
        [StatsSpec.closedTrade; SellSpec.oneTokenPosition] [])
   <=? of_Z 1) = true.
Proof.
  apply (win_rate_between_0_and_1
           [StatsSpec.closedTrade; SellSpec.oneTokenPosition] []).
  reflexivity.
Defined.

Lemma caps :
  of_Z 1 * of_Z 30 = of_Z 30 /\ of_Z 1 * of_Z 40 = of_Z 40 /\
  Math_round (of_Z 30 + of_Z 40 + of_Z 30) = of_Z 100.
Proof. vm_compute. repeat split. Qed.

Lemma is_BUY_type (e : PumpEvent) : is_BUY (ev_type e) = true -> ev_type e = BUY.
Proof. destruct (ev_type e); (discriminate || reflexivity). Qed.

Lemma regimeOf_bounds (config : EntryConfig) (ws : num) (buf : list PumpEvent) :
  (forall e, In e buf -> ev_type e = BUY -> plausible_amount e) ->
  let f := regimeOf config ws buf in
  (of_Z 0 <=? regimeScore f) = true /\ (regimeScore f <=? of_Z 100) = true /\
  (of_Z 0 <=? solVolatility f) = true /\ (solVolatility f <=? of_Z 1) = true /\
  (of_Z 0 <=? pumpfunVolumeProxy f) = true.
Proof.
  intros Hall. unfold regimeOf. cbv zeta.
  cbn [regimeScore solVolatility pumpfunVolumeProxy].
  set (recent := List.filter (fun e => ev_timestamp e >? ws) buf).
  set (volume := fold_left _ (List.filter (fun e => is_BUY (ev_type e)) recent) _).
  set (launches := count (List.filter (fun e => is_LAUNCH (ev_type e)) recent)).
  set (graduations := count (List.filter (fun e => is_GRADUATION (ev_type e)) recent)).
  assert (Hv : nonneg_double volume).
  { apply (sum_nonneg ev_amountSol); [exact I|].
    intros e He. apply filter_In in He as [He Hbuy].
    apply filter_In in He as [He _].
    destruct (Hall e He (is_BUY_type e Hbuy)) as [Hd Hz].
    apply nonneg_of_zero_leb; assumption. }
  assert (Hl : nonneg_double launches) by (apply of_Z_nonneg; lia).
  assert (Hg : nonneg_double graduations) by (apply of_Z_nonneg; lia).
  destruct caps as (E30 & E40 & E100).
  destruct (capped_share launches 20%Z 30%Z) as [N1 L1]; try (split; reflexivity);
    [exact Hl|].
  destruct (capped_share volume 500%Z 40%Z) as [N2 L2]; try (split; reflexivity);
    [exact Hv|].
  destruct (capped_share graduations 5%Z 30%Z) as [N3 L3]; try (split; reflexivity);
    [exact Hg|].
  rewrite E30 in L1, L3. rewrite E40 in L2.
  pose proof (of_Z_nonneg 30%Z ltac:(lia)) as P30.
  pose proof (of_Z_nonneg 40%Z ltac:(lia)) as P40.
  pose proof (of_Z_nonneg 1%Z ltac:(lia)) as P1.
  destruct (of_Z_finite 100%Z ltac:(split; reflexivity)) as (p & e & E & Hc & _).
  pose proof (divBy_nonneg p e Hc volume Hv) as Hq.
  unfold divBy in Hq. rewrite <- E in Hq.
  destruct (Math_min_capped _ _ Hq P1) as [Nv Lv].
  pose proof (add_nonneg _ _ N1 N2) as N12.
  pose proof (add_nonneg _ _ P30 P40) as P70.
  pose proof (add_mono _ _ _ _ N1 P30 N2 P40 L1 L2) as L12.
  pose proof (add_nonneg _ _ N12 N3) as Nsum.
  pose proof (add_nonneg _ _ P70 P30) as Pcap.
  pose proof (add_mono _ _ _ _ N12 P70 N3 P30 L12 L3) as Lsum.
  split; [|split; [|split; [|split]]].
  - apply nonneg_at_least_zero, Math_round_nonneg, Nsum.
  - rewrite <- E100. exact (Math_round_mono _ _ Nsum Pcap Lsum).
  - apply nonneg_at_least_zero, Nv.
  - exact Lv.
  - apply nonneg_at_least_zero, Hv.
Qed.

(** X28.  As long as every BUY in the buffer carries an amount that is a
    non-negative double, the regime score of [computeRegimeFeatures] is
    between 0 and 100, the volatility figure between 0 and 1 and the
    volume proxy at least 0, however many events there are and however
    large the amounts (an infinite volume included). *)
Theorem regime_score_between_0_and_100 (config : EntryConfig) (w : World) :
  (forall e, In e (eventBuffer w) -> ev_type e = BUY -> plausible_amount e) ->
  let f := fst (computeRegimeFeatures config w) in
  (of_Z 0 <=? regimeScore f) = true /\ (regimeScore f <=? of_Z 100) = true /\
  (of_Z 0 <=? solVolatility f) = true /\ (solVolatility f <=? of_Z 1) = true /\
  (of_Z 0 <=? pumpfunVolumeProxy f) = true.
Proof.
  intros Hall f. subst f. rewrite RegimeFacts.computeRegimeFeatures_runs.
  apply regimeOf_bounds, Hall.
Qed.

Lemma regime_score_between_0_and_100_witness :
  (regimeScore (fst (computeRegimeFeatures DEFAULT_ENTRY_CONFIG livelyMarket))
   <=? of_Z 100) = true.
Proof.
  apply (regime_score_between_0_and_100 DEFAULT_ENTRY_CONFIG livelyMarket).
  intros e He Hbuy. cbn [livelyMarket set_events snd eventBuffer In] in He.
  destruct He as [<-|[<-|[<-|[<-|[]]]]]; try discriminate Hbuy.
  split; vm_compute; reflexivity.
Defined.

Lemma breadth_of_counts (s m n : nat) :
  (s + m <= n)%nat -> (Z.of_nat n < 2 ^ 53)%Z ->
  let totalBuys :=
    if truthy (of_Z (Z.of_nat n)) then of_Z (Z.of_nat n) else of_Z 1 in
  let breadth := (of_Z (Z.of_nat s) + of_Z (Z.of_nat m)) / totalBuys in
  (of_Z 0 <=? breadth) = true /\ (breadth <=? of_Z 1) = true.
Proof.
  intros Hsm Hn. cbv zeta.
  rewrite (of_Z_add (Z.of_nat s) (Z.of_nat m)) by lia.
  destruct n as [|n'].
  - assert (s = 0%nat) by lia. assert (m = 0%nat) by lia. subst s m.
    vm_compute. split; reflexivity.
  - rewrite truthy_integer by lia.
    destruct (ratio_in_unit (Z.of_nat s + Z.of_nat m)%Z (Z.of_nat (S n')))
      as [Hq Hle]; try lia.
    split; [apply nonneg_at_least_zero, Hq | exact Hle].
Qed.

(** X29.  The breadth score of [computeTractionFeatures] is a number
    between 0 and 1 whatever the events hold (NaN amounts included):
    the small and the medium buys are disjoint classes of the buys it
    divides by, and with no buy the divisor is 1.  The bound on the
    number of events holds for every JavaScript array. *)
Theorem breadth_score_between_0_and_1 (tokenMint : string) (tokenInfo : TokenInfo)
    (w : World) :
  (Z.of_nat (length (default [] (tokenEvents w !! tokenMint))) < 2 ^ 53)%Z ->
  let f := fst (computeTractionFeatures tokenMint tokenInfo w) in
  (of_Z 0 <=? breadthScore f) = true /\ (breadthScore f <=? of_Z 1) = true.
Proof.
  intros Hlen f. subst f. rewrite TractionFacts.computeTractionFeatures_runs.
  unfold tractionOf. cbv zeta. cbn [breadthScore].
  set (events := List.filter _ (default [] (tokenEvents w !! tokenMint))).
  set (buys := List.filter (fun e => is_BUY (ev_type e)) events).
  destruct (TractionFacts.classes_count buys) as [Hle _].
  unfold small, medium in Hle. unfold count.
  pose proof (List.filter_length_le (fun e => is_BUY (ev_type e)) events) as H1.
  pose proof (List.filter_length_le
                (fun e => ev_timestamp e >? clock w (clockReads w) - EVENT_WINDOW_MS)
                (default [] (tokenEvents w !! tokenMint))) as H2.
  fold events in H2. fold buys in H1.
  apply breadth_of_counts; lia.
Qed.

Lemma breadth_score_between_0_and_1_witness :
  (breadthScore
     (fst (computeTractionFeatures "AssetA" DecisionSpec.sampleToken livelyMarket))
   <=? of_Z 1) = true.
Proof.
  apply (breadth_score_between_0_and_1 "AssetA" DecisionSpec.sampleToken livelyMarket).
  reflexivity.
Defined.

End BoundsFacts.
